(** * Pacifica market maker: order-lifecycle controller and its data feeds

    A shallow embedding of [market_maker.py]: the shared [StrategyState],
    the two websocket feed tasks [websocket_price_updater] and
    [websocket_user_data_updater], the helpers [round_down],
    [should_reuse_order], [is_price_data_valid], [is_balance_data_valid],
    and the body of [market_making_loop]; then the spread loader under
    [get_spreads], the Supertrend signal reader, the startup sequence of
    [main], and [sort_json_keys] of [api_client.py].

    - Numbers.  Python [float] is IEEE-754 binary64 and is embedded as
      Rocq's primitive [float]: every sum, product, quotient and comparison
      below is the one the interpreter performs, rounding included.  Python
      [int] is [Z].  [int(x)], [round(x)], [n / d] on ints and the
      [f"{x:.{p}f}"] / [float(text)] round trip are defined on the exact
      value of the double.
    - Exceptions.  A computation returns [Ok a] or [Raise e] and the state
      it reached either way, as an assignment made before a [raise] stays
      made.
    - Messages.  A JSON object received on a socket is a record of the
      fields the handler reads, a numeric field being what
      [float(obj.get(key, default))] makes of it.  The events on the
      [order_updates] queue are dicts, as the controller inspects their
      keys.
    - Concurrency.  The tasks are coroutines on one event loop, so a task
      runs alone between two [await]s.  Each time the controller awaits,
      its environment lists the steps the feed tasks take meanwhile; the
      clock readings, the venue's answers and the spreads come from the
      environment as well.  Calls to the venue and sleeps of the controller
      are recorded in a trace, log calls in a log.
    - Files.  A decoded JSON document is a tree; what [os.path.isfile],
      [open] and [json.load] make of a path (no file, a failure, the
      document) comes from the environment, like the clock. *)

From Stdlib Require Import ZArith List Bool String Ascii Floats Lia.
From Stdlib Require Import Sorted Permutation RelationClasses.
Import ListNotations.

Set Warnings "-inexact-float,-register-all".

Local Open Scope string_scope.
Local Open Scope float_scope.

(* ================================================================== *)
(** ** Exceptions *)

Inductive ExnKind :=
| TimeoutError        (* asyncio.TimeoutError *)
| ZeroDivisionError
| ValueError
| TypeError
| OverflowError
| ConnectionClosed    (* websockets.exceptions.ConnectionClosed / InvalidState *)
| OtherError.         (* any other subclass of Exception *)

(** An exception value: its class and [str(e)]. *)
Record Exn := mkExn { exn_kind : ExnKind; exn_msg : string }.

Inductive Res (A : Type) :=
| Ok (a : A)
| Raise (e : Exn).
Arguments Ok {A} a.
Arguments Raise {A} e.

Definition is_timeout (e : Exn) : bool :=
  match exn_kind e with TimeoutError => true | _ => false end.

(* ================================================================== *)
(** ** Python numerics on binary64 *)

Module Py.

(** [bool(x)] for a float: false exactly for [0.0] and [-0.0]. *)
Definition truthy (x : float) : bool := negb (x =? 0).

(** [a > b], [a >= b] (false as soon as one side is NaN). *)
Definition gt (a b : float) : bool := b <? a.
Definition ge (a b : float) : bool := b <=? a.

(** [min(a, b)]: the second argument only when it is strictly smaller. *)
Definition min (a b : float) : float := if b <? a then b else a.

(** [a / b] on floats raises on a zero divisor. *)
Definition fdiv (a b : float) : Res float :=
  if b =? 0 then Raise (mkExn ZeroDivisionError "float division by zero")
  else Ok (a / b).

Definition of_pos (s : bool) (v : Z) : Z := if s then (- v)%Z else v.

(** [int(x)]: truncation toward zero. *)
Definition int_of_float (x : float) : Res Z :=
  match Prim2SF x with
  | S754_zero _ => Ok 0%Z
  | S754_finite s m e =>
      Ok (of_pos s (if (0 <=? e)%Z then Z.pos m * 2 ^ e
                    else Z.pos m / 2 ^ (- e))%Z)
  | S754_infinity _ =>
      Raise (mkExn OverflowError "cannot convert float infinity to integer")
  | S754_nan => Raise (mkExn ValueError "cannot convert float NaN to integer")
  end.

(** Nearest integer to [n / d] ([d > 0], [n >= 0]), ties to even. *)
Definition div_half_even (n d : Z) : Z :=
  let q := (n / d)%Z in
  let r := (n mod d)%Z in
  match (2 * r ?= d)%Z with
  | Lt => q
  | Gt => (q + 1)%Z
  | Eq => if Z.even q then q else (q + 1)%Z
  end.

(** [round(x)] with one argument: the nearest int, ties to even. *)
Definition round (x : float) : Res Z :=
  match Prim2SF x with
  | S754_zero _ => Ok 0%Z
  | S754_finite s m e =>
      Ok (of_pos s (if (0 <=? e)%Z then Z.pos m * 2 ^ e
                    else div_half_even (Z.pos m) (2 ^ (- e)))%Z)
  | S754_infinity _ =>
      Raise (mkExn OverflowError "cannot convert float infinity to integer")
  | S754_nan => Raise (mkExn ValueError "cannot convert float NaN to integer")
  end.

Definition SF_of_int (n : Z) : spec_float :=
  match n with
  | Z0 => S754_zero false
  | Zpos p => S754_finite false p 0
  | Zneg p => S754_finite true p 0
  end.

Definition is_inf (x : float) : bool :=
  match Prim2SF x with S754_infinity _ => true | _ => false end.

(** [float(n)] for an int, also the implicit conversion in [x * n]:
    correctly rounded, OverflowError when out of range. *)
Definition float_of_int (n : Z) : Res float :=
  let f := SF2Prim (binary_normalize prec emax n 0 false) in
  if is_inf f then Raise (mkExn OverflowError "int too large to convert to float")
  else Ok f.

(** [n / d] on ints (true division): the correctly rounded quotient. *)
Definition int_truediv (n d : Z) : Res float :=
  if (d =? 0)%Z then Raise (mkExn ZeroDivisionError "division by zero")
  else
    let f := SF2Prim (SFdiv prec emax (SF_of_int n) (SF_of_int d)) in
    if is_inf f then Raise (mkExn OverflowError "integer division result too large for a float")
    else Ok f.

(** The text produced by [f"{x:.{p}f}"]: a sign, the digits as one integer
    scaled by [10^p], and [p]; or [inf] / [nan]. *)
Inductive Formatted :=
| FmtFixed (neg : bool) (units : Z) (places : nat)
| FmtInf (neg : bool)
| FmtNan.

(** Formatting rounds the exact binary value to [p] decimals, ties to even. *)
Definition format_f (x : float) (p : nat) : Formatted :=
  match Prim2SF x with
  | S754_zero s => FmtFixed s 0 p
  | S754_finite s m e =>
      let scale := (10 ^ Z.of_nat p)%Z in
      FmtFixed s (if (0 <=? e)%Z then Z.pos m * 2 ^ e * scale
                  else div_half_even (Z.pos m * scale) (2 ^ (- e)))%Z p
  | S754_infinity s => FmtInf s
  | S754_nan => FmtNan
  end.

(** [float(s)] of such a text: the double nearest to the decimal. *)
Definition float_of_formatted (s : Formatted) : float :=
  match s with
  | FmtFixed neg u p =>
      let q := SF2Prim (SFdiv prec emax (SF_of_int u)
                          (SF_of_int (10 ^ Z.of_nat p))) in
      if neg then - q else q
  | FmtInf neg => if neg then neg_infinity else infinity
  | FmtNan => nan
  end.

(** [needle in hay] on strings. *)
Fixpoint contains (needle hay : string) : bool :=
  String.prefix needle hay ||
  match hay with
  | EmptyString => false
  | String _ rest => contains needle rest
  end.

End Py.

(* ================================================================== *)
(** ** Python values on the fill-event queue *)

(** The queue carries dict literals; their values are [None], ints, floats,
    strings and nested dicts.  A dict is an association list in insertion
    order. *)
Inductive pyval :=
| PNone
| PInt (n : Z)
| PFloat (x : float)
| PStr (s : string)
| PDict (d : list (string * pyval)).

Definition dict := list (string * pyval).

Fixpoint dict_lookup (d : dict) (k : string) : option pyval :=
  match d with
  | [] => None
  | (k', v) :: rest => if String.eqb k' k then Some v else dict_lookup rest k
  end.

(** [d.get(k)] and [d.get(k, default)]. *)
Definition dict_get (d : dict) (k : string) : pyval :=
  match dict_lookup d k with Some v => v | None => PNone end.

Definition dict_get_default (d : dict) (k : string) (default : pyval) : pyval :=
  match dict_lookup d k with Some v => v | None => default end.

(** [v == 'text']. *)
Definition py_eq_str (v : pyval) (s : string) : bool :=
  match v with PStr t => String.eqb t s | _ => false end.

(** [v == n] for an int [n]: a float compares by exact value. *)
Definition py_eq_int (v : pyval) (n : Z) : bool :=
  match v with
  | PInt m => (m =? n)%Z
  | PFloat x =>
      match Py.int_of_float x with
      | Ok m =>
          (m =? n)%Z &&
          match Py.float_of_int m with Ok y => (y =? x) | Raise _ => false end
      | Raise _ => false
      end
  | _ => false
  end.

(** [v == state.active_order_id], the right side being [None] or an int. *)
Definition py_eq_id (v : pyval) (id : option Z) : bool :=
  match id with
  | None => match v with PNone => true | _ => false end
  | Some n => py_eq_int v n
  end.

(** [v.get] needs a dict: a [.get] on anything else is an AttributeError. *)
Definition as_dict (v : pyval) : Res dict :=
  match v with
  | PDict d => Ok d
  | _ => Raise (mkExn OtherError "object has no attribute 'get'")
  end.

(* ================================================================== *)
(** ** Configuration constants *)

Definition DEFAULT_BALANCE_FRACTION : float := 0.20.
Definition POSITION_THRESHOLD_USD : float := 15.0.
Definition ORDER_REFRESH_INTERVAL : float := 30.
Definition RETRY_ON_ERROR_INTERVAL : float := 30.
Definition DEFAULT_PRICE_CHANGE_THRESHOLD : float := 0.001.
Definition USE_SUPERTREND_SIGNAL : bool := true.
Definition CANCEL_SPECIFIC_ORDER : bool := true.
Definition MIN_ORDER_INTERVAL : float := 1.0.

(* ================================================================== *)
(** ** Shared state *)

(** [mode], [side]: the strings ['bid'] and ['ask']. *)
Inductive Side := bid | ask.

Definition Side_eqb (a b : Side) : bool :=
  match a, b with bid, bid | ask, ask => true | _, _ => false end.

Definition Side_str (s : Side) : string :=
  match s with bid => "bid" | ask => "ask" end.

(** [class StrategyState]; [None] is [None]. *)
Record StrategyState := mkState {
  bid_price : option float;
  ask_price : option float;
  mid_price : option float;
  active_order_id : option Z;
  position_size : float;
  flip_mode : bool;
  mode : Side;
  last_order_price : option float;
  last_order_side : option Side;
  last_order_quantity : option float;
  account_balance : option float;
  balance_last_updated : option float;
  usdc_balance : float;
  order_updates : list dict;          (* asyncio.Queue, head first *)
  price_ws_connected : bool;
  user_data_ws_connected : bool;
  supertrend_signal : option Z
}.

(** [StrategyState(flip_mode)]. *)
Definition StrategyState_init (flip : bool) : StrategyState :=
  {| bid_price := None; ask_price := None; mid_price := None;
     active_order_id := None; position_size := 0.0;
     flip_mode := flip; mode := if flip then ask else bid;
     last_order_price := None; last_order_side := None;
     last_order_quantity := None;
     account_balance := None; balance_last_updated := None;
     usdc_balance := 0.0; order_updates := [];
     price_ws_connected := false; user_data_ws_connected := false;
     supertrend_signal := None |}.

Inductive Level := DEBUG | INFO | WARNING | ERROR.

(** One logging call: its level and its (uninterpolated) text. *)
Record LogEntry := mkLog { log_level : Level; log_text : string }.

(** Calls that leave the controller task. *)
Inductive Action :=
| CancelOrder (id : Z)                 (* client.cancel_order(symbol, id) *)
| CancelAllOrders                      (* client.cancel_all_orders(symbol) *)
| PlaceOrder (price quantity : Py.Formatted) (side : Side) (reduce_only : bool)
| Sleep (seconds : float).             (* asyncio.sleep *)

(** Where a feed task is suspended. *)
Inductive FeedPhase :=
| Connecting                            (* in [websockets.connect] / [send] *)
| Streaming (last_message_time : float) (* in [wait_for(recv(), 30.0)] *)
| Backoff                               (* in [sleep(reconnect_delay)] *)
| Stopped.                              (* left the outer loop *)

(** The task's local variables. *)
Record FeedLocal := mkFeed { phase : FeedPhase; reconnect_delay : float }.

(** The process: the shared state, the two module-level globals, the local
    variables of the two feed tasks, the log written so far and the calls
    made so far (oldest first). *)
Record World := mkWorld {
  st : StrategyState;
  price_last_updated : option float;
  last_order_time : float;
  price_task : FeedLocal;
  user_task : FeedLocal;
  logged : list LogEntry;
  trace : list Action
}.

(** The state in which [main] starts the tasks: each feed at the head of
    its outer loop with [reconnect_delay = 5]. *)
Definition World_init (flip : bool) : World :=
  {| st := StrategyState_init flip; price_last_updated := None;
     last_order_time := 0;
     price_task := mkFeed Connecting 5; user_task := mkFeed Connecting 5;
     logged := []; trace := [] |}.

(** *** Field assignments *)

Definition with_st (f : StrategyState -> StrategyState) (w : World) : World :=
  {| st := f (st w); price_last_updated := price_last_updated w;
     last_order_time := last_order_time w;
     price_task := price_task w; user_task := user_task w;
     logged := logged w; trace := trace w |}.

Definition with_price_last_updated (t : option float) (w : World) : World :=
  {| st := st w; price_last_updated := t;
     last_order_time := last_order_time w;
     price_task := price_task w; user_task := user_task w;
     logged := logged w; trace := trace w |}.

Definition with_last_order_time (t : float) (w : World) : World :=
  {| st := st w; price_last_updated := price_last_updated w;
     last_order_time := t;
     price_task := price_task w; user_task := user_task w;
     logged := logged w; trace := trace w |}.

Definition with_price_task (l : FeedLocal) (w : World) : World :=
  {| st := st w; price_last_updated := price_last_updated w;
     last_order_time := last_order_time w;
     price_task := l; user_task := user_task w;
     logged := logged w; trace := trace w |}.

Definition with_user_task (l : FeedLocal) (w : World) : World :=
  {| st := st w; price_last_updated := price_last_updated w;
     last_order_time := last_order_time w;
     price_task := price_task w; user_task := l;
     logged := logged w; trace := trace w |}.

Definition with_logged (f : list LogEntry -> list LogEntry) (w : World) : World :=
  {| st := st w; price_last_updated := price_last_updated w;
     last_order_time := last_order_time w;
     price_task := price_task w; user_task := user_task w;
     logged := f (logged w); trace := trace w |}.

Definition with_trace (f : list Action -> list Action) (w : World) : World :=
  {| st := st w; price_last_updated := price_last_updated w;
     last_order_time := last_order_time w;
     price_task := price_task w; user_task := user_task w;
     logged := logged w; trace := f (trace w) |}.

Definition set_prices (b a m : float) (s : StrategyState) : StrategyState :=
  {| bid_price := Some b; ask_price := Some a; mid_price := Some m;
     active_order_id := active_order_id s; position_size := position_size s;
     flip_mode := flip_mode s; mode := mode s;
     last_order_price := last_order_price s;
     last_order_side := last_order_side s;
     last_order_quantity := last_order_quantity s;
     account_balance := account_balance s;
     balance_last_updated := balance_last_updated s;
     usdc_balance := usdc_balance s; order_updates := order_updates s;
     price_ws_connected := price_ws_connected s;
     user_data_ws_connected := user_data_ws_connected s;
     supertrend_signal := supertrend_signal s |}.

Definition set_active_order_id (v : option Z) (s : StrategyState) : StrategyState :=
  {| bid_price := bid_price s; ask_price := ask_price s; mid_price := mid_price s;
     active_order_id := v; position_size := position_size s;
     flip_mode := flip_mode s; mode := mode s;
     last_order_price := last_order_price s;
     last_order_side := last_order_side s;
     last_order_quantity := last_order_quantity s;
     account_balance := account_balance s;
     balance_last_updated := balance_last_updated s;
     usdc_balance := usdc_balance s; order_updates := order_updates s;
     price_ws_connected := price_ws_connected s;
     user_data_ws_connected := user_data_ws_connected s;
     supertrend_signal := supertrend_signal s |}.

Definition set_position_size (v : float) (s : StrategyState) : StrategyState :=
  {| bid_price := bid_price s; ask_price := ask_price s; mid_price := mid_price s;
     active_order_id := active_order_id s; position_size := v;
     flip_mode := flip_mode s; mode := mode s;
     last_order_price := last_order_price s;
     last_order_side := last_order_side s;
     last_order_quantity := last_order_quantity s;
     account_balance := account_balance s;
     balance_last_updated := balance_last_updated s;
     usdc_balance := usdc_balance s; order_updates := order_updates s;
     price_ws_connected := price_ws_connected s;
     user_data_ws_connected := user_data_ws_connected s;
     supertrend_signal := supertrend_signal s |}.

Definition set_flip_mode (v : bool) (s : StrategyState) : StrategyState :=
  {| bid_price := bid_price s; ask_price := ask_price s; mid_price := mid_price s;
     active_order_id := active_order_id s; position_size := position_size s;
     flip_mode := v; mode := mode s;
     last_order_price := last_order_price s;
     last_order_side := last_order_side s;
     last_order_quantity := last_order_quantity s;
     account_balance := account_balance s;
     balance_last_updated := balance_last_updated s;
     usdc_balance := usdc_balance s; order_updates := order_updates s;
     price_ws_connected := price_ws_connected s;
     user_data_ws_connected := user_data_ws_connected s;
     supertrend_signal := supertrend_signal s |}.

Definition set_mode (v : Side) (s : StrategyState) : StrategyState :=
  {| bid_price := bid_price s; ask_price := ask_price s; mid_price := mid_price s;
     active_order_id := active_order_id s; position_size := position_size s;
     flip_mode := flip_mode s; mode := v;
     last_order_price := last_order_price s;
     last_order_side := last_order_side s;
     last_order_quantity := last_order_quantity s;
     account_balance := account_balance s;
     balance_last_updated := balance_last_updated s;
     usdc_balance := usdc_balance s; order_updates := order_updates s;
     price_ws_connected := price_ws_connected s;
     user_data_ws_connected := user_data_ws_connected s;
     supertrend_signal := supertrend_signal s |}.

(** The three [last_order_*] fields, always assigned together. *)
Definition set_last_order (p : option float) (sd : option Side)
    (q : option float) (s : StrategyState) : StrategyState :=
  {| bid_price := bid_price s; ask_price := ask_price s; mid_price := mid_price s;
     active_order_id := active_order_id s; position_size := position_size s;
     flip_mode := flip_mode s; mode := mode s;
     last_order_price := p; last_order_side := sd; last_order_quantity := q;
     account_balance := account_balance s;
     balance_last_updated := balance_last_updated s;
     usdc_balance := usdc_balance s; order_updates := order_updates s;
     price_ws_connected := price_ws_connected s;
     user_data_ws_connected := user_data_ws_connected s;
     supertrend_signal := supertrend_signal s |}.

(** [usdc_balance], [account_balance], [balance_last_updated] together. *)
Definition set_balance (v now : float) (s : StrategyState) : StrategyState :=
  {| bid_price := bid_price s; ask_price := ask_price s; mid_price := mid_price s;
     active_order_id := active_order_id s; position_size := position_size s;
     flip_mode := flip_mode s; mode := mode s;
     last_order_price := last_order_price s;
     last_order_side := last_order_side s;
     last_order_quantity := last_order_quantity s;
     account_balance := Some v; balance_last_updated := Some now;
     usdc_balance := v; order_updates := order_updates s;
     price_ws_connected := price_ws_connected s;
     user_data_ws_connected := user_data_ws_connected s;
     supertrend_signal := supertrend_signal s |}.

Definition set_order_updates (q : list dict) (s : StrategyState) : StrategyState :=
  {| bid_price := bid_price s; ask_price := ask_price s; mid_price := mid_price s;
     active_order_id := active_order_id s; position_size := position_size s;
     flip_mode := flip_mode s; mode := mode s;
     last_order_price := last_order_price s;
     last_order_side := last_order_side s;
     last_order_quantity := last_order_quantity s;
     account_balance := account_balance s;
     balance_last_updated := balance_last_updated s;
     usdc_balance := usdc_balance s; order_updates := q;
     price_ws_connected := price_ws_connected s;
     user_data_ws_connected := user_data_ws_connected s;
     supertrend_signal := supertrend_signal s |}.

Definition set_price_ws_connected (v : bool) (s : StrategyState) : StrategyState :=
  {| bid_price := bid_price s; ask_price := ask_price s; mid_price := mid_price s;
     active_order_id := active_order_id s; position_size := position_size s;
     flip_mode := flip_mode s; mode := mode s;
     last_order_price := last_order_price s;
     last_order_side := last_order_side s;
     last_order_quantity := last_order_quantity s;
     account_balance := account_balance s;
     balance_last_updated := balance_last_updated s;
     usdc_balance := usdc_balance s; order_updates := order_updates s;
     price_ws_connected := v;
     user_data_ws_connected := user_data_ws_connected s;
     supertrend_signal := supertrend_signal s |}.

Definition set_user_data_ws_connected (v : bool) (s : StrategyState) : StrategyState :=
  {| bid_price := bid_price s; ask_price := ask_price s; mid_price := mid_price s;
     active_order_id := active_order_id s; position_size := position_size s;
     flip_mode := flip_mode s; mode := mode s;
     last_order_price := last_order_price s;
     last_order_side := last_order_side s;
     last_order_quantity := last_order_quantity s;
     account_balance := account_balance s;
     balance_last_updated := balance_last_updated s;
     usdc_balance := usdc_balance s; order_updates := order_updates s;
     price_ws_connected := price_ws_connected s;
     user_data_ws_connected := v;
     supertrend_signal := supertrend_signal s |}.

(* ================================================================== *)
(** ** The task monad: state that survives an exception *)

Definition M (A : Type) : Type := World -> Res A * World.

Definition ret {A} (a : A) : M A := fun w => (Ok a, w).

Definition bind {A B} (c : M A) (k : A -> M B) : M B :=
  fun w => match c w with
           | (Ok a, w') => k a w'
           | (Raise e, w') => (Raise e, w')
           end.

Definition raise {A} (e : Exn) : M A := fun w => (Raise e, w).

(** [try: c  except Exception as e: h e]. *)
Definition try_except {A} (c : M A) (h : Exn -> M A) : M A :=
  fun w => match c w with
           | (Ok a, w') => (Ok a, w')
           | (Raise e, w') => h e w'
           end.

Definition lift {A} (r : Res A) : M A := fun w => (r, w).

Definition get_state : M StrategyState := fun w => (Ok (st w), w).

Definition modify (f : StrategyState -> StrategyState) : M unit :=
  fun w => (Ok tt, with_st f w).

Definition get_world : M World := fun w => (Ok w, w).

Definition log_ (l : Level) (text : string) : M unit :=
  fun w => (Ok tt, with_logged (fun ls => (ls ++ [mkLog l text])%list) w).

Definition emit (a : Action) : M unit :=
  fun w => (Ok tt, with_trace (fun t => (t ++ [a])%list) w).

Definition set_price_last_updated (t : float) : M unit :=
  fun w => (Ok tt, with_price_last_updated (Some t) w).

Definition set_last_order_time (t : float) : M unit :=
  fun w => (Ok tt, with_last_order_time t w).

Declare Scope task_scope.
Delimit Scope task_scope with task.
Notation "x <- c ;; k" := (bind c (fun x => k))
  (at level 100, c at next level, right associativity) : task_scope.
Notation "c ;;; k" := (bind c (fun _ => k))
  (at level 100, right associativity) : task_scope.
Local Open Scope task_scope.

Definition when (b : bool) (c : M unit) : M unit := if b then c else ret tt.

(** [asyncio.sleep(d)]. *)
Definition sleep (d : float) : M unit := emit (Sleep d).

(* ================================================================== *)
(** ** Inbound websocket messages *)

(** A numeric field of a JSON object as [float(obj.get(key, default))] sees
    it: missing, convertible to the given float, or not convertible. *)
Inductive NumField :=
| Absent
| Num (x : float)
| Unparsable.

Definition float_field (f : NumField) (default : float) : Res float :=
  match f with
  | Absent => Ok default
  | Num x => Ok x
  | Unparsable => Raise (mkExn ValueError "could not convert string to float")
  end.

(** An entry of [account_positions]: keys ['s'], ['a'], ['p'], ['d']. *)
Record PositionEntry := mkPosition {
  pos_s : option string;
  pos_a : NumField;
  pos_p : NumField;
  pos_d : option string
}.

(** An entry of [account_orders]: keys ['i'], ['f'], ['a'], ['s'], ['d']. *)
Record OrderEntry := mkOrder {
  ord_i : option Z;
  ord_f : NumField;
  ord_a : NumField;
  ord_s : option string;
  ord_d : option string
}.

(** [data.get('channel')] with the matching [data.get('data', ...)]. *)
Inductive ChannelData :=
| AccountInfo (available : NumField)             (* key ['as'] *)
| AccountPositions (positions : list PositionEntry)
| AccountOrders (orders : list OrderEntry)
| OtherChannel.

(** A decoded JSON object on the account socket.  [um_subscribed] is
    ['subscribed' in str(data).lower()]; [um_error] is [None] without an
    ['error'] key, else whether that error's text contains ['auth']. *)
Record UserMessage := mkUserMessage {
  um_subscribed : bool;
  um_channel : ChannelData;
  um_error : option bool
}.

Inductive Inbound (Msg : Type) :=
| NotJson                      (* json.loads raises JSONDecodeError *)
| NotAnObject (subscribed : bool) (* decodes, but has no [.get] *)
| Object (m : Msg).
Arguments NotJson {Msg}.
Arguments NotAnObject {Msg} subscribed.
Arguments Object {Msg} m.

(** An entry of the [prices] channel: keys ['symbol'], ['mid'], ['mark']. *)
Record PriceEntry := mkPrice {
  pe_symbol : option string;
  pe_mid : NumField;
  pe_mark : NumField
}.

(** A decoded JSON object on the price socket; [pm_prices] is the list
    under ['data'] when [channel == 'prices']. *)
Record PriceMessage := mkPriceMessage {
  pm_subscribed : bool;
  pm_prices : option (list PriceEntry)
}.

(** What one pass through the body of a [while] loop does next. *)
Inductive LoopCtl := Continue | Break.

Definition opt_str_eqb (o : option string) (s : string) : bool :=
  match o with Some t => String.eqb t s | None => false end.

Definition opt_pystr (o : option string) : pyval :=
  match o with Some t => PStr t | None => PNone end.

(** [if state.active_order_id:] *)
Definition id_truthy (o : option Z) : bool :=
  match o with Some n => negb (n =? 0)%Z | None => false end.

Definition opening_mode_of (flip : bool) : Side := if flip then ask else bid.
Definition closing_mode_of (flip : bool) : Side := if flip then bid else ask.

(* ================================================================== *)
(** ** [websocket_user_data_updater]: one received message *)

(** The body of [if position.get('s') == symbol:]. *)
Definition on_position (position : PositionEntry) : M unit :=
  a <- lift (float_field (pos_a position) 0) ;;
  entry_price <- lift (float_field (pos_p position) 0) ;;
  let position_side := match pos_d position with Some d => d | None => "bid" end in
  let new_position_size :=
    if String.eqb position_side "ask" then - (abs a) else abs a in
  let notional_value :=
    if Py.gt entry_price 0 then abs (new_position_size * entry_price) else 0 in
  s <- get_state ;;
  when (Py.gt (abs (position_size s - new_position_size)) 1e-9)
       (log_ INFO "Position update from WS" ;;;
        modify (set_position_size new_position_size)) ;;;
  s <- get_state ;;
  let opening_mode := opening_mode_of (flip_mode s) in
  let closing_mode := closing_mode_of (flip_mode s) in
  if notional_value <? POSITION_THRESHOLD_USD then
    when (negb (Side_eqb (mode s) opening_mode))
         (log_ INFO "Position notional < threshold. Switching to opening mode" ;;;
          modify (set_mode opening_mode) ;;;
          modify (set_position_size 0.0))
  else
    when (negb (Side_eqb (mode s) closing_mode))
         (log_ INFO "Position notional >= threshold. Switching to closing mode" ;;;
          modify (set_mode closing_mode)).

(** [for position in positions_list]; the result is [position_found]. *)
Fixpoint for_positions (symbol : string) (positions : list PositionEntry)
    (position_found : bool) : M bool :=
  match positions with
  | [] => ret position_found
  | position :: rest =>
      if opt_str_eqb (pos_s position) symbol then
        on_position position ;;;
        for_positions symbol rest true
      else for_positions symbol rest position_found
  end.

Definition on_account_positions (symbol : string)
    (positions_list : list PositionEntry) : M unit :=
  position_found <- for_positions symbol positions_list false ;;
  when (negb position_found && (Nat.eqb (List.length positions_list) 0))
    (s <- get_state ;;
     when (Py.gt (abs (position_size s)) 1e-9)
       (log_ INFO "Position closed from WS" ;;;
        modify (set_position_size 0.0) ;;;
        s <- get_state ;;
        let opening_mode := opening_mode_of (flip_mode s) in
        when (negb (Side_eqb (mode s) opening_mode))
             (modify (set_mode opening_mode)))).

(** [await state.order_updates.put(fill_event)] (the queue is unbounded). *)
Definition put_update (fill_event : dict) : M unit :=
  modify (fun s => set_order_updates (order_updates s ++ [fill_event])%list s).

(** The event built when the tracked order is listed and fully filled. *)
Definition fill_event_listed (order : OrderEntry) (filled_amount : float) : dict :=
  [ ("e", PStr "ORDER_FILLED");
    ("o", PDict [ ("i", match ord_i order with Some n => PInt n | None => PNone end);
                  ("X", PStr "FILLED");
                  ("z", PFloat filled_amount);
                  ("s", opt_pystr (ord_s order));
                  ("d", opt_pystr (ord_d order)) ]) ].

(** The event built when the tracked order is no longer listed. *)
Definition fill_event_missing (symbol : string) (s : StrategyState) : dict :=
  [ ("e", PStr "ORDER_FILLED");
    ("o", PDict [ ("i", match active_order_id s with
                        | Some n => PInt n | None => PNone end);
                  ("X", PStr "FILLED");
                  ("z", match last_order_quantity s with
                        | Some q => if Py.truthy q then PFloat q else PInt 0
                        | None => PInt 0
                        end);
                  ("s", PStr symbol);
                  ("d", PStr (match last_order_side s with
                              | Some sd => Side_str sd | None => "bid" end)) ]) ].

(** [for order in orders_list]; the result is [order_found]. *)
Fixpoint for_orders (orders : list OrderEntry) (order_found : bool) : M bool :=
  match orders with
  | [] => ret order_found
  | order :: rest =>
      s <- get_state ;;
      if match ord_i order, active_order_id s with
         | Some i, Some n => (i =? n)%Z
         | None, None => true
         | _, _ => false
         end
      then
        filled_amount <- lift (float_field (ord_f order) 0) ;;
        original_amount <- lift (float_field (ord_a order) 0) ;;
        when (Py.ge filled_amount original_amount)
             (log_ INFO "Order FILLED from WS" ;;;
              put_update (fill_event_listed order filled_amount)) ;;;
        for_orders rest true
      else for_orders rest order_found
  end.

Definition on_account_orders (symbol : string) (orders_list : list OrderEntry)
    : M unit :=
  s <- get_state ;;
  when (id_truthy (active_order_id s))
    (order_found <- for_orders orders_list false ;;
     when (negb order_found)
       (log_ INFO "Active order no longer in open orders (filled or cancelled)" ;;;
        s <- get_state ;;
        put_update (fill_event_missing symbol s))).

(** The statements under [data = json.loads(message)], inside the [try]. *)
Definition user_data_body (symbol : string) (now : float) (data : UserMessage)
    : M LoopCtl :=
  if um_subscribed data then
    log_ INFO "Subscription confirmed" ;;; ret Continue
  else
    match um_channel data with
    | AccountInfo as_ =>
        available <- lift (float_field as_ 0) ;;
        when (Py.gt available 0)
             (modify (set_balance available now) ;;;
              log_ DEBUG "Balance updated from WS")
    | AccountPositions positions_list => on_account_positions symbol positions_list
    | AccountOrders orders_list => on_account_orders symbol orders_list
    | OtherChannel => ret tt
    end ;;;
    match um_error data with
    | Some mentions_auth =>
        log_ ERROR "WebSocket error" ;;;
        if mentions_auth then
          log_ WARNING "Authentication error, reconnecting..." ;;; ret Break
        else ret Continue
    | None => ret Continue
    end.

(** One received message, with the two [except] clauses around the body. *)
Definition on_user_data_message (symbol : string) (now : float)
    (message : Inbound UserMessage) : M LoopCtl :=
  match message with
  | NotJson =>
      log_ WARNING "Failed to decode user data WebSocket message" ;;; ret Continue
  | NotAnObject _ =>
      log_ ERROR "Error processing user data message" ;;; ret Continue
  | Object data =>
      try_except (user_data_body symbol now data)
        (fun _ => log_ ERROR "Error processing user data message" ;;; ret Continue)
  end.

(* ================================================================== *)
(** ** [websocket_price_updater]: one received message *)

(** [for price_data in prices_list]. *)
Fixpoint for_prices (symbol : string) (now : float) (prices : list PriceEntry)
    : M unit :=
  match prices with
  | [] => ret tt
  | price_data :: rest =>
      (if String.eqb (match pe_symbol price_data with Some t => t | None => "" end)
                     symbol
       then
         mid <- lift (float_field (pe_mid price_data) 0) ;;
         _mark <- lift (float_field (pe_mark price_data) mid) ;;
         when (Py.gt mid 0)
           (let spread_pct := 0.0002 in
            let best_bid := mid * (1 - spread_pct) in
            let best_ask := mid * (1 + spread_pct) in
            modify (set_prices best_bid best_ask mid) ;;;
            set_price_last_updated now ;;;
            log_ INFO "Updated prices")
       else ret tt) ;;;
      for_prices symbol now rest
  end.

Definition on_price_message (symbol : string) (now : float)
    (message : Inbound PriceMessage) : M LoopCtl :=
  match message with
  | NotJson => log_ WARNING "Failed to decode WebSocket message" ;;; ret Continue
  | NotAnObject subscribed =>
      log_ INFO "WebSocket message" ;;;
      if subscribed then
        log_ INFO "Successfully subscribed to prices stream" ;;; ret Continue
      else log_ ERROR "Error processing WebSocket message" ;;; ret Continue
  | Object data =>
      try_except
        (log_ INFO "WebSocket message" ;;;
         if pm_subscribed data then
           log_ INFO "Successfully subscribed to prices stream" ;;; ret Continue
         else
           match pm_prices data with
           | Some prices_list => for_prices symbol now prices_list
           | None => ret tt
           end ;;;
           ret Continue)
        (fun _ => log_ ERROR "Error processing WebSocket message" ;;; ret Continue)
  end.

(* ================================================================== *)
(** ** The reconnect loop shared by the two feed tasks *)

(** What wakes the task up.  Clock readings come with the event. *)
Inductive FeedEvent (Msg : Type) :=
| Connected (now : float)       (* connect and subscribe sends returned *)
| ConnectFailed (e : Exn)       (* one of them raised *)
| Received (now now' : float) (message : Inbound Msg)
                                (* [recv] returned; [now] is read right
                                   after it, [now'] while handling *)
| RecvTimeout (now : float)     (* [wait_for] raised after 30 s *)
| RecvFailed (e : Exn)          (* [recv] raised anything else *)
| Woke                          (* the back-off sleep returned *)
| Shutdown.                     (* [shutdown_requested] seen at a loop head *)
Arguments Connected {Msg} now.
Arguments ConnectFailed {Msg} e.
Arguments Received {Msg} now now' message.
Arguments RecvTimeout {Msg} now.
Arguments RecvFailed {Msg} e.
Arguments Woke {Msg}.
Arguments Shutdown {Msg}.

Section Feed.

Variable Msg : Type.
(** [state.price_ws_connected = v] or [state.user_data_ws_connected = v]. *)
Variable set_connected : bool -> StrategyState -> StrategyState.
(** The message handler of the task. *)
Variable on_message : float -> Inbound Msg -> M LoopCtl.

(** The two outer [except] clauses. *)
Definition log_connection_error (e : Exn) : M unit :=
  match exn_kind e with
  | ConnectionClosed => log_ WARNING "WebSocket connection issue"
  | _ => log_ ERROR "WebSocket error"
  end.

(** [finally:] then the back-off statement.  A step that leaves the
    receive loop stands for the whole teardown, up to the end of
    [finally]: the awaited close of the socket, during which the flag is
    still up and the other tasks run, is not a state of its own. *)
Definition leave_connection (l : FeedLocal) (w : World) : FeedLocal * World :=
  let '(_, w1) := (modify (set_connected false) ;;;
                   log_ INFO "Reconnecting to WebSocket") w in
  (mkFeed Backoff (reconnect_delay l), w1).

Definition feed_step (ev : FeedEvent Msg) (c : FeedLocal * World)
    : FeedLocal * World :=
  let '(l, w) := c in
  match phase l, ev with
  | Connecting, Connected now =>
      let '(_, w1) := (log_ INFO "WebSocket connected, subscribing" ;;;
                       modify (set_connected true)) w in
      (mkFeed (Streaming now) 5, w1)
  | Connecting, ConnectFailed e =>
      let '(_, w1) := log_connection_error e w in
      leave_connection l w1
  | Streaming last_message_time, Received now now' message =>
      match on_message now' message w with
      | (Ok Continue, w1) => (mkFeed (Streaming now) (reconnect_delay l), w1)
      | (Ok Break, w1) => leave_connection l w1
      | (Raise e, w1) =>
          let '(_, w2) := log_connection_error e w1 in
          leave_connection l w2
      end
  | Streaming last_message_time, RecvTimeout now =>
      let time_since_last_msg := now - last_message_time in
      if Py.gt time_since_last_msg 60 then
        let '(_, w1) := log_ WARNING "No messages received. Connection may be stale. Reconnecting..." w in
        leave_connection l w1
      else
        let '(_, w1) := log_ DEBUG "recv timed out, but connection seems alive." w in
        (l, w1)
  | Streaming _, RecvFailed e =>
      let '(_, w1) := log_connection_error e w in
      leave_connection l w1
  | Streaming _, Shutdown =>
      let '(_, w1) := modify (set_connected false) w in
      (mkFeed Stopped (reconnect_delay l), w1)
  | Backoff, Woke =>
      let d := Py.min (reconnect_delay l * 1.5) 60 in
      let '(_, w1) := (log_ INFO "Connecting to WebSocket" ;;;
                       modify (set_connected false)) w in
      (mkFeed Connecting d, w1)
  | Backoff, Shutdown =>
      (mkFeed Stopped (Py.min (reconnect_delay l * 1.5) 60), w)
  | _, _ => c
  end.

End Feed.

Arguments feed_step {Msg} set_connected on_message ev c.

(** [websocket_price_updater(state, symbol)], one step. *)
Definition websocket_price_updater (symbol : string)
    (ev : FeedEvent PriceMessage) (w : World) : World :=
  let '(l, w') := feed_step set_price_ws_connected (on_price_message symbol)
                    ev (price_task w, w) in
  with_price_task l w'.

(** [websocket_user_data_updater(state, client, symbol)], one step. *)
Definition websocket_user_data_updater (symbol : string)
    (ev : FeedEvent UserMessage) (w : World) : World :=
  let '(l, w') := feed_step set_user_data_ws_connected
                    (on_user_data_message symbol) ev (user_task w, w) in
  with_user_task l w'.

(** What the other tasks do while the controller is suspended. *)
Inductive Activity :=
| PriceFeed (ev : FeedEvent PriceMessage)
| UserFeed (ev : FeedEvent UserMessage).

Definition activity (symbol : string) (a : Activity) (w : World) : World :=
  match a with
  | PriceFeed ev => websocket_price_updater symbol ev w
  | UserFeed ev => websocket_user_data_updater symbol ev w
  end.

Definition activities (symbol : string) (acts : list Activity) (w : World)
    : World :=
  fold_left (fun w a => activity symbol a w) acts w.

(* ================================================================== *)
(** ** Data validity *)

(** [is_price_data_valid(state)]; [current_time] is the loop clock. *)
Definition is_price_data_valid (w : World) (current_time : float) : bool :=
  match mid_price (st w), price_last_updated w with
  | Some _, Some t => if Py.gt (current_time - t) 30 then false else true
  | _, _ => false
  end.

(** [is_balance_data_valid(state)]. *)
Definition is_balance_data_valid (s : StrategyState) : bool :=
  match account_balance s, balance_last_updated s with
  | Some _, Some _ => true
  | _, _ => false
  end.

(* ================================================================== *)
(** ** Quantization and order reuse *)

(** [round_down(value, precision)], [precision] a non-negative int:
    [factor = 10 ** precision; return int(value * factor) / factor]. *)
Definition round_down (value : float) (precision : nat) : Res float :=
  let factor := (10 ^ Z.of_nat precision)%Z in
  match Py.float_of_int factor with
  | Raise e => Raise e
  | Ok f =>
      match Py.int_of_float (value * f) with
      | Raise e => Raise e
      | Ok n => Py.int_truediv n factor
      end
  end.

(** [should_reuse_order(state, new_price, new_side, new_quantity,
    threshold)]. *)
Definition should_reuse_order (s : StrategyState) (new_price : float)
    (new_side : Side) (new_quantity : float) (threshold : float) : Res bool :=
  match active_order_id s, last_order_price s with
  | None, _ | _, None => Ok false
  | Some _, Some last_price =>
      if negb (match last_order_side s with
               | Some sd => Side_eqb sd new_side | None => false end)
      then Ok false
      else
        match last_order_quantity s with
        | None => Raise (mkExn TypeError "unsupported operand type(s) for -: 'NoneType' and 'float'")
        | Some last_quantity =>
            if Py.gt (abs (last_quantity - new_quantity)) 0.000000000001
            then Ok false
            else
              match Py.fdiv (abs (new_price - last_price)) last_price with
              | Raise e => Raise e
              | Ok price_change_pct => Ok (price_change_pct <? threshold)
              end
        end
  end.

(* ================================================================== *)
(** ** [market_making_loop] *)

(** [symbol_filters], as [client.get_symbol_filters] returns it. *)
Record SymbolFilters := mkFilters {
  price_precision : nat;
  tick_size : float;
  quantity_precision : nat;
  step_size : float;
  min_notional : float
}.

(** The JSON answer of [place_order]: [resp_success] is the truth value of
    [.get('success')], [resp_data] is [Some (data.get('order_id'))] when
    there is a ['data'] key, [resp_order_id] is [.get('order_id')]. *)
Record PlaceResponse := mkResponse {
  resp_success : bool;
  resp_data : option (option Z);
  resp_order_id : option Z
}.

(** An [await] on the venue: what the feed tasks do before it returns, and
    how it returns. *)
Record Await (A : Type) := mkAwait {
  during : list Activity;
  outcome : Res A
}.
Arguments mkAwait {A} during outcome.
Arguments during {A} a.
Arguments outcome {A} a.

(** One pass of a [while True] wait on the queue: the loop clock at its
    head, and what the feeds do while [order_updates.get()] is pending. *)
Record WaitStep := mkWaitStep {
  ws_now : float;
  ws_during : list Activity
}.

(** Everything one cycle of the loop reads from outside the process. *)
Record CycleEnv := mkEnv {
  env_emergency_cancel : Await unit;   (* cancel during a feed outage *)
  env_now : float;                     (* clock in [is_price_data_valid] *)
  env_spreads : Res (float * float);   (* [get_spreads(state)] *)
  env_reuse_start : float;             (* [start_time] of the reuse wait *)
  env_reuse_wait : list WaitStep;
  env_rate_now : float;                (* clock of the rate limiter *)
  env_rate_sleep : list Activity;      (* feeds during the rate-limit sleep *)
  env_replace_cancel : Await unit;     (* cancel before a new order *)
  env_place : Await PlaceResponse;     (* [client.place_order] *)
  env_placed_now : float;              (* clock after it returned *)
  env_fill_start : float;              (* [start_time] of the fill wait *)
  env_fill_wait : list WaitStep;
  env_timeout_cancel : Await unit;     (* cancel after the fill wait *)
  env_cleanup_cancel : Await unit      (* cancel in the error handler *)
}.

Definition status_is_final (status : pyval) : bool :=
  py_eq_str status "filled" || py_eq_str status "cancelled" ||
  py_eq_str status "rejected" || py_eq_str status "expired".

Section Controller.

(** [float(s)] for a [str] [s] (the queue never carries one). *)
Variable float_of_str : string -> Res float.
(** [args.symbol]. *)
Variable symbol : string.
Variable symbol_filters : SymbolFilters.
(** [state.flip_mode] when the loop was entered: [opening_mode] and
    [closing_mode] are computed once, before the [while]. *)
Variable flip0 : bool.

Definition opening_mode : Side := opening_mode_of flip0.
Definition closing_mode : Side := closing_mode_of flip0.

(** [float(v)]. *)
Definition py_float (v : pyval) : Res float :=
  match v with
  | PInt n => Py.float_of_int n
  | PFloat x => Ok x
  | PStr s => float_of_str s
  | PNone | PDict _ =>
      Raise (mkExn TypeError "float() argument must be a string or a real number")
  end.

(** Arithmetic on a field that may still be [None]. *)
Definition need (o : option float) : M float :=
  match o with
  | Some x => ret x
  | None => raise (mkExn TypeError "unsupported operand type(s): 'NoneType'")
  end.

(** [f"{x:.8f}"] of a field that may still be [None]. *)
Definition formatted (o : option float) : M unit :=
  match o with
  | Some _ => ret tt
  | None => raise (mkExn TypeError "unsupported format string passed to NoneType.__format__")
  end.

(** The feed tasks run while the controller is suspended. *)
Definition meanwhile (acts : list Activity) : M unit :=
  fun w => (Ok tt, activities symbol acts w).

(** [await client.cancel_order(args.symbol, order_id)]; without an id the
    client raises before sending anything. *)
Definition cancel_order (order_id : option Z) (a : Await unit) : M unit :=
  match order_id with
  | Some n =>
      if (n =? 0)%Z
      then raise (mkExn ValueError "Must provide either order_id or client_order_id")
      else emit (CancelOrder n) ;;; meanwhile (during a) ;;; lift (outcome a)
  | None => raise (mkExn ValueError "Must provide either order_id or client_order_id")
  end.

(** [await client.cancel_all_orders(args.symbol)]. *)
Definition cancel_all_orders (a : Await unit) : M unit :=
  emit CancelAllOrders ;;; meanwhile (during a) ;;; lift (outcome a).

(** [await client.place_order(args.symbol, price, quantity, side,
    reduce_only)]. *)
Definition place_order (price quantity : Py.Formatted) (side : Side)
    (reduce_only : bool) (a : Await PlaceResponse) : M PlaceResponse :=
  emit (PlaceOrder price quantity side reduce_only) ;;;
  meanwhile (during a) ;;; lift (outcome a).

Definition clear_last_order : M unit := modify (set_last_order None None None).

(** The branch taken while a feed is down. *)
Definition emergency (env : CycleEnv) : M unit :=
  log_ WARNING "WebSocket disconnected. Pausing trading logic." ;;;
  s <- get_state ;;
  when (id_truthy (active_order_id s))
    (log_ WARNING "Attempting to cancel active order due to WebSocket disconnection." ;;;
     try_except
       ((if CANCEL_SPECIFIC_ORDER
         then cancel_order (active_order_id s) (env_emergency_cancel env)
         else cancel_all_orders (env_emergency_cancel env)) ;;;
        modify (set_active_order_id None) ;;;
        clear_last_order ;;;
        log_ INFO "Successfully cancelled order as a safety measure.")
       (fun _ => log_ ERROR "Could not cancel order during WS outage")) ;;;
  sleep 1.

(** The Supertrend block. *)
Definition supertrend : M unit :=
  s <- get_state ;;
  match supertrend_signal s with
  | Some signal =>
      when USE_SUPERTREND_SIGNAL
        (let current_notional :=
           match mid_price s with
           | Some m => if Py.truthy m then abs (position_size s * m) else 0
           | None => 0
           end in
         if current_notional <? POSITION_THRESHOLD_USD then
           let new_flip_mode := (signal =? -1)%Z in
           when (negb (Bool.eqb (flip_mode s) new_flip_mode))
             (log_ INFO "Supertrend signal changed." ;;;
              log_ INFO "Position is flat. Adjusting strategy bias" ;;;
              modify (set_flip_mode new_flip_mode))
         else log_ DEBUG "Supertrend signal, but position is open. Holding current strategy bias.")
  | None => ret tt
  end.

(** Side, [reduce_only], quantity and limit price of the cycle. *)
Definition order_parameters (buy_spread sell_spread : float)
    : M (Side * bool * float * float) :=
  s <- get_state ;;
  if Side_eqb (mode s) closing_mode then
    if Py.gt (abs (position_size s)) 0.001 then
      log_ INFO "Entering closing mode to close position." ;;;
      mid <- need (mid_price s) ;;
      let limit_price :=
        if Side_eqb closing_mode ask then mid * (1 + sell_spread)
        else mid * (1 - buy_spread) in
      log_ DEBUG "closing mode (closing position)" ;;;
      ret (closing_mode, true, abs (position_size s), limit_price)
    else
      log_ INFO "Entering closing mode but no position exists." ;;;
      balance <- need (account_balance s) ;;
      let order_amount_usd := balance * DEFAULT_BALANCE_FRACTION in
      mid <- need (mid_price s) ;;
      quantity_to_trade <- lift (Py.fdiv order_amount_usd mid) ;;
      let limit_price :=
        if Side_eqb closing_mode ask then mid * (1 + sell_spread)
        else mid * (1 - buy_spread) in
      log_ DEBUG "closing mode (no position)" ;;;
      ret (closing_mode, false, quantity_to_trade, limit_price)
  else
    log_ INFO "Entering opening mode." ;;;
    balance <- need (account_balance s) ;;
    let order_amount_usd := balance * DEFAULT_BALANCE_FRACTION in
    mid <- need (mid_price s) ;;
    quantity_to_trade <- lift (Py.fdiv order_amount_usd mid) ;;
    let limit_price :=
      if Side_eqb opening_mode bid then mid * (1 - buy_spread)
      else mid * (1 + sell_spread) in
    log_ DEBUG "opening mode parameters" ;;;
    ret (opening_mode, false, quantity_to_trade, limit_price).

(** [round(limit_price / tick_size) * tick_size], formatted to
    [price_precision] decimals. *)
Definition quantize_price (limit_price : float) : Res Py.Formatted :=
  match Py.fdiv limit_price (tick_size symbol_filters) with
  | Raise e => Raise e
  | Ok ticks =>
      match Py.round ticks with
      | Raise e => Raise e
      | Ok n =>
          match Py.float_of_int n with
          | Raise e => Raise e
          | Ok k =>
              let rounded_price := k * tick_size symbol_filters in
              Ok (Py.format_f rounded_price (price_precision symbol_filters))
          end
      end
  end.

(** [round_down(quantity_to_trade, quantity_precision)], formatted to
    [quantity_precision] decimals. *)
Definition quantize_quantity (quantity_to_trade : float) : Res Py.Formatted :=
  match round_down quantity_to_trade (quantity_precision symbol_filters) with
  | Raise e => Raise e
  | Ok rounded_quantity =>
      Ok (Py.format_f rounded_quantity (quantity_precision symbol_filters))
  end.

(** [update = await wait_for(state.order_updates.get(), remaining_timeout)]
    at loop time [ws_now step]: the timeout check, the feeds' turn, then the
    head of the queue, or TimeoutError when the queue stayed empty. *)
Definition next_update (start_time : float) (step : WaitStep) : M dict :=
  let remaining_timeout := ORDER_REFRESH_INTERVAL - (ws_now step - start_time) in
  if remaining_timeout <=? 0 then raise (mkExn TimeoutError "")
  else
    meanwhile (ws_during step) ;;;
    s <- get_state ;;
    match order_updates s with
    | [] => raise (mkExn TimeoutError "")
    | update :: rest => modify (set_order_updates rest) ;;; ret update
    end.

(** The [while True] of the reuse branch, which looks for
    [{'type': 'order_update', 'order': {...}}]; the result is [filled_qty]
    at the [break].  The wait is over, by TimeoutError, when the environment
    has no further step. *)
Fixpoint monitor_reused (start_time : float) (steps : list WaitStep)
    (filled_qty : float) : M float :=
  match steps with
  | [] => raise (mkExn TimeoutError "")
  | step :: rest =>
      update <- next_update start_time step ;;
      if py_eq_str (dict_get update "type") "order_update" then
        order_data <- lift (as_dict (dict_get_default update "order" (PDict []))) ;;
        s <- get_state ;;
        if py_eq_id (dict_get order_data "order_id") (active_order_id s) then
          let status := dict_get order_data "status" in
          filled_qty <- lift (py_float (dict_get_default order_data "filled_amount" (PFloat 0.0))) ;;
          partial_break <-
            (if py_eq_str status "partially_filled" then
               avg_price <- lift (py_float (dict_get_default order_data "average_price" (PFloat 0.0))) ;;
               if Py.gt avg_price 0 then
                 let filled_notional := filled_qty * avg_price in
                 if Py.gt filled_notional POSITION_THRESHOLD_USD then
                   log_ INFO "Monitored order is partially_filled above threshold. Treating as filled." ;;;
                   ret true
                 else ret false
               else ret false
             else ret false) ;;
          if partial_break then ret filled_qty
          else if status_is_final status then
            log_ INFO "Monitored order reached final state." ;;;
            ret filled_qty
          else monitor_reused start_time rest filled_qty
        else monitor_reused start_time rest filled_qty
      else monitor_reused start_time rest filled_qty
  end.

(** The [while True] after a placement, which looks for
    [{'e': 'ORDER_FILLED', 'o': {...}}]. *)
Fixpoint wait_for_fill (start_time : float) (steps : list WaitStep)
    (filled_qty : float) : M float :=
  match steps with
  | [] => raise (mkExn TimeoutError "")
  | step :: rest =>
      update <- next_update start_time step ;;
      if py_eq_str (dict_get update "e") "ORDER_FILLED" then
        order_data <- lift (as_dict (dict_get_default update "o" (PDict []))) ;;
        s <- get_state ;;
        if py_eq_id (dict_get order_data "i") (active_order_id s) then
          let status := dict_get order_data "X" in
          filled_qty <- lift (py_float (dict_get_default order_data "z" (PFloat 0.0))) ;;
          if py_eq_str status "FILLED" then
            log_ INFO "Order reached FILLED state." ;;;
            ret filled_qty
          else wait_for_fill start_time rest filled_qty
        else wait_for_fill start_time rest filled_qty
      else wait_for_fill start_time rest filled_qty
  end.

(** "Update state after a fill": the position, then the mode.
    [threshold_coins] is the computation of [position_threshold_coins],
    which differs between the two copies of the block. *)
Definition process_fill (threshold_coins : StrategyState -> Res float)
    (filled_qty : float) : M unit :=
  s <- get_state ;;
  if Side_eqb (mode s) opening_mode then
    (* an opening order was filled *)
    (if Side_eqb opening_mode bid
     then modify (set_position_size (position_size s + filled_qty))
     else modify (set_position_size (position_size s - filled_qty))) ;;;
    log_ INFO "opening fill processed" ;;;
    modify (set_mode closing_mode) ;;;
    log_ INFO "Mode change"
  else
    (* a closing order was filled *)
    (if Side_eqb closing_mode ask
     then modify (set_position_size (position_size s - filled_qty))
     else modify (set_position_size (position_size s + filled_qty))) ;;;
    log_ INFO "closing fill processed" ;;;
    s' <- get_state ;;
    position_threshold_coins <- lift (threshold_coins s') ;;
    if abs (position_size s') <? position_threshold_coins then
      modify (set_mode opening_mode) ;;;
      log_ INFO "Position below threshold, mode change"
    else log_ INFO "Position still above threshold, keeping closing mode.".

(** [POSITION_THRESHOLD_USD / state.mid_price if state.mid_price else 0] *)
Definition threshold_coins_guarded (s : StrategyState) : Res float :=
  match mid_price s with
  | Some m => if Py.truthy m then Ok (POSITION_THRESHOLD_USD / m) else Ok 0
  | None => Ok 0
  end.

(** [POSITION_THRESHOLD_USD / state.mid_price] *)
Definition threshold_coins_unguarded (s : StrategyState) : Res float :=
  match mid_price s with
  | Some m => Py.fdiv POSITION_THRESHOLD_USD m
  | None => Raise (mkExn TypeError "unsupported operand type(s) for /: 'float' and 'NoneType'")
  end.

(** The fill block after a placement (the one the controller reaches). *)
Definition apply_fill (filled_qty : float) : M unit :=
  process_fill threshold_coins_guarded filled_qty.

(** The copy of the block in the reuse branch. *)
Definition apply_fill_reused (filled_qty : float) : M unit :=
  process_fill threshold_coins_unguarded filled_qty.

(** [try: ... except asyncio.TimeoutError: h]. *)
Definition except_timeout {A} (c : M A) (h : M A) : M A :=
  try_except c (fun e => if is_timeout e then h else raise e).

(** The reuse branch, up to its [continue]. *)
Definition reuse_branch (env : CycleEnv) : M unit :=
  log_ INFO "Reusing existing order: price change below threshold" ;;;
  except_timeout
    (log_ DEBUG "Continuing to monitor existing order via WebSocket" ;;;
     filled_qty <- monitor_reused (env_reuse_start env) (env_reuse_wait env) 0.0 ;;
     log_ INFO "Reused order filled!" ;;;
     apply_fill_reused filled_qty ;;;
     clear_last_order ;;;
     log_ DEBUG "Adding 0.1s delay after order fill to avoid API rate limits" ;;;
     sleep 0.01)
    (log_ INFO "Reused order not filled in time. Will evaluate for replacement in next cycle." ;;;
     sleep 0.01).

(** The first [try] of a placement: the call and the bookkeeping. *)
Definition place_tracked (env : CycleEnv)
    (formatted_price formatted_quantity : Py.Formatted) (side : Side)
    (reduce_only : bool) : M unit :=
  try_except
    (active_order <- place_order formatted_price formatted_quantity side
                       reduce_only (env_place env) ;;
     set_last_order_time (env_placed_now env) ;;;
     modify (set_active_order_id
               (match resp_success active_order, resp_data active_order with
                | true, Some id => id
                | _, _ => resp_order_id active_order
                end)) ;;;
     modify (set_last_order (Some (Py.float_of_formatted formatted_price))
                            (Some side)
                            (Some (Py.float_of_formatted formatted_quantity))) ;;;
     log_ INFO "Order placed successfully" ;;;
     log_ DEBUG "Full order response")
    (fun order_error =>
       log_ ERROR "Failed to place order" ;;;
       log_ ERROR "Order parameters" ;;;
       raise order_error).

(** The head of the second [try]: the debug line and the [while True];
    the result is [filled_qty] at the [break]. *)
Definition await_fill (env : CycleEnv) : M float :=
  log_ DEBUG "Waiting for WebSocket update for order" ;;;
  wait_for_fill (env_fill_start env) (env_fill_wait env) 0.0.

(** The second [try] of a placement: the fill wait and its outcome. *)
Definition monitor_placed (env : CycleEnv) : M unit :=
  except_timeout
    (filled_qty <- await_fill env ;;
     log_ INFO "Order filled!" ;;;
     apply_fill filled_qty ;;;
     clear_last_order ;;;
     log_ DEBUG "Adding 0.01s delay after order fill to avoid API rate limits" ;;;
     sleep 0.01)
    (log_ INFO "Order not filled in time. Cancelling and refreshing." ;;;
     try_except
       (s <- get_state ;;
        if CANCEL_SPECIFIC_ORDER && id_truthy (active_order_id s)
        then cancel_order (active_order_id s) (env_timeout_cancel env) ;;;
             log_ DEBUG "Cancel order result"
        else cancel_all_orders (env_timeout_cancel env) ;;;
             log_ DEBUG "Cancel all orders result")
       (fun _ => log_ WARNING "Error cancelling orders") ;;;
     modify (set_active_order_id None) ;;;
     clear_last_order ;;;
     log_ DEBUG "Adding 0.1s delay after order timeout to avoid API rate limits" ;;;
     sleep 0.01).

(** Placement, the fill wait and its outcome. *)
Definition place_and_monitor (env : CycleEnv)
    (formatted_price formatted_quantity : Py.Formatted) (side : Side)
    (reduce_only : bool) : M unit :=
  s <- get_state ;;
  mid <- need (mid_price s) ;;
  _percentage_diff <- lift (Py.fdiv (Py.float_of_formatted formatted_price - mid) mid) ;;
  log_ INFO "Placing order" ;;;
  log_ INFO "Order details" ;;;
  place_tracked env formatted_price formatted_quantity side reduce_only ;;;
  monitor_placed env.

(** From the rate limiter to the end of the [try] body. *)
Definition replace_branch (env : CycleEnv)
    (formatted_price formatted_quantity : Py.Formatted) (side : Side)
    (reduce_only : bool) : M unit :=
  w <- get_world ;;
  let time_since_last_order := env_rate_now env - last_order_time w in
  when (time_since_last_order <? MIN_ORDER_INTERVAL)
    (let wait_time := MIN_ORDER_INTERVAL - time_since_last_order in
     log_ INFO "Rate limiting: waiting before placing order" ;;;
     sleep wait_time ;;;
     meanwhile (env_rate_sleep env)) ;;;
  s <- get_state ;;
  when (id_truthy (active_order_id s))
    (try_except
       (log_ INFO "Cancelling existing order to place new order" ;;;
        (if CANCEL_SPECIFIC_ORDER
         then cancel_order (active_order_id s) (env_replace_cancel env)
         else cancel_all_orders (env_replace_cancel env)) ;;;
        modify (set_active_order_id None))
       (fun _ => log_ WARNING "Error cancelling existing order")) ;;;
  s <- get_state ;;
  if reduce_only && (abs (position_size s) <? 1e-9) then
    log_ WARNING "Cannot place reduce-only order: position_size is effectively zero" ;;;
    log_ INFO "Resetting to opening mode" ;;;
    modify (set_mode opening_mode) ;;;
    modify (set_position_size 0.0) ;;;
    sleep 2
  else place_and_monitor env formatted_price formatted_quantity side reduce_only.

(** The body of the [try] of one cycle. *)
Definition cycle_body (env : CycleEnv) : M unit :=
  s <- get_state ;;
  if negb (price_ws_connected s) || negb (user_data_ws_connected s) then
    emergency env
  else
    supertrend ;;;
    w <- get_world ;;
    if negb (is_price_data_valid w (env_now env)) then
      log_ INFO "Waiting for valid price data from WebSocket..." ;;;
      sleep 2
    else if negb (is_balance_data_valid (st w)) then
      log_ INFO "Waiting for valid balance data from WebSocket..." ;;;
      sleep 2
    else
      spreads <- lift (env_spreads env) ;;
      let '(buy_spread, sell_spread) := spreads in
      params <- order_parameters buy_spread sell_spread ;;
      let '(side, reduce_only, quantity_to_trade, limit_price) := params in
      log_ INFO "Calculated order parameters" ;;;
      s <- get_state ;;
      formatted (mid_price s) ;;;
      formatted (bid_price s) ;;;
      formatted (ask_price s) ;;;
      log_ DEBUG "Market data" ;;;
      log_ DEBUG "Symbol filters" ;;;
      formatted_price <- lift (quantize_price limit_price) ;;
      log_ DEBUG "Price adjustment" ;;;
      formatted_quantity <- lift (quantize_quantity quantity_to_trade) ;;
      log_ INFO "Adjusted order" ;;;
      log_ DEBUG "Quantity adjustment" ;;;
      if Py.float_of_formatted formatted_quantity <=? 0 then
        log_ WARNING "Calculated quantity is zero or negative. Skipping cycle." ;;;
        sleep ORDER_REFRESH_INTERVAL
      else
        let order_notional :=
          Py.float_of_formatted formatted_price
          * Py.float_of_formatted formatted_quantity in
        if order_notional <? min_notional symbol_filters then
          log_ WARNING "Order notional too small. Skipping cycle." ;;;
          log_ DEBUG "Notional calculation" ;;;
          sleep ORDER_REFRESH_INTERVAL
        else
          log_ DEBUG "Order validation passed" ;;;
          s <- get_state ;;
          reuse <- lift (should_reuse_order s
                           (Py.float_of_formatted formatted_price) side
                           (Py.float_of_formatted formatted_quantity)
                           DEFAULT_PRICE_CHANGE_THRESHOLD) ;;
          if reuse then reuse_branch env
          else replace_branch env formatted_price formatted_quantity side
                 reduce_only.

(** [("422" in error_msg and state.mode == closing_mode)
    or "No position found" in error_msg] *)
Definition is_desync (e : Exn) (s : StrategyState) : bool :=
  let error_msg := exn_msg e in
  (Py.contains "422" error_msg && Side_eqb (mode s) closing_mode)
  || Py.contains "No position found" error_msg.

(** The reset of the position-desync case, up to its [continue]. *)
Definition desync_reset : M unit :=
  log_ WARNING "Reduce-only order failed with 422 error. Position desync detected. Resetting state." ;;;
  modify (set_position_size 0.0) ;;;
  modify (set_mode opening_mode) ;;;
  modify (set_active_order_id None) ;;;
  clear_last_order ;;;
  log_ INFO "State reset: position_size=0, mode=opening" ;;;
  sleep 2.

(** [except Exception as e:] of the loop. *)
Definition on_error (env : CycleEnv) (e : Exn) : M unit :=
  log_ ERROR "An error occurred in the main loop" ;;;
  log_ ERROR "Current state" ;;;
  log_ ERROR "Market data" ;;;
  s <- get_state ;;
  if is_desync e s then desync_reset
  else
    when (id_truthy (active_order_id s))
      (try_except
         (log_ INFO "Attempting to cancel active order due to error" ;;;
          (if CANCEL_SPECIFIC_ORDER
           then cancel_order (active_order_id s) (env_cleanup_cancel env)
           else cancel_all_orders (env_cleanup_cancel env)) ;;;
          modify (set_active_order_id None) ;;;
          clear_last_order)
         (fun _ => log_ ERROR "Failed to cancel orders during error cleanup")) ;;;
    log_ INFO "Waiting before retrying..." ;;;
    sleep RETRY_ON_ERROR_INTERVAL.

(** One iteration of [while not shutdown_requested:]: the [try] with its
    two [except] clauses. *)
Definition cycle (env : CycleEnv) : M unit :=
  try_except (cycle_body env)
    (fun e =>
       if is_timeout e then
         log_ WARNING "Timeout in main loop. Continuing..." ;;; sleep 0.01
       else on_error env e).

(** The [while not shutdown_requested:] of [market_making_loop].  The
    feeds run between two cycles too: a run of the loop is a list of
    cycles, each preceded by what the feeds did since the last one. *)
Fixpoint market_making_loop (cycles : list (list Activity * CycleEnv))
    (w : World) : Res unit * World :=
  match cycles with
  | [] => (Ok tt, w)
  | (before, env) :: rest =>
      match (meanwhile before ;;; cycle env) w with
      | (Ok _, w') => market_making_loop rest w'
      | (Raise e, w') => (Raise e, w')
      end
  end.

End Controller.

(** [market_making_loop(state, client, args)] from its first line: the
    trading rules are fetched before the [while] and outside its [try],
    and the two modes are computed from [state.flip_mode] as it is when
    the call has returned. *)
Definition market_making_loop_from_start (float_of_str : string -> Res float)
    (symbol : string) (get_symbol_filters : Await SymbolFilters)
    (cycles : list (list Activity * CycleEnv)) : M unit :=
  log_ INFO "Fetching trading rules" ;;;
  meanwhile symbol (during get_symbol_filters) ;;;
  symbol_filters <- lift (outcome get_symbol_filters) ;;
  log_ INFO "Filters loaded" ;;;
  s <- get_state ;;
  market_making_loop float_of_str symbol symbol_filters (flip_mode s) cycles.

(* ================================================================== *)
(** ** Decoded JSON *)

(** What [json.load] returns.  An object is an association list in
    insertion order (its keys are distinct, as in a Python dict). *)
Inductive json :=
| JNull
| JBool (b : bool)
| JInt (n : Z)
| JFloat (x : float)
| JStr (s : string)
| JList (items : list json)
| JObj (members : list (string * json)).

Fixpoint members_lookup (members : list (string * json)) (k : string)
    : option json :=
  match members with
  | [] => None
  | (k', v) :: rest => if String.eqb k' k then Some v else members_lookup rest k
  end.

Definition no_get {A} : Res A :=
  Raise (mkExn OtherError "object has no attribute 'get'").

(** [v.get(k, default)]; only a dict has [.get]. *)
Definition json_get_default (v : json) (k : string) (default : json) : Res json :=
  match v with
  | JObj members =>
      Ok (match members_lookup members k with Some x => x | None => default end)
  | _ => no_get
  end.

(** [v.get(k)] and [v.get(k, {})] *)
Definition json_get (v : json) (k : string) : Res json :=
  json_get_default v k JNull.

Definition json_get_or_empty (v : json) (k : string) : Res json :=
  json_get_default v k (JObj []).

(** [bool(v)] *)
Definition json_truthy (v : json) : bool :=
  match v with
  | JNull => false
  | JBool b => b
  | JInt n => negb (n =? 0)%Z
  | JFloat x => Py.truthy x
  | JStr s => negb (String.eqb s "")
  | JList items => match items with [] => false | _ => true end
  | JObj members => match members with [] => false | _ => true end
  end.

(* ================================================================== *)
(** ** Spreads from the Avellaneda parameter files *)

Definition DEFAULT_SYMBOL : string := "BTC".
Definition DEFAULT_BUY_SPREAD : float := 0.006.
Definition DEFAULT_SELL_SPREAD : float := 0.006.
Definition USE_AVELLANEDA_SPREADS : bool := true.
Definition AVELLANEDA_FILE_PREFIX : string := "avellaneda_parameters_".
Definition SPREAD_MIN_THRESHOLD : float := 0.00005.
Definition SPREAD_MAX_THRESHOLD : float := 0.02.
Definition SPREAD_CACHE_TTL_SECONDS : float := 10.

(** What the [isfile] test, [open] and [json.load] make of a path. *)
Inductive FileRead :=
| NoFile                    (* [os.path.isfile] is false *)
| LoadFails (e : Exn)       (* [open] or [json.load] raises *)
| Loaded (payload : json).

(** A value of [_SPREAD_CACHE]: keys ['buy'], ['sell'], ['expires_at'],
    ['source_path']. *)
Record CacheEntry := mkCacheEntry {
  ce_buy : float;
  ce_sell : float;
  ce_expires_at : float;
  ce_source_path : option string
}.

(** [_SPREAD_CACHE], a dict from symbol keys to entries. *)
Definition SpreadCache := list (string * CacheEntry).

Fixpoint cache_get (cache : SpreadCache) (k : string) : option CacheEntry :=
  match cache with
  | [] => None
  | (k', e) :: rest => if String.eqb k' k then Some e else cache_get rest k
  end.

(** [_SPREAD_CACHE[k] = e] *)
Fixpoint cache_set (cache : SpreadCache) (k : string) (e : CacheEntry)
    : SpreadCache :=
  match cache with
  | [] => [(k, e)]
  | (k', e') :: rest =>
      if String.eqb k' k then (k, e) :: rest else (k', e') :: cache_set rest k e
  end.

(** [symbol.endswith(suffix)] *)
Fixpoint endswith (symbol suffix : string) : bool :=
  String.eqb symbol suffix
  || match symbol with
     | EmptyString => false
     | String _ rest => endswith rest suffix
     end.

Section SpreadLoader.

(** [float(s)] for a [str] [s]. *)
Variable float_of_str : string -> Res float.
(** [str.upper]. *)
Variable upper : string -> string.
(** [os.path.join(PARAMS_DIR, name)]. *)
Variable params_path : string -> string.

(** [float(value)] *)
Definition json_float (value : json) : Res float :=
  match value with
  | JBool b => Ok (if b then 1 else 0)
  | JInt n => Py.float_of_int n
  | JFloat x => Ok x
  | JStr s => float_of_str s
  | JNull | JList _ | JObj _ =>
      Raise (mkExn TypeError "float() argument must be a string or a real number")
  end.

(** [_safe_float(value)] *)
Definition _safe_float (value : json) : Res (option float) :=
  match json_float value with
  | Ok x => Ok (Some x)
  | Raise e =>
      match exn_kind e with
      | TypeError | ValueError => Ok None
      | _ => Raise e
      end
  end.

(** The nested [add(candidate)]. *)
Definition add (candidates : list string) (candidate : string) : list string :=
  if negb (String.eqb candidate "")
     && negb (existsb (String.eqb candidate) candidates)
  then (candidates ++ [candidate])%list
  else candidates.

(** [_parameter_file_candidates(symbol)] *)
Definition _parameter_file_candidates (symbol : option string) : list string :=
  let symbol := upper (match symbol with Some s => s | None => "" end) in
  let candidates := add [] symbol in
  fold_left
    (fun candidates suffix =>
       if endswith symbol suffix
          && (String.length suffix <? String.length symbol)%nat
       then add candidates
              (substring 0 (String.length symbol - String.length suffix) symbol)
       else candidates)
    ["USDT"; "USDC"; "USDF"; "USD1"; "USD"]
    candidates.

(** [_extract_spread(limit_orders, key, mid_price, file_path)] *)
Definition _extract_spread (limit_orders : json) (key : string)
    (mid_price : option float) (file_path : string) : M (option float) :=
  percent <- lift (json_get limit_orders (key ++ "_percent")) ;;
  raw_percent <- lift (_safe_float percent) ;;
  delta <- lift (json_get limit_orders key) ;;
  raw_delta <- lift (_safe_float delta) ;;
  let spread :=
    match raw_percent with
    | Some raw_percent => Some (raw_percent / 100.0)
    | None =>
        match raw_delta, mid_price with
        | Some raw_delta, Some mid_price =>
            if Py.truthy mid_price && Py.gt mid_price 0
            then Some (raw_delta / mid_price) else None
        | _, _ => None
        end
    end in
  match spread with
  | None =>
      log_ WARNING "Could not derive spread; falling back to defaults." ;;;
      ret None
  | Some spread =>
      if negb ((SPREAD_MIN_THRESHOLD <=? spread) && (spread <=? SPREAD_MAX_THRESHOLD))
      then log_ WARNING "spread is out of bounds" ;;; ret None
      else ret (Some spread)
  end.

(** The body of [for candidate in ...] once the file is loaded: [None] is
    the [continue]. *)
Definition spreads_of_payload (payload : json) (file_path : string)
    : M (option (option float * option float * option string)) :=
  listed <- lift (json_get payload "limit_orders") ;;
  let limit_orders := if json_truthy listed then listed else JObj [] in
  market_data <- lift (json_get_or_empty payload "market_data") ;;
  mid <- lift (json_get market_data "mid_price") ;;
  mid_price <- lift (_safe_float mid) ;;
  mid_price <-
    (if match mid_price with
        | Some m => negb (Py.truthy m) || (m <=? 0)
        | None => true
        end
     then
       calculated <- lift (json_get_or_empty payload "calculated_values") ;;
       reservation <- lift (json_get calculated "reservation_price") ;;
       lift (_safe_float reservation)
     else ret mid_price) ;;
  buy_spread <- _extract_spread limit_orders "delta_b" mid_price file_path ;;
  sell_spread <- _extract_spread limit_orders "delta_a" mid_price file_path ;;
  match buy_spread, sell_spread with
  | None, None =>
      log_ WARNING "No usable spreads found; checking next candidate if available." ;;;
      ret None
  | _, _ => ret (Some (buy_spread, sell_spread, Some file_path))
  end.

(** [for candidate in candidates: ...] and the [return None, None, None]
    after it. *)
Fixpoint for_candidates (files : string -> FileRead) (candidates : list string)
    : M (option float * option float * option string) :=
  match candidates with
  | [] => ret (None, None, None)
  | candidate :: rest =>
      let file_path :=
        params_path (AVELLANEDA_FILE_PREFIX ++ candidate ++ ".json") in
      match files file_path with
      | NoFile => for_candidates files rest
      | LoadFails _ =>
          log_ WARNING "Failed to load parameter file" ;;;
          for_candidates files rest
      | Loaded payload =>
          found <- spreads_of_payload payload file_path ;;
          match found with
          | Some overrides => ret overrides
          | None => for_candidates files rest
          end
      end
  end.

(** [_load_spread_overrides(symbol)] *)
Definition _load_spread_overrides (files : string -> FileRead) (symbol : string)
    : M (option float * option float * option string) :=
  for_candidates files (_parameter_file_candidates (Some symbol)).

Definition opt_string_eqb (a b : option string) : bool :=
  match a, b with
  | Some x, Some y => String.eqb x y
  | None, None => true
  | _, _ => false
  end.

(** [_get_spreads_for_symbol(symbol)] at [time.time() = now], on the files
    and the cache as they are then; the result comes with the cache as the
    call leaves it.  (The two signatures are compared with [==] on floats;
    no spread is ever NaN, where Python's tuple comparison would differ.) *)
Definition _get_spreads_for_symbol (files : string -> FileRead)
    (cache : SpreadCache) (now : float) (symbol : option string)
    : M (float * float * SpreadCache) :=
  let upper_symbol := upper (match symbol with Some s => s | None => "" end) in
  let symbol_key :=
    if String.eqb upper_symbol "" then DEFAULT_SYMBOL else upper_symbol in
  let cached_entry := cache_get cache symbol_key in
  let reload : M (float * float * SpreadCache) :=
    overrides <- _load_spread_overrides files symbol_key ;;
    let '(buy_override, sell_override, source_path) := overrides in
    let buy_spread :=
      match buy_override with Some b => b | None => DEFAULT_BUY_SPREAD end in
    let sell_spread :=
      match sell_override with Some s => s | None => DEFAULT_SELL_SPREAD end in
    let cache' :=
      cache_set cache symbol_key
        {| ce_buy := buy_spread; ce_sell := sell_spread;
           ce_expires_at := now + SPREAD_CACHE_TTL_SECONDS;
           ce_source_path := source_path |} in
    let unchanged :=
      match cached_entry with
      | Some entry =>
          (buy_spread =? ce_buy entry) && (sell_spread =? ce_sell entry)
          && opt_string_eqb source_path (ce_source_path entry)
      | None => false
      end in
    when (negb unchanged)
      (match source_path with
       | Some _ =>
           match buy_override, sell_override with
           | Some _, Some _ => log_ INFO "Loaded spreads"
           | _, _ => log_ INFO "Using spreads with defaults"
           end
       | None => log_ INFO "No Avellaneda parameter file found; using default spreads"
       end) ;;;
    ret (buy_spread, sell_spread, cache') in
  match cached_entry with
  | Some entry =>
      if Py.gt (ce_expires_at entry) now
      then ret (ce_buy entry, ce_sell entry, cache)
      else reload
  | None => reload
  end.

(** [get_spreads(state)]; [global_args] is [None] until [main] has parsed
    the command line. *)
Definition get_spreads (files : string -> FileRead) (cache : SpreadCache)
    (now : float) (global_args : option string)
    : M (float * float * SpreadCache) :=
  if negb USE_AVELLANEDA_SPREADS
  then ret (DEFAULT_BUY_SPREAD, DEFAULT_SELL_SPREAD, cache)
  else
    let symbol :=
      match global_args with Some symbol => symbol | None => DEFAULT_SYMBOL end in
    _get_spreads_for_symbol files cache now (Some symbol).

End SpreadLoader.

(* ================================================================== *)
(** ** The Supertrend signal file *)

(** What [os.path.exists], [open] and [json.load] make of the signal
    file. *)
Inductive SignalFile :=
| SignalMissing                 (* [os.path.exists] is false *)
| SignalUndecodable             (* [json.load] raises JSONDecodeError *)
| SignalUnreadable (e : Exn)    (* anything else raised on the way *)
| SignalLoaded (data : json).

(** [v == n] for an int [n]: [True] is 1, a float compares by value. *)
Definition json_eq_int (v : json) (n : Z) : bool :=
  match v with
  | JInt m => (m =? n)%Z
  | JBool b => ((if b then 1 else 0) =? n)%Z
  | JFloat x => py_eq_int (PFloat x) n
  | _ => false
  end.

(** [v in [1, -1]] *)
Definition is_trend (v : json) : bool := json_eq_int v 1 || json_eq_int v (-1).

(** The int a value of [[1, -1]] is equal to: the state keeps the signal
    up to [==]. *)
Definition trend_value (v : json) : Z := if json_eq_int v 1 then 1%Z else (-1)%Z.

(** [data.get('current_signal', {}).get('trend')] *)
Definition read_trend (data : json) : Res json :=
  match json_get_or_empty data "current_signal" with
  | Ok current_signal => json_get current_signal "trend"
  | Raise e => Raise e
  end.

Definition set_supertrend_signal (v : option Z) (s : StrategyState)
    : StrategyState :=
  {| bid_price := bid_price s; ask_price := ask_price s; mid_price := mid_price s;
     active_order_id := active_order_id s; position_size := position_size s;
     flip_mode := flip_mode s; mode := mode s;
     last_order_price := last_order_price s;
     last_order_side := last_order_side s;
     last_order_quantity := last_order_quantity s;
     account_balance := account_balance s;
     balance_last_updated := balance_last_updated s;
     usdc_balance := usdc_balance s; order_updates := order_updates s;
     price_ws_connected := price_ws_connected s;
     user_data_ws_connected := user_data_ws_connected s;
     supertrend_signal := v |}.

(** [state.supertrend_signal != n] *)
Definition signal_differs (s : StrategyState) (n : Z) : bool :=
  match supertrend_signal s with
  | Some m => negb (m =? n)%Z
  | None => true
  end.

(** [initialize_supertrend_signal(state, symbol)] on the file as it is at
    startup. *)
Definition initialize_supertrend_signal (file : SignalFile) : M unit :=
  match file with
  | SignalMissing =>
      log_ WARNING "Supertrend params file not found. Using default FLIP_MODE."
  | SignalUndecodable | SignalUnreadable _ =>
      log_ ERROR "Error initializing Supertrend signal. Using default FLIP_MODE."
  | SignalLoaded data =>
      try_except
        (initial_signal <- lift (read_trend data) ;;
         if is_trend initial_signal then
           modify (set_supertrend_signal (Some (trend_value initial_signal))) ;;;
           let new_flip_mode := (trend_value initial_signal =? -1)%Z in
           s <- get_state ;;
           if negb (Bool.eqb (flip_mode s) new_flip_mode) then
             modify (set_flip_mode new_flip_mode) ;;;
             log_ INFO "Initialized Supertrend signal" ;;;
             log_ INFO "Initial strategy bias set by signal"
           else log_ INFO "Initial Supertrend signal confirms default bias"
         else log_ WARNING "Invalid initial signal. Using default FLIP_MODE.")
        (fun _ =>
           log_ ERROR "Error initializing Supertrend signal. Using default FLIP_MODE.")
  end.

(** One pass of the [while] of [supertrend_signal_updater(state, symbol)],
    up to its sleep of [SUPERTREND_CHECK_INTERVAL] seconds, on the file as
    it is then. *)
Definition supertrend_signal_updater (file : SignalFile) : M unit :=
  match file with
  | SignalMissing =>
      s <- get_state ;;
      when (signal_differs s 1)
        (log_ WARNING "Supertrend params file not found. Defaulting to UPTREND (+1)." ;;;
         modify (set_supertrend_signal (Some 1%Z)))
  | SignalUndecodable =>
      log_ ERROR "Error decoding JSON. Defaulting to UPTREND (+1)." ;;;
      modify (set_supertrend_signal (Some 1%Z))
  | SignalUnreadable _ =>
      log_ ERROR "An error occurred in the Supertrend signal updater. Defaulting to UPTREND (+1)." ;;;
      modify (set_supertrend_signal (Some 1%Z))
  | SignalLoaded data =>
      try_except
        (new_signal <- lift (read_trend data) ;;
         if is_trend new_signal then
           s <- get_state ;;
           when (signal_differs s (trend_value new_signal))
             (modify (set_supertrend_signal (Some (trend_value new_signal))) ;;;
              log_ INFO "Supertrend signal updated")
         else
           log_ WARNING "Invalid signal. Defaulting to UPTREND (+1)." ;;;
           modify (set_supertrend_signal (Some 1%Z)))
        (fun _ =>
           log_ ERROR "An error occurred in the Supertrend signal updater. Defaulting to UPTREND (+1)." ;;;
           modify (set_supertrend_signal (Some 1%Z)))
  end.

(* ================================================================== *)
(** ** [main]: from the first call to the start of the tasks *)

Definition FLIP_MODE : bool := false.

(** [v == text] *)
Definition json_eq_str (v : json) (text : string) : bool :=
  match v with JStr s => String.eqb s text | _ => false end.

Definition not_iterable {A} : Res A :=
  Raise (mkExn TypeError "object is not iterable").

Fixpoint chars (s : string) : list json :=
  match s with
  | EmptyString => []
  | String a rest => JStr (String a EmptyString) :: chars rest
  end.

(** [key in v] for a string [key]. *)
Definition json_contains (key : string) (v : json) : Res bool :=
  match v with
  | JObj members =>
      Ok (match members_lookup members key with Some _ => true | None => false end)
  | JList items => Ok (existsb (fun item => json_eq_str item key) items)
  | JStr s => Ok (Py.contains key s)
  | JNull | JBool _ | JInt _ | JFloat _ => not_iterable
  end.

(** [v[key]] for a string [key] that is in [v]. *)
Definition json_index (v : json) (key : string) : Res json :=
  match v with
  | JObj members =>
      match members_lookup members key with
      | Some x => Ok x
      | None => Raise (mkExn OtherError "KeyError")
      end
  | _ => Raise (mkExn TypeError "indices must be integers")
  end.

(** What [for item in v] goes through. *)
Definition json_iter (v : json) : Res (list json) :=
  match v with
  | JList items => Ok items
  | JObj members => Ok (map (fun kv => JStr (fst kv)) members)
  | JStr s => Ok (chars s)
  | JNull | JBool _ | JInt _ | JFloat _ => not_iterable
  end.

(** What the race between [fetch_initial_balance] and the 20-second
    [wait_for] around it comes to: the call is cut short, or the venue's
    answer (or failure) arrives in time. *)
Inductive BalanceFetch :=
| FetchTimesOut
| FetchAnswers (account_info : Res json).

(** What [main] reads from outside the process before it starts the
    tasks. *)
Record StartupEnv := mkStartup {
  su_initial_cancel : Res unit;       (* [client.cancel_all_orders] *)
  su_balance : BalanceFetch;
  su_balance_now : float;             (* clock when the balance is stored *)
  su_signal_file : SignalFile;
  su_positions : Res json;            (* [client.get_position_risk] *)
  su_leverage : Res unit              (* [client.change_leverage] *)
}.

Section Startup.

Variable float_of_str : string -> Res float.
(** [args.symbol]. *)
Variable symbol : string.

(** [fetch_initial_balance(state, client)], when the answer arrives. *)
Definition fetch_initial_balance (account_info : Res json) (now : float)
    : M bool :=
  try_except
    (log_ INFO "Fetching initial account balance..." ;;;
     account_info <- lift account_info ;;
     data <- lift (json_get_or_empty account_info "data") ;;
     available <- lift (json_get_default data "available_to_spend" (JInt 0)) ;;
     balance <- lift (json_float float_of_str available) ;;
     modify (set_balance balance now) ;;;
     log_ INFO "Initial balance loaded" ;;;
     ret true)
    (fun _ => log_ ERROR "Failed to fetch initial balance" ;;; ret false).

(** [for position in positions['positions']], which stops at the first
    entry for the symbol; the result is [position_found]. *)
Fixpoint for_risk_positions (positions : list json) : M bool :=
  match positions with
  | [] => ret false
  | position :: rest =>
      listed <- lift (json_get position "symbol") ;;
      if json_eq_str listed symbol then
        size <- lift (json_get_default position "size" (JFloat 0.0)) ;;
        position_size <- lift (json_float float_of_str size) ;;
        entry <- lift (json_get_default position "entry_price" (JFloat 0.0)) ;;
        entry_price <- lift (json_float float_of_str entry) ;;
        let notional_value := abs (position_size * entry_price) in
        let position_is_long := Py.gt position_size 0 in
        let position_is_short := position_size <? 0 in
        s <- get_state ;;
        if negb (flip_mode s) && position_is_long && Py.gt notional_value 15.0
        then
          log_ INFO "Found existing LONG position" ;;;
          modify (set_position_size position_size) ;;;
          modify (set_mode ask) ;;;
          log_ INFO "Starting in ask mode to close position." ;;;
          ret true
        else if flip_mode s && position_is_short && Py.gt notional_value 15.0
        then
          log_ INFO "Found existing SHORT position" ;;;
          modify (set_position_size position_size) ;;;
          modify (set_mode bid) ;;;
          log_ INFO "Starting in bid mode to close position." ;;;
          ret true
        else ret false
      else for_risk_positions rest
  end.

(** The [try] of [main] that looks for an existing position and sets the
    leverage. *)
Definition check_existing_position (env : StartupEnv) : M unit :=
  try_except
    (log_ INFO "Checking for existing position" ;;;
     positions <- lift (su_positions env) ;;
     log_ DEBUG "Position risk response" ;;;
     position_found <-
       (if json_truthy positions then
          listed <- lift (json_contains "positions" positions) ;;
          if listed then
            entries <- lift (json_index positions "positions") ;;
            items <- lift (json_iter entries) ;;
            for_risk_positions items
          else ret false
        else ret false) ;;
     when (negb position_found)
       (log_ INFO "No significant existing position found." ;;;
        try_except
          (log_ INFO "Attempting to set leverage" ;;;
           lift (su_leverage env) ;;;
           log_ INFO "Successfully set leverage")
          (fun _ => log_ ERROR "Failed to set leverage") ;;;
        log_ INFO "Starting in default mode."))
    (fun _ =>
       log_ WARNING "Could not check for existing position or set leverage, starting in default mode").

(** [main] from the initial cancel to the creation of the tasks; the
    result tells whether the tasks are started. *)
Definition main_startup (env : StartupEnv) : M bool :=
  try_except
    (log_ INFO "Sending initial cancel all orders to ensure a clean slate." ;;;
     lift (su_initial_cancel env))
    (fun _ => log_ WARNING "Failed to send initial cancel all orders, proceeding anyway") ;;;
  log_ INFO "Fetching initial account balance..." ;;;
  match su_balance env with
  | FetchTimesOut =>
      log_ INFO "Fetching initial account balance..." ;;;
      log_ ERROR "Timed out while fetching initial balance. Cannot proceed." ;;;
      ret false
  | FetchAnswers account_info =>
      balance_success <- fetch_initial_balance account_info (su_balance_now env) ;;
      if negb balance_success then
        log_ ERROR "Failed to fetch initial balance. Cannot proceed." ;;;
        ret false
      else
        when USE_SUPERTREND_SIGNAL
          (initialize_supertrend_signal (su_signal_file env)) ;;;
        check_existing_position env ;;;
        ret true
  end.

End Startup.

(* ================================================================== *)
(** ** [api_client.sort_json_keys] *)

(** [sorted(value.keys())] puts the keys in the order of [str], which is
    the lexicographic order of their code points (and of their UTF-8
    bytes).  Keys of a dict are distinct, so sorting the members by key is
    the same as looking each sorted key up. *)
Fixpoint insert_member (member : string * json)
    (sorted : list (string * json)) : list (string * json) :=
  match sorted with
  | [] => [member]
  | member' :: rest =>
      if String.leb (fst member) (fst member')
      then member :: sorted
      else member' :: insert_member member rest
  end.

Definition sort_members (members : list (string * json))
    : list (string * json) :=
  fold_right insert_member [] members.

(** [sort_json_keys(value)] *)
Fixpoint sort_json_keys (value : json) : json :=
  match value with
  | JObj members =>
      JObj (sort_members
              (map (fun member =>
                      let '(key, v) := member in (key, sort_json_keys v))
                   members))
  | JList items => JList (map sort_json_keys items)
  | _ => value
  end.

(* ================================================================== *)
(** * Observables and scenarios

    Relations between the world before and after a step, counters on the
    calls made, and the concrete states and messages the properties below
    are run on. *)

(** A balance fetched at time 0 and a price of the same age, checked one
    hour later. *)
Definition stale_world : World :=
  with_price_last_updated (Some 0)
    (with_st (fun s => set_prices 99.98 100.02 100 (set_balance 1000 0 s))
       (World_init false)).

(** Scenario B: an order resting at 100.00 on the bid side for 2.0. *)
Definition resting_order : StrategyState :=
  set_last_order (Some 100) (Some bid) (Some 2)
    (set_active_order_id (Some 7%Z) (StrategyState_init false)).

Definition two_decimals : SymbolFilters :=
  {| price_precision := 2; tick_size := 0.01; quantity_precision := 2;
     step_size := 0.01; min_notional := 10 |}.

(** Scenario C: Opening on the bid side, flat, mid price 100; the order
    fills for 1.5. *)
Definition opening_flat : World :=
  with_st (set_prices 99.98 100.02 100) (World_init false).

(** [keeps R c]: running [c] relates the world before to the world after,
    whether [c] returns or raises. *)
Definition keeps {A} (R : World -> World -> Prop) (c : M A) : Prop :=
  forall w, R w (snd (c w)).

(** The fields only the controller writes, and the calls made so far. *)
Definition same_order (w w' : World) : Prop :=
  active_order_id (st w') = active_order_id (st w)
  /\ last_order_price (st w') = last_order_price (st w)
  /\ last_order_side (st w') = last_order_side (st w)
  /\ last_order_quantity (st w') = last_order_quantity (st w)
  /\ last_order_time w' = last_order_time w
  /\ trace w' = trace w.

(** The same, and the two connection flags. *)
Definition same_wiring (w w' : World) : Prop :=
  same_order w w'
  /\ price_ws_connected (st w') = price_ws_connected (st w)
  /\ user_data_ws_connected (st w') = user_data_ws_connected (st w).

(** Posture and inventory. *)
Definition same_posture (w w' : World) : Prop :=
  mode (st w') = mode (st w) /\ position_size (st w') = position_size (st w).

(** The shape of the events built by the account feed: ['e'] is
    ['ORDER_FILLED'] and there is no ['type'] key. *)
Definition feed_shaped (update : dict) : Prop :=
  dict_get update "e" = PStr "ORDER_FILLED" /\ dict_lookup update "type" = None.

(** The queue only grows, by events of that shape. *)
Definition enqueues_shaped (w w' : World) : Prop :=
  exists evs, order_updates (st w') = (order_updates (st w) ++ evs)%list
              /\ Forall feed_shaped evs.

(** A message that is not an unmarked [account_positions] update. *)
Definition not_positions (message : Inbound UserMessage) : Prop :=
  match message with
  | Object data =>
      um_subscribed data = true
      \/ match um_channel data with AccountPositions _ => False | _ => True end
  | _ => True
  end.

(** The account socket is up; the strategy is long-biased, flat, in
    Opening posture. *)
Definition account_streaming : World :=
  with_user_task (mkFeed (Streaming 0) 5)
    (with_st (set_user_data_ws_connected true) (World_init false)).

(** [{"channel": "account_positions", "data": [{"s": "BTC", "a": "1",
    "p": "100", "d": "bid"}]}] *)
Definition long_position_update : FeedEvent UserMessage :=
  Received 1 1
    (Object {| um_subscribed := false;
               um_channel := AccountPositions
                 [ {| pos_s := Some "BTC"; pos_a := Num 1; pos_p := Num 100;
                      pos_d := Some "bid" |} ];
               um_error := None |}).

(** The log lines of the ['error'] key. *)
Definition error_lines (error : option bool) : list LogEntry :=
  match error with
  | None => []
  | Some false => [mkLog ERROR "WebSocket error"]
  | Some true => [mkLog ERROR "WebSocket error";
                  mkLog WARNING "Authentication error, reconnecting..."]
  end.

(** An order for 2.0 is resting under id 7; the account socket is up. *)
Definition order_outstanding : World :=
  with_st (fun s => set_last_order (Some 100) (Some bid) (Some 2)
                      (set_active_order_id (Some 7%Z) s))
    account_streaming.

(** [{"channel": "account_orders", "data": [{"i": 7, "f": "0.5",
    "a": "2.0", "s": "BTC", "d": "bid"}]}]: filled for 0.5 so far. *)
Definition partly_filled_listing : Inbound UserMessage :=
  Object {| um_subscribed := false;
            um_channel := AccountOrders
              [ {| ord_i := Some 7%Z; ord_f := Num 0.5; ord_a := Num 2;
                   ord_s := Some "BTC"; ord_d := Some "bid" |} ];
            um_error := None |}.

(** [{"channel": "account_orders", "data": []}] *)
Definition empty_listing : Inbound UserMessage :=
  Object {| um_subscribed := false; um_channel := AccountOrders [];
            um_error := None |}.




(** The price socket is up; the last message came at time 0. *)
Definition price_streaming : World :=
  with_price_task (mkFeed (Streaming 0) 5)
    (with_st (set_price_ws_connected true) (World_init false)).

Definition no_str (_ : string) : Res float :=
  Raise (mkExn ValueError "could not convert string to float").

Definition idle {A} (r : Res A) : Await A := mkAwait [] r.

(** Both sockets up, fresh price 100 and balance 1000, long-biased
    strategy in Closing posture with a believed position of 0.5. *)
Definition closing_half : World :=
  with_price_last_updated (Some 0)
    (with_st (fun s =>
                set_position_size 0.5
                  (set_mode ask
                     (set_prices 99.98 100.02 100
                        (set_balance 1000 0
                           (set_price_ws_connected true
                              (set_user_data_ws_connected true s))))))
       (World_init false)).

Definition rejection : Exn :=
  mkExn OtherError "422, message='Unprocessable Entity'".

(** A cycle at time 10 in which the venue rejects the placement. *)
Definition rejecting_cycle : CycleEnv :=
  {| env_emergency_cancel := idle (Ok tt);
     env_now := 10;
     env_spreads := Ok (0.006, 0.006);
     env_reuse_start := 10; env_reuse_wait := [];
     env_rate_now := 10; env_rate_sleep := [];
     env_replace_cancel := idle (Ok tt);
     env_place := idle (Raise rejection);
     env_placed_now := 10;
     env_fill_start := 10; env_fill_wait := [];
     env_timeout_cancel := idle (Ok tt);
     env_cleanup_cancel := idle (Ok tt) |}.

(** What a wait on the queue does when no update ever makes it [break]:
    each pass lets the feeds run and takes the head of the queue, until a
    pass times out. *)
Fixpoint drained (symbol : string) (start_time : float)
    (steps : list WaitStep) (w : World) : World :=
  match steps with
  | [] => w
  | step :: rest =>
      match next_update symbol start_time step w with
      | (Ok _, w1) => drained symbol start_time rest w1
      | (Raise _, w1) => w1
      end
  end.

Definition queue_shaped (w : World) : Prop :=
  Forall feed_shaped (order_updates (st w)).

Definition shaped_stays (w w' : World) : Prop :=
  queue_shaped w -> queue_shaped w'.

(** The feed has reported order 7 gone: its fill event is on the queue,
    while the order is still tracked. *)
Definition fill_pending : World :=
  snd (on_user_data_message "BTC" 2 empty_listing order_outstanding).

(** A reuse wait that starts at time 10 and is woken twice in time. *)
Definition reusing_cycle : CycleEnv :=
  {| env_emergency_cancel := idle (Ok tt);
     env_now := 10;
     env_spreads := Ok (0.006, 0.006);
     env_reuse_start := 10;
     env_reuse_wait := [mkWaitStep 11 []; mkWaitStep 12 []];
     env_rate_now := 10; env_rate_sleep := [];
     env_replace_cancel := idle (Ok tt);
     env_place := idle (Raise rejection);
     env_placed_now := 10;
     env_fill_start := 10; env_fill_wait := [];
     env_timeout_cancel := idle (Ok tt);
     env_cleanup_cancel := idle (Ok tt) |}.

Definition is_cancel (a : Action) : bool :=
  match a with CancelOrder _ | CancelAllOrders => true | _ => false end.

Definition is_place (a : Action) : bool :=
  match a with PlaceOrder _ _ _ _ => true | _ => false end.

(** How many cancel calls, how many placements, in a list of calls. *)
Definition cancels (t : list Action) : nat := List.length (filter is_cancel t).
Definition placements (t : list Action) : nat := List.length (filter is_place t).

(** [not state.price_ws_connected or not state.user_data_ws_connected] *)
Definition feed_down (w : World) : bool :=
  negb (price_ws_connected (st w)) || negb (user_data_ws_connected (st w)).

(** A run of the loop in which a feed is down at the start of every
    cycle. *)
Fixpoint outage (float_of_str : string -> Res float) (symbol : string)
    (symbol_filters : SymbolFilters) (flip0 : bool)
    (cycles : list (list Activity * CycleEnv)) (w : World) : Prop :=
  match cycles with
  | [] => True
  | (before, env) :: rest =>
      let w1 := activities symbol before w in
      feed_down w1 = true
      /\ outage float_of_str symbol symbol_filters flip0 rest
           (snd (cycle float_of_str symbol symbol_filters flip0 env w1))
  end.

(** The calls of a cycle that starts with a feed down. *)
Definition emergency_calls (w : World) : list Action :=
  match active_order_id (st w) with
  | Some id => if (id =? 0)%Z then [Sleep 1] else [CancelOrder id; Sleep 1]
  | None => [Sleep 1]
  end.

(** Scenario D: order 7 is resting and both sockets are down. *)
Definition blackout : World :=
  with_st (fun s => set_last_order (Some 100) (Some bid) (Some 2)
                      (set_active_order_id (Some 7%Z) s))
    (World_init false).

(** The venue does not answer. *)
Definition unreachable : Exn := mkExn OtherError "Cannot connect to host".

(** A cycle of the outage in which the emergency cancel fails. *)
Definition unanswered_cycle : CycleEnv :=
  {| env_emergency_cancel := idle (Raise unreachable);
     env_now := 10;
     env_spreads := Ok (0.006, 0.006);
     env_reuse_start := 10; env_reuse_wait := [];
     env_rate_now := 10; env_rate_sleep := [];
     env_replace_cancel := idle (Ok tt);
     env_place := idle (Raise rejection);
     env_placed_now := 10;
     env_fill_start := 10; env_fill_wait := [];
     env_timeout_cancel := idle (Ok tt);
     env_cleanup_cancel := idle (Ok tt) |}.

(** ** Placements in a cycle *)

Definition no_place (w w' : World) : Prop :=
  placements (trace w') = placements (trace w).

Definition one_place (w w' : World) : Prop :=
  (placements (trace w') <= placements (trace w) + 1)%nat.

(** ** The connection flags, the phases and the back-off delays *)

(** The local variables of the two feed tasks. *)
Definition same_tasks (w w' : World) : Prop :=
  price_task w' = price_task w /\ user_task w' = user_task w.

Definition is_streaming (p : FeedPhase) : bool :=
  match p with Streaming _ => true | _ => false end.

(** The values [reconnect_delay] can take: 5, then times 1.5 up to the cap
    of 60. *)
Definition backoff_ladder : list float :=
  [5; 7.5; 11.25; 16.875; 25.3125; 37.96875; 56.953125; 60].

(** A feed task and its flag agree, and its delay is on the ladder. *)
Definition task_ok (connected : bool) (l : FeedLocal) : Prop :=
  connected = is_streaming (phase l) /\ In (reconnect_delay l) backoff_ladder.

(** ** What the controller leaves to the feeds *)

(** The fields written by the feed tasks (and the signal file reader) and
    the feeds' local variables. *)
Definition feed_owned_same (w w' : World) : Prop :=
  price_task w' = price_task w
  /\ user_task w' = user_task w
  /\ bid_price (st w') = bid_price (st w)
  /\ ask_price (st w') = ask_price (st w)
  /\ mid_price (st w') = mid_price (st w)
  /\ price_last_updated w' = price_last_updated w
  /\ account_balance (st w') = account_balance (st w)
  /\ balance_last_updated (st w') = balance_last_updated (st w)
  /\ usdc_balance (st w') = usdc_balance (st w)
  /\ price_ws_connected (st w') = price_ws_connected (st w)
  /\ user_data_ws_connected (st w') = user_data_ws_connected (st w)
  /\ supertrend_signal (st w') = supertrend_signal (st w).

(** [Inv] survives the step. *)
Definition stays (Inv : World -> Prop) (w w' : World) : Prop := Inv w -> Inv w'.

(** *** Both tasks *)

Definition feeds_ok (w : World) : Prop :=
  task_ok (price_ws_connected (st w)) (price_task w)
  /\ task_ok (user_data_ws_connected (st w)) (user_task w).

Definition user_side_same (w w' : World) : Prop :=
  user_data_ws_connected (st w') = user_data_ws_connected (st w)
  /\ user_task w' = user_task w.

Definition price_side_same (w w' : World) : Prop :=
  price_ws_connected (st w') = price_ws_connected (st w)
  /\ price_task w' = price_task w.

(** ** The mid price is positive *)

Definition mid_positive (w : World) : Prop :=
  match mid_price (st w) with
  | Some m => (0 <? m) = true
  | None => True
  end.

(** ** Data that has arrived stays *)

Definition balance_known (w : World) : Prop :=
  is_balance_data_valid (st w) = true.

Definition price_known (w : World) : Prop :=
  bid_price (st w) <> None /\ ask_price (st w) <> None
  /\ mid_price (st w) <> None /\ price_last_updated w <> None.

(** ** What each feed task leaves alone *)

(** Everything but the quote, its timestamp, the price flag, the price
    task's local variables and the log. *)
Definition beyond_prices (w : World)
    : option Z * float * bool * Side * option float * option Side
      * option float * option float * option float * float * list dict
      * bool * option Z * float * FeedLocal * list Action :=
  (active_order_id (st w), position_size (st w), flip_mode (st w),
   mode (st w), last_order_price (st w), last_order_side (st w),
   last_order_quantity (st w), account_balance (st w),
   balance_last_updated (st w), usdc_balance (st w), order_updates (st w),
   user_data_ws_connected (st w), supertrend_signal (st w),
   last_order_time w, user_task w, trace w).

(** Everything the account feed has no business with: the quote and its
    timestamp, the price flag and task, the bias, the signal, the order the
    controller tracks and the calls made. *)
Definition beyond_account (w : World)
    : option float * option float * option float * option float * bool
      * FeedLocal * bool * option Z * option Z * option float * option Side
      * option float * float * list Action :=
  (bid_price (st w), ask_price (st w), mid_price (st w),
   price_last_updated w, price_ws_connected (st w), price_task w,
   flip_mode (st w), supertrend_signal (st w), active_order_id (st w),
   last_order_price (st w), last_order_side (st w),
   last_order_quantity (st w), last_order_time w, trace w).

Definition same_view {V} (view : World -> V) (w w' : World) : Prop :=
  view w' = view w.

(** ** Price messages *)

(** [price_data.get('symbol', '')] *)
Definition entry_symbol (e : PriceEntry) : string :=
  match pe_symbol e with Some t => t | None => "" end.

(** An entry whose numbers convert, when it is for the symbol. *)
Definition entry_converts (symbol : string) (e : PriceEntry) : Prop :=
  String.eqb (entry_symbol e) symbol = true ->
  pe_mid e <> Unparsable /\ pe_mark e <> Unparsable.

(** An entry for the symbol with a mid price above zero. *)
Definition entry_quotes (symbol : string) (e : PriceEntry) : Prop :=
  String.eqb (entry_symbol e) symbol = true
  /\ exists m, pe_mid e = Num m /\ Py.gt m 0 = true.

Definition just_priced (now : float) (w : World) : Prop :=
  price_last_updated w = Some now /\ mid_price (st w) <> None.

(** ** Account messages *)

(** The signed size and the notional of a position entry, as
    [on_position] computes them. *)
Definition reported_size (a : float) (d : option string) : float :=
  if String.eqb (match d with Some d => d | None => "bid" end) "ask"
  then - (abs a) else abs a.

Definition reported_notional (a entry_price : float) (d : option string) : float :=
  if Py.gt entry_price 0 then abs (reported_size a d * entry_price) else 0.

(** *** Listings of the tracked order *)

(** [order.get('i') == state.active_order_id] against a tracked id. *)
Definition lists_tracked (id : Z) (order : OrderEntry) : bool :=
  match ord_i order with Some i => (i =? id)%Z | None => false end.

(** The events due for a listing: one for each entry of the tracked order
    whose filled amount has reached its amount. *)
Definition listing_events (id : Z) (orders : list OrderEntry) : list dict :=
  flat_map
    (fun order =>
       if lists_tracked id order then
         match float_field (ord_f order) 0, float_field (ord_a order) 0 with
         | Ok filled_amount, Ok original_amount =>
             if Py.ge filled_amount original_amount
             then [fill_event_listed order filled_amount] else []
         | _, _ => []
         end
       else [])
    orders.

Definition amounts_convert (id : Z) (order : OrderEntry) : Prop :=
  lists_tracked id order = true ->
  ord_f order <> Unparsable /\ ord_a order <> Unparsable.

(** ** An order that does not fill *)

(** The cancel call made for a tracked id. *)
Definition cancel_call (o : option Z) : Action :=
  match o with
  | Some n => if (n =? 0)%Z then CancelAllOrders else CancelOrder n
  | None => CancelAllOrders
  end.

(** ** From the account feed to the fill wait *)

(** The amount carried by the event for an order that left the listing. *)
Definition placed_amount (s : StrategyState) : float :=
  match last_order_quantity s with
  | Some q => if Py.truthy q then q else 0
  | None => 0
  end.

(** [update] is an event the account feed builds for order [id], with
    amount [z]. *)
Definition feed_event (id : Z) (update : dict) (z : float) : Prop :=
  (exists order, ord_i order = Some id /\ update = fill_event_listed order z)
  \/ (exists symbol s, active_order_id s = Some id
                       /\ update = fill_event_missing symbol s
                       /\ z = placed_amount s).

(** ** Spreads *)

Definition in_bounds (x : float) : Prop :=
  (SPREAD_MIN_THRESHOLD <=? x) = true /\ (x <=? SPREAD_MAX_THRESHOLD) = true.

Definition override_ok (o : option float) : Prop :=
  match o with Some x => in_bounds x | None => True end.

Definition cache_ok (cache : SpreadCache) : Prop :=
  Forall (fun kv => in_bounds (ce_buy (snd kv)) /\ in_bounds (ce_sell (snd kv)))
         cache.

(** The key under which [_get_spreads_for_symbol] caches a symbol. *)
Definition symbol_key (upper : string -> string) (symbol : option string)
    : string :=
  let upper_symbol := upper (match symbol with Some s => s | None => "" end) in
  if String.eqb upper_symbol "" then DEFAULT_SYMBOL else upper_symbol.

(** No live entry for the key at time [now]. *)
Definition cache_misses (cache : SpreadCache) (k : string) (now : float) : Prop :=
  match cache_get cache k with
  | Some entry => Py.gt (ce_expires_at entry) now = false
  | None => True
  end.

(** No parameter file can be loaded. *)
Definition nothing_loads (files : string -> FileRead) : Prop :=
  forall path, match files path with Loaded _ => False | _ => True end.

(** ** Parameter file names *)

Fixpoint last_char (s : string) : option ascii :=
  match s with
  | EmptyString => None
  | String a rest =>
      match rest with
      | EmptyString => Some a
      | String _ _ => last_char rest
      end
  end.

(** The suffixes [_parameter_file_candidates] strips. *)
Definition quote_suffixes : list string := ["USDT"; "USDC"; "USDF"; "USD1"; "USD"].

(** What stays true of the list as [add] extends it. *)
Definition candidates_ok (symbol : string) (candidates : list string) : Prop :=
  NoDup candidates
  /\ ~ In "" candidates
  /\ (forall c, In c candidates ->
        c = symbol
        \/ exists suffix, In suffix quote_suffixes
                          /\ symbol = (c ++ suffix)%string)
  /\ (symbol <> "" -> hd_error candidates = Some symbol).

(** ** The Supertrend signal *)

(** [abs(state.position_size * state.mid_price) if state.mid_price else 0],
    the notional the controller compares with the threshold before it
    follows the signal. *)
Definition current_notional (s : StrategyState) : float :=
  match mid_price s with
  | Some m => if Py.truthy m then abs (position_size s * m) else 0
  | None => 0
  end.

(** The file says "downtrend": it decodes and its trend is equal to -1. *)
Definition says_downtrend (file : SignalFile) : Prop :=
  exists data v, file = SignalLoaded data /\ read_trend data = Ok v
                 /\ json_eq_int v (-1) = true.

(** The trend a signal file gives, if it gives one: the file decodes and
    the value under ['current_signal']['trend'] is equal to 1 or to -1. *)
Definition file_trend (file : SignalFile) : option Z :=
  match file with
  | SignalLoaded data =>
      match read_trend data with
      | Ok v => if is_trend v then Some (trend_value v) else None
      | Raise _ => None
      end
  | _ => None
  end.

(** ** Startup *)

(** The balance fields. *)
Definition same_balance (w w' : World) : Prop :=
  account_balance (st w') = account_balance (st w)
  /\ balance_last_updated (st w') = balance_last_updated (st w).

(** The entries the position check goes through: [positions['positions']]
    when the venue's answer is truthy and has that key, nothing otherwise
    (or when the call or one of these steps raises). *)
Definition reported_positions (positions : Res json) : list json :=
  match positions with
  | Ok positions =>
      if json_truthy positions then
        match json_contains "positions" positions with
        | Ok true =>
            match json_index positions "positions" with
            | Ok entries =>
                match json_iter entries with
                | Ok items => items
                | Raise _ => []
                end
            | Raise _ => []
            end
        | _ => []
        end
      else []
  | Raise _ => []
  end.

(** An entry whose ['symbol'] can be read and is not [symbol]. *)
Definition other_symbol (symbol : string) (position : json) : Prop :=
  exists listed, json_get position "symbol" = Ok listed
                 /\ json_eq_str listed symbol = false.

(** The first entry of [items] for [symbol] comes after entries for other
    symbols only, and its size and entry price convert to [size] and
    [entry_price]. *)
Definition first_for_symbol (float_of_str : string -> Res float)
    (symbol : string) (items : list json) (size entry_price : float) : Prop :=
  exists before position after,
    items = (before ++ position :: after)%list
    /\ Forall (other_symbol symbol) before
    /\ (exists listed, json_get position "symbol" = Ok listed
                       /\ json_eq_str listed symbol = true)
    /\ (exists v, json_get_default position "size" (JFloat 0.0) = Ok v
                  /\ json_float float_of_str v = Ok size)
    /\ (exists v, json_get_default position "entry_price" (JFloat 0.0) = Ok v
                  /\ json_float float_of_str v = Ok entry_price).

(** The position is on the side of the bias (short when [flip_mode], long
    otherwise) and [abs(position_size * entry_price) > 15.0]. *)
Definition worth_adopting (flip_mode : bool) (size entry_price : float) : bool :=
  (if flip_mode then size <? 0 else Py.gt size 0)
  && Py.gt (abs (size * entry_price)) 15.0.

(** What the loop over the entries does: the result and the state. *)
Definition scan_ok (float_of_str : string -> Res float) (symbol : string)
    (items : list json) (w : World) (res : Res bool) (w' : World) : Prop :=
  flip_mode (st w') = flip_mode (st w)
  /\ trace w' = trace w
  /\ (forall size entry_price,
        first_for_symbol float_of_str symbol items size entry_price ->
        res = Ok (worth_adopting (flip_mode (st w)) size entry_price)
        /\ (worth_adopting (flip_mode (st w)) size entry_price = true ->
            mode (st w') = closing_mode_of (flip_mode (st w))
            /\ position_size (st w') = size))
  /\ (res = Ok true ->
      exists size entry_price,
        first_for_symbol float_of_str symbol items size entry_price
        /\ worth_adopting (flip_mode (st w)) size entry_price = true)
  /\ (res <> Ok true -> st w' = st w).

(** ** Canonical key order *)

Definition key_le (a b : string * json) : Prop :=
  String.leb (fst a) (fst b) = true.

(** On every member, whatever its key: the recursive call. *)
Definition on_values (f : json -> json) (member : string * json)
    : string * json :=
  let '(key, v) := member in (key, f v).

(** The same value up to the order in which its dicts were filled, at
    every depth: the members of a dict (whose keys are distinct) may come
    in any order, and their values, like the items of a list, may differ
    in the same way. *)
Inductive same_content : json -> json -> Prop :=
| same_value v : same_content v v
| same_list items items' :
    Forall2 same_content items items' ->
    same_content (JList items) (JList items')
| same_dict members members' reordered :
    NoDup (map fst members) ->
    Forall2 (fun member member' =>
               fst member = fst member'
               /\ same_content (snd member) (snd member'))
            members members' ->
    Permutation members' reordered ->
    same_content (JObj members) (JObj reordered).

(** ** Further scenarios *)

(** A run of two cycles: both sockets connect before the first one; an
    order is then rejected by the venue; the price socket fails before the
    second one. *)
Definition short_run : list (list Activity * CycleEnv) :=
  [ ([PriceFeed (Connected 1); UserFeed (Connected 1)], rejecting_cycle);
    ([PriceFeed (RecvFailed (mkExn ConnectionClosed "closed")); PriceFeed Woke],
     rejecting_cycle) ].

(** [{"channel": "prices", "data": [{"symbol": "ETH", "mid": "2500"},
    {"symbol": "BTC", "mid": "101"}]}] *)
Definition btc_quote : PriceMessage :=
  {| pm_subscribed := false;
     pm_prices := Some [ {| pe_symbol := Some "ETH"; pe_mid := Num 2500;
                            pe_mark := Absent |};
                         {| pe_symbol := Some "BTC"; pe_mid := Num 101;
                            pe_mark := Absent |} ] |}.

(** [{"channel": "account_positions", "data": [{"s": "ETH", "a": "3",
    "p": "2500", "d": "bid"}]}] *)
Definition eth_position_update : UserMessage :=
  {| um_subscribed := false;
     um_channel := AccountPositions
       [ {| pos_s := Some "ETH"; pos_a := Num 3; pos_p := Num 2500;
            pos_d := Some "bid" |} ];
     um_error := None |}.

(** [{"s": "BTC", "a": "0.5", "d": "ask"}]: a short position reported
    without its entry price. *)
Definition unpriced_short : PositionEntry :=
  {| pos_s := Some "BTC"; pos_a := Num 0.5; pos_p := Absent;
     pos_d := Some "ask" |}.

(** [{"channel": "account_orders", "data": [{"i": 7, "f": "2.0",
    "a": "2.0", "s": "BTC", "d": "bid"}]}]: filled for all of its 2.0. *)
Definition filled_listing : UserMessage :=
  {| um_subscribed := false;
     um_channel := AccountOrders
       [ {| ord_i := Some 7%Z; ord_f := Num 2; ord_a := Num 2;
            ord_s := Some "BTC"; ord_d := Some "bid" |} ];
     um_error := None |}.

(** Both sockets are up and nothing has arrived on them yet; order 7 is
    resting. *)
Definition connected_no_data : World :=
  with_st (fun s => set_price_ws_connected true
                      (set_user_data_ws_connected true s)) blackout.

(** The venue accepts the order under id 9 while a quote arrives; another
    quote arrives during the fill wait, no fill is reported and the cancel
    call fails. *)
Definition unfilled_cycle : CycleEnv :=
  {| env_emergency_cancel := idle (Ok tt);
     env_now := 10;
     env_spreads := Ok (0.006, 0.006);
     env_reuse_start := 10; env_reuse_wait := [];
     env_rate_now := 10; env_rate_sleep := [];
     env_replace_cancel := idle (Ok tt);
     env_place := mkAwait [PriceFeed (Received 10 10 (Object btc_quote))]
                    (Ok {| resp_success := true;
                           resp_data := Some (Some 9%Z);
                           resp_order_id := None |});
     env_placed_now := 10;
     env_fill_start := 10;
     env_fill_wait :=
       [mkWaitStep 11 [PriceFeed (Received 40 40 (Object btc_quote))]];
     env_timeout_cancel := idle (Raise rejection);
     env_cleanup_cancel := idle (Ok tt) |}.

(** ** Scenarios of the loaders and of startup *)

(** [str.upper] on ASCII text. *)
Definition upper_char (c : ascii) : ascii :=
  let n := nat_of_ascii c in
  if (97 <=? n)%nat && (n <=? 122)%nat then ascii_of_nat (n - 32) else c.

Fixpoint upper_ascii (s : string) : string :=
  match s with
  | EmptyString => EmptyString
  | String c rest => String (upper_char c) (upper_ascii rest)
  end.

Definition params_dir (name : string) : string := "params/" ++ name.

(** The only parameter file is the one for BTC:
    [{"limit_orders": {"delta_b_percent": 0.1, "delta_a": 0.5},
      "market_data": {"mid_price": 100}}] *)
Definition btc_parameters (path : string) : FileRead :=
  if String.eqb path "params/avellaneda_parameters_BTC.json" then
    Loaded (JObj [ ("limit_orders",
                    JObj [ ("delta_b_percent", JFloat 0.1);
                           ("delta_a", JFloat 0.5) ]);
                   ("market_data", JObj [ ("mid_price", JInt 100) ]) ])
  else NoFile.

Definition no_files (_ : string) : FileRead := NoFile.

(** [float(s)] on the strings of the startup scenario. *)
Definition known_numbers (s : string) : Res float :=
  if String.eqb s "121.08" then Ok 121.08
  else if String.eqb s "0.5" then Ok 0.5
  else if String.eqb s "100" then Ok 100
  else Raise (mkExn ValueError "could not convert string to float").

(** The venue answers every call; the account holds 121.08, a short ETH
    position and a long BTC position of 0.5 entered at 100; there is no
    signal file. *)
Definition long_startup : StartupEnv :=
  {| su_initial_cancel := Ok tt;
     su_balance :=
       FetchAnswers
         (Ok (JObj [ ("success", JBool true);
                     ("data", JObj [ ("balance", JStr "121.08");
                                     ("available_to_spend", JStr "121.08") ]) ]));
     su_balance_now := 1;
     su_signal_file := SignalMissing;
     su_positions :=
       Ok (JObj [ ("positions",
                   JList [ JObj [ ("symbol", JStr "ETH");
                                  ("size", JStr "-2");
                                  ("entry_price", JStr "2500") ];
                           JObj [ ("symbol", JStr "BTC");
                                  ("size", JStr "0.5");
                                  ("entry_price", JStr "100") ] ]) ]);
     su_leverage := Ok tt |}.



(** [{"current_signal": {"trend": -1}}] *)
Definition downtrend_file : SignalFile :=
  SignalLoaded (JObj [("current_signal", JObj [("trend", JInt (-1))])]).

(** Flat, in Opening posture, mid price 100, both sockets up. *)
Definition opening_flat_streaming : World :=
  with_price_task (mkFeed (Streaming 0) 5)
    (with_user_task (mkFeed (Streaming 0) 5)
       (with_st (fun s => set_price_ws_connected true
                            (set_user_data_ws_connected true s))
          opening_flat)).

(** A signing header. *)
Definition signing_header : list (string * json) :=
  [ ("timestamp", JInt 1700000000000); ("expiry_window", JInt 5000);
    ("type", JStr "create_order") ].

(** A message to sign, [{**header, "data": payload}], and the same message
    with the header and the payload filled in another order. *)
Definition signed_message : json :=
  JObj [ ("timestamp", JInt 1700000000000); ("expiry_window", JInt 5000);
         ("type", JStr "create_order");
         ("data", JObj [ ("symbol", JStr "BTC"); ("price", JStr "99.40");
                         ("amount", JStr "2.00") ]) ].

Definition signed_message_reordered : json :=
  JObj [ ("type", JStr "create_order");
         ("data", JObj [ ("amount", JStr "2.00"); ("symbol", JStr "BTC");
                         ("price", JStr "99.40") ]);
         ("expiry_window", JInt 5000); ("timestamp", JInt 1700000000000) ].

(* ================================================================== *)
(** * Properties *)

(** ** Float comparisons *)

Lemma eqb_not_ltb (x y : float) : (x =? y) = true -> (x <? y) = false.
Proof.
  rewrite eqb_spec, ltb_spec. unfold SFeqb, SFltb.
  destruct (SFcompare (Prim2SF x) (Prim2SF y)) as [[ | | ] |];
    intro H; try discriminate H; reflexivity.
Qed.

(** ** Validity predicates *)

(** C10: [is_balance_data_valid] holds exactly when [account_balance] and
    [balance_last_updated] are both set; it takes no clock, so a balance
    stamped [t] is accepted at any later time [now], while a price stamped
    with the same [t] is rejected by [is_price_data_valid] as soon as
    [now - t > 30]. *)
Theorem balance_valid_at_any_age (w : World) (t now : float)
    (Hstamp : balance_last_updated (st w) = Some t)
    (Hprice : price_last_updated w = Some t)
    (Hold : Py.gt (now - t) 30 = true) :
  (forall s, is_balance_data_valid s = true <->
             account_balance s <> None /\ balance_last_updated s <> None)
  /\ (account_balance (st w) <> None -> is_balance_data_valid (st w) = true)
  /\ is_price_data_valid w now = false.
Proof.
  split; [| split].
  - intro s. unfold is_balance_data_valid.
    destruct (account_balance s), (balance_last_updated s);
      split; try discriminate; try reflexivity.
    + intros _. split; discriminate.
    + intros [_ H]. now contradiction H.
    + intros [H _]. now contradiction H.
    + intros [H _]. now contradiction H.
  - intro Hb. unfold is_balance_data_valid. rewrite Hstamp.
    destruct (account_balance (st w)); [reflexivity | now contradiction Hb].
  - unfold is_price_data_valid. rewrite Hprice, Hold.
    now destruct (mid_price (st w)).
Qed.

Lemma balance_valid_at_any_age_witness :
  is_balance_data_valid (st stale_world) = true
  /\ is_price_data_valid stale_world 3600 = false.
Proof.
  destruct (balance_valid_at_any_age stale_world 0 3600) as (_ & Hb & Hp);
    try reflexivity.
  split; [apply Hb; discriminate | exact Hp].
Defined.

(** ** Order reuse *)

(** C6: [should_reuse_order] answers [False] when no order is active, when
    the side differs, or when the quantity differs by more than [1e-12];
    with an active order of the same side and quantity (and a last price
    that is not zero, so that the relative change exists) it answers
    exactly whether [|new_price - last_price| / last_price < threshold],
    which is [False] when the two are equal. *)
Theorem should_reuse_order_spec (s : StrategyState) (new_price : float)
    (new_side : Side) (new_quantity threshold : float) :
  (active_order_id s = None ->
   should_reuse_order s new_price new_side new_quantity threshold = Ok false)
  /\ (last_order_side s <> Some new_side ->
      should_reuse_order s new_price new_side new_quantity threshold = Ok false)
  /\ (forall last_quantity,
        last_order_quantity s = Some last_quantity ->
        Py.gt (abs (last_quantity - new_quantity)) 0.000000000001 = true ->
        should_reuse_order s new_price new_side new_quantity threshold = Ok false)
  /\ (forall id last_price last_quantity,
        active_order_id s = Some id ->
        last_order_price s = Some last_price ->
        last_order_side s = Some new_side ->
        last_order_quantity s = Some last_quantity ->
        Py.gt (abs (last_quantity - new_quantity)) 0.000000000001 = false ->
        (last_price =? 0) = false ->
        let change := abs (new_price - last_price) / last_price in
        should_reuse_order s new_price new_side new_quantity threshold
        = Ok (change <? threshold)
        /\ (should_reuse_order s new_price new_side new_quantity threshold
            = Ok true <-> (change <? threshold) = true)
        /\ ((change =? threshold) = true ->
            should_reuse_order s new_price new_side new_quantity threshold
            = Ok false)).
Proof.
  unfold should_reuse_order. repeat split.
  - intros ->. reflexivity.
  - intro Hside.
    destruct (active_order_id s); [| reflexivity].
    destruct (last_order_price s); [| reflexivity].
    destruct (last_order_side s) as [sd |]; [| reflexivity].
    destruct sd, new_side; simpl; try reflexivity; now contradiction Hside.
  - intros lq Hq Hdiff. rewrite Hq, Hdiff.
    destruct (active_order_id s); [| reflexivity].
    destruct (last_order_price s); [| reflexivity].
    now destruct (negb _).
  - rewrite H, H0, H1, H2, H3. unfold Py.fdiv. rewrite H4.
    destruct new_side; reflexivity.
  - rewrite H, H0, H1, H2, H3. unfold Py.fdiv. rewrite H4.
    destruct new_side; simpl; intro E; now inversion E.
  - rewrite H, H0, H1, H2, H3. unfold Py.fdiv. rewrite H4.
    destruct new_side; simpl; intro E; now rewrite E.
  - rewrite H, H0, H1, H2, H3. unfold Py.fdiv. rewrite H4.
    intro Heq. rewrite (eqb_not_ltb _ _ Heq).
    destruct new_side; reflexivity.
Qed.

Lemma should_reuse_order_spec_witness :
  should_reuse_order resting_order 100.05 bid 2 DEFAULT_PRICE_CHANGE_THRESHOLD
  = Ok true.
Proof.
  pose proof (should_reuse_order_spec resting_order 100.05 bid 2
                DEFAULT_PRICE_CHANGE_THRESHOLD) as (_ & _ & _ & H).
  pose proof (H 7%Z 100 2 eq_refl eq_refl eq_refl eq_refl eq_refl eq_refl)
    as (_ & Hiff & _).
  apply Hiff. reflexivity.
Defined.

(** ** Quantization *)

(** C7: on binary64 the quantity quantization is neither idempotent nor
    downward.  [0.57] came out of [round_down(0.58, 2)], and quantizing it
    again gives [0.56], because [0.57 * 100] is [56.99999999999999]; the
    formatted order quantity follows.  And [round_down(0.8999999999999999,
    1)] is [0.9], above its input, because the product rounds up to [9.0]. *)
Theorem round_down_float_slips :
  round_down 0.58 2 = Ok 0.57
  /\ round_down 0.57 2 = Ok 0.56
  /\ quantize_quantity two_decimals 0.58 = Ok (Py.FmtFixed false 57 2)
  /\ Py.float_of_formatted (Py.FmtFixed false 57 2) = 0.57
  /\ quantize_quantity two_decimals 0.57 = Ok (Py.FmtFixed false 56 2)
  /\ round_down 0.8999999999999999 1 = Ok 0.9
  /\ (0.8999999999999999 <? 0.9) = true.
Proof. vm_compute. repeat split; reflexivity. Qed.

(** ** Posture after a fill *)




(* ================================================================== *)
(** ** What a task leaves alone *)

Section Keeps.

Variable R : World -> World -> Prop.
Hypothesis R_refl : forall w, R w w.
Hypothesis R_trans : forall a b c, R a b -> R b c -> R a c.

Lemma keeps_ret {A} (a : A) : keeps R (ret a).
Proof. intro w. apply R_refl. Qed.

Lemma keeps_raise {A} (e : Exn) : keeps R (@raise A e).
Proof. intro w. apply R_refl. Qed.

Lemma keeps_lift {A} (r : Res A) : keeps R (lift r).
Proof. intro w. apply R_refl. Qed.

Lemma keeps_get_state : keeps R get_state.
Proof. intro w. apply R_refl. Qed.

Lemma keeps_get_world : keeps R get_world.
Proof. intro w. apply R_refl. Qed.

Lemma keeps_bind {A B} (c : M A) (k : A -> M B) :
  keeps R c -> (forall a, keeps R (k a)) -> keeps R (bind c k).
Proof.
  intros Hc Hk w. unfold bind. specialize (Hc w).
  destruct (c w) as [[a | e] w1]; cbn in *.
  - eapply R_trans; [exact Hc | apply Hk].
  - exact Hc.
Qed.

Lemma keeps_try_except {A} (c : M A) (h : Exn -> M A) :
  keeps R c -> (forall e, keeps R (h e)) -> keeps R (try_except c h).
Proof.
  intros Hc Hh w. unfold try_except. specialize (Hc w).
  destruct (c w) as [[a | e] w1]; cbn in *.
  - exact Hc.
  - eapply R_trans; [exact Hc | apply Hh].
Qed.

Lemma keeps_when (b : bool) (c : M unit) : keeps R c -> keeps R (when b c).
Proof. intro Hc. destruct b; [exact Hc | apply keeps_ret]. Qed.

Lemma keeps_except_timeout {A} (c h : M A) :
  keeps R c -> keeps R h -> keeps R (except_timeout c h).
Proof.
  intros Hc Hh. apply keeps_try_except; [exact Hc |].
  intro e. destruct (is_timeout e); [exact Hh | apply keeps_raise].
Qed.

(** Iterating a step that keeps [R]. *)
Lemma keeps_fold {X} (f : X -> World -> World) :
  (forall x w, R w (f x w)) ->
  forall xs w, R w (fold_left (fun w x => f x w) xs w).
Proof.
  intros Hf xs. induction xs as [| x xs IH]; intro w; cbn.
  - apply R_refl.
  - eapply R_trans; [apply Hf | apply IH].
Qed.

End Keeps.

(** Structural steps of a [keeps] proof, given the reflexivity and the
    transitivity of the relation; the leaves (assignments, log lines,
    calls) are left to the caller. *)
Ltac keeps_step Hrefl Htrans :=
  match goal with
  | |- keeps _ (bind _ _) => apply (keeps_bind _ Htrans); [| intro]
  | |- keeps _ (try_except _ _) => apply (keeps_try_except _ Htrans); [| intro]
  | |- keeps _ (except_timeout _ _) => apply (keeps_except_timeout _ Hrefl Htrans)
  | |- keeps _ (when _ _) => apply (keeps_when _ Hrefl)
  | |- keeps _ (ret _) => apply (keeps_ret _ Hrefl)
  | |- keeps _ (raise _) => apply (keeps_raise _ Hrefl)
  | |- keeps _ (lift _) => apply (keeps_lift _ Hrefl)
  | |- keeps _ get_state => apply (keeps_get_state _ Hrefl)
  | |- keeps _ get_world => apply (keeps_get_world _ Hrefl)
  | |- keeps _ (if ?b then _ else _) => destruct b
  | |- keeps _ (match ?x with _ => _ end) => destruct x
  end.

(** *** The order fields and the calls *)

Lemma same_order_refl w : same_order w w.
Proof. repeat split. Qed.

Lemma same_order_trans a b c : same_order a b -> same_order b c -> same_order a c.
Proof.
  unfold same_order. intros (?&?&?&?&?&?) (?&?&?&?&?&?).
  repeat split; congruence.
Qed.

Lemma same_wiring_refl w : same_wiring w w.
Proof. repeat split. Qed.

Lemma same_wiring_trans a b c :
  same_wiring a b -> same_wiring b c -> same_wiring a c.
Proof.
  intros (Ho1 & ? & ?) (Ho2 & ? & ?). split; [| split; congruence].
  exact (same_order_trans _ _ _ Ho1 Ho2).
Qed.

Lemma same_posture_refl w : same_posture w w.
Proof. split; reflexivity. Qed.

Lemma same_posture_trans a b c :
  same_posture a b -> same_posture b c -> same_posture a c.
Proof. unfold same_posture. intros (?&?) (?&?). split; congruence. Qed.

(** A leaf that writes none of the fields the relation looks at. *)
Ltac leaf := intro; cbn; repeat split; reflexivity.

Ltac keeps_wiring :=
  repeat first [keeps_step same_wiring_refl same_wiring_trans | leaf].
Ltac keeps_posture :=
  repeat first [keeps_step same_posture_refl same_posture_trans | leaf].

(** ** The account feed and the controller's fields *)

Lemma on_position_same_wiring position : keeps same_wiring (on_position position).
Proof. unfold on_position. keeps_wiring. Qed.

Lemma for_positions_same_wiring symbol positions found :
  keeps same_wiring (for_positions symbol positions found).
Proof.
  revert found. induction positions as [| position rest IH]; intro found; cbn.
  - keeps_wiring.
  - destruct (opt_str_eqb (pos_s position) symbol); [| apply IH].
    apply (keeps_bind _ same_wiring_trans);
      [apply on_position_same_wiring | intro; apply IH].
Qed.

Lemma for_orders_same_wiring orders found :
  keeps same_wiring (for_orders orders found).
Proof.
  revert found. induction orders as [| order rest IH]; intro found; cbn.
  - keeps_wiring.
  - apply (keeps_bind _ same_wiring_trans); [keeps_wiring | intro s].
    match goal with |- keeps _ (if ?b then _ else _) => destruct b end;
      [| apply IH].
    repeat (apply (keeps_bind _ same_wiring_trans); [keeps_wiring | intro]).
    apply IH.
Qed.

Lemma user_data_body_same_wiring symbol now data :
  keeps same_wiring (user_data_body symbol now data).
Proof.
  unfold user_data_body, on_account_positions, on_account_orders.
  destruct (um_subscribed data); [keeps_wiring |].
  apply (keeps_bind _ same_wiring_trans); [| intro; keeps_wiring].
  destruct (um_channel data).
  - keeps_wiring.
  - apply (keeps_bind _ same_wiring_trans);
      [apply for_positions_same_wiring | intro; keeps_wiring].
  - apply (keeps_bind _ same_wiring_trans); [keeps_wiring | intro].
    apply (keeps_when _ same_wiring_refl).
    apply (keeps_bind _ same_wiring_trans);
      [apply for_orders_same_wiring | intro; keeps_wiring].
  - keeps_wiring.
Qed.

Lemma on_user_data_message_same_wiring symbol now message :
  keeps same_wiring (on_user_data_message symbol now message).
Proof.
  destruct message as [| subscribed | data]; cbn; [keeps_wiring | keeps_wiring |].
  apply (keeps_try_except _ same_wiring_trans);
    [apply user_data_body_same_wiring | intro; keeps_wiring].
Qed.

Lemma for_prices_same_wiring symbol now prices :
  keeps same_wiring (for_prices symbol now prices).
Proof.
  induction prices as [| price_data rest IH]; cbn; [keeps_wiring |].
  apply (keeps_bind _ same_wiring_trans); [keeps_wiring | intro; apply IH].
Qed.

Lemma on_price_message_same_wiring symbol now message :
  keeps same_wiring (on_price_message symbol now message).
Proof.
  destruct message as [| subscribed | data]; cbn; [keeps_wiring | keeps_wiring |].
  apply (keeps_try_except _ same_wiring_trans); [| intro; keeps_wiring].
  apply (keeps_bind _ same_wiring_trans); [keeps_wiring | intro].
  destruct (pm_subscribed data); [keeps_wiring |].
  apply (keeps_bind _ same_wiring_trans); [| intro; keeps_wiring].
  destruct (pm_prices data); [apply for_prices_same_wiring | keeps_wiring].
Qed.

(** *** What the account feed puts on the queue *)

Lemma enqueues_shaped_refl w : enqueues_shaped w w.
Proof. exists []. split; [now rewrite app_nil_r | constructor]. Qed.

Lemma enqueues_shaped_trans a b c :
  enqueues_shaped a b -> enqueues_shaped b c -> enqueues_shaped a c.
Proof.
  intros (e1 & H1 & F1) (e2 & H2 & F2). exists (e1 ++ e2)%list. split.
  - now rewrite H2, H1, app_assoc.
  - apply Forall_app. now split.
Qed.

Ltac quiet_leaf :=
  intro; cbn; exists []; split; [now rewrite app_nil_r | constructor].
Ltac keeps_queue :=
  repeat first [keeps_step enqueues_shaped_refl enqueues_shaped_trans
               | quiet_leaf].

Lemma put_update_shaped ev : feed_shaped ev -> keeps enqueues_shaped (put_update ev).
Proof.
  intros Hev w. exists [ev]. cbn. split; [reflexivity | now constructor].
Qed.

Lemma fill_event_listed_shaped order filled :
  feed_shaped (fill_event_listed order filled).
Proof. split; reflexivity. Qed.

Lemma fill_event_missing_shaped symbol s :
  feed_shaped (fill_event_missing symbol s).
Proof. split; reflexivity. Qed.

Lemma on_position_quiet position : keeps enqueues_shaped (on_position position).
Proof. unfold on_position. keeps_queue. Qed.

Lemma for_positions_quiet symbol positions found :
  keeps enqueues_shaped (for_positions symbol positions found).
Proof.
  revert found. induction positions as [| position rest IH]; intro found; cbn.
  - keeps_queue.
  - destruct (opt_str_eqb (pos_s position) symbol); [| apply IH].
    apply (keeps_bind _ enqueues_shaped_trans);
      [apply on_position_quiet | intro; apply IH].
Qed.

Lemma for_orders_shaped orders found :
  keeps enqueues_shaped (for_orders orders found).
Proof.
  revert found. induction orders as [| order rest IH]; intro found; cbn.
  - keeps_queue.
  - apply (keeps_bind _ enqueues_shaped_trans); [keeps_queue | intro s].
    match goal with |- keeps _ (if ?b then _ else _) => destruct b end;
      [| apply IH].
    apply (keeps_bind _ enqueues_shaped_trans); [keeps_queue | intro].
    apply (keeps_bind _ enqueues_shaped_trans); [keeps_queue | intro].
    apply (keeps_bind _ enqueues_shaped_trans); [| intro; apply IH].
    apply (keeps_when _ enqueues_shaped_refl).
    apply (keeps_bind _ enqueues_shaped_trans); [keeps_queue | intro].
    apply put_update_shaped, fill_event_listed_shaped.
Qed.

Lemma user_data_body_shaped symbol now data :
  keeps enqueues_shaped (user_data_body symbol now data).
Proof.
  unfold user_data_body, on_account_positions, on_account_orders.
  destruct (um_subscribed data); [keeps_queue |].
  apply (keeps_bind _ enqueues_shaped_trans); [| intro; keeps_queue].
  destruct (um_channel data).
  - keeps_queue.
  - apply (keeps_bind _ enqueues_shaped_trans);
      [apply for_positions_quiet | intro; keeps_queue].
  - apply (keeps_bind _ enqueues_shaped_trans); [keeps_queue | intro].
    apply (keeps_when _ enqueues_shaped_refl).
    apply (keeps_bind _ enqueues_shaped_trans);
      [apply for_orders_shaped | intro].
    apply (keeps_when _ enqueues_shaped_refl).
    apply (keeps_bind _ enqueues_shaped_trans); [keeps_queue | intro].
    apply (keeps_bind _ enqueues_shaped_trans); [keeps_queue | intro].
    apply put_update_shaped, fill_event_missing_shaped.
  - keeps_queue.
Qed.

Lemma on_user_data_message_shaped symbol now message :
  keeps enqueues_shaped (on_user_data_message symbol now message).
Proof.
  destruct message as [| subscribed | data]; cbn; [keeps_queue | keeps_queue |].
  apply (keeps_try_except _ enqueues_shaped_trans);
    [apply user_data_body_shaped | intro; keeps_queue].
Qed.

Lemma for_prices_quiet symbol now prices :
  keeps enqueues_shaped (for_prices symbol now prices).
Proof.
  induction prices as [| price_data rest IH]; cbn; [keeps_queue |].
  apply (keeps_bind _ enqueues_shaped_trans); [keeps_queue | intro; apply IH].
Qed.

Lemma on_price_message_quiet symbol now message :
  keeps enqueues_shaped (on_price_message symbol now message).
Proof.
  destruct message as [| subscribed | data]; cbn; [keeps_queue | keeps_queue |].
  apply (keeps_try_except _ enqueues_shaped_trans); [| intro; keeps_queue].
  apply (keeps_bind _ enqueues_shaped_trans); [keeps_queue | intro].
  destruct (pm_subscribed data); [keeps_queue |].
  apply (keeps_bind _ enqueues_shaped_trans); [| intro; keeps_queue].
  destruct (pm_prices data); [apply for_prices_quiet | keeps_queue].
Qed.

(** *** One step of a feed task *)

Section FeedFrame.

Variable R : World -> World -> Prop.
Hypothesis R_refl : forall w, R w w.
Hypothesis R_trans : forall a b c, R a b -> R b c -> R a c.
Hypothesis R_log : forall l text, keeps R (log_ l text).

Variable Msg : Type.
Variable set_connected : bool -> StrategyState -> StrategyState.
Variable on_message : float -> Inbound Msg -> M LoopCtl.
Hypothesis R_down : keeps R (modify (set_connected false)).
(** The messages on which the handler is known to keep [R]. *)
Variable handled : Inbound Msg -> Prop.
Hypothesis R_message :
  forall now message, handled message -> keeps R (on_message now message).

Lemma log_connection_error_keeps e : keeps R (log_connection_error e).
Proof. unfold log_connection_error. destruct (exn_kind e); apply R_log. Qed.

Lemma leave_connection_keeps l w :
  R w (snd (leave_connection set_connected l w)).
Proof.
  unfold leave_connection.
  assert (H : keeps R (modify (set_connected false) ;;;
                       log_ INFO "Reconnecting to WebSocket")%task)
    by (apply (keeps_bind _ R_trans); [apply R_down | intro; apply R_log]).
  specialize (H w).
  destruct ((modify (set_connected false) ;;;
             log_ INFO "Reconnecting to WebSocket")%task w) as [r w1].
  exact H.
Qed.

(** A step keeps [R] when the handler does on the message received, if
    any, and when raising the flag does, unless the step makes no
    connection. *)
Lemma feed_step_keeps ev l w :
  (forall now now' message, ev = Received now now' message -> handled message) ->
  (forall now, ev = Connected now -> keeps R (modify (set_connected true))) ->
  R w (snd (feed_step set_connected on_message ev (l, w))).
Proof.
  intros Hev Hup. unfold feed_step.
  destruct (phase l) as [| last | |], ev; try apply R_refl.
  - (* connected *)
    eapply R_trans; [apply (R_log INFO "WebSocket connected, subscribing" w) |].
    apply (Hup now eq_refl).
  - (* connect failed *)
    pose proof (log_connection_error_keeps e w) as H.
    destruct (log_connection_error e w) as [r w1].
    eapply R_trans; [exact H | apply leave_connection_keeps].
  - (* received *)
    pose proof (R_message now' message (Hev _ _ _ eq_refl) w) as H.
    destruct (on_message now' message w) as [[[|] | e] w1]; cbn in H.
    + exact H.
    + eapply R_trans; [exact H | apply leave_connection_keeps].
    + pose proof (log_connection_error_keeps e w1) as H1.
      destruct (log_connection_error e w1) as [r w2].
      eapply R_trans; [exact H |].
      eapply R_trans; [exact H1 | apply leave_connection_keeps].
  - (* receive timeout *)
    destruct (Py.gt (now - last) 60).
    + eapply R_trans; [| apply leave_connection_keeps]. apply R_log.
    + apply R_log.
  - (* receive failed *)
    pose proof (log_connection_error_keeps e w) as H.
    destruct (log_connection_error e w) as [r w1].
    eapply R_trans; [exact H | apply leave_connection_keeps].
  - (* shutdown while streaming *)
    apply R_down.
  - (* woke *)
    eapply R_trans; [apply (R_log INFO "Connecting to WebSocket" w) |].
    apply R_down.
Qed.

End FeedFrame.

Lemma for_orders_same_posture orders found :
  keeps same_posture (for_orders orders found).
Proof.
  revert found. induction orders as [| order rest IH]; intro found; cbn.
  - keeps_posture.
  - apply (keeps_bind _ same_posture_trans); [keeps_posture | intro s].
    match goal with |- keeps _ (if ?b then _ else _) => destruct b end;
      [| apply IH].
    repeat (apply (keeps_bind _ same_posture_trans); [keeps_posture | intro]).
    apply IH.
Qed.

Lemma on_user_data_message_same_posture symbol now message :
  not_positions message ->
  keeps same_posture (on_user_data_message symbol now message).
Proof.
  destruct message as [| subscribed | data]; cbn;
    [keeps_posture | keeps_posture |].
  intro Hnot.
  apply (keeps_try_except _ same_posture_trans); [| intro; keeps_posture].
  unfold user_data_body, on_account_orders.
  destruct (um_subscribed data); [keeps_posture |].
  destruct Hnot as [Hsub | Hchan]; [discriminate Hsub |].
  apply (keeps_bind _ same_posture_trans); [| intro; keeps_posture].
  destruct (um_channel data); [keeps_posture | contradiction | | keeps_posture].
  apply (keeps_bind _ same_posture_trans); [keeps_posture | intro].
  apply (keeps_when _ same_posture_refl).
  apply (keeps_bind _ same_posture_trans);
    [apply for_orders_same_posture | intro; keeps_posture].
Qed.

Lemma not_positions_dec message :
  not_positions message
  \/ exists data ps, message = Object data /\ um_subscribed data = false
                     /\ um_channel data = AccountPositions ps.
Proof.
  destruct message as [| subscribed | data]; cbn; auto.
  destruct (um_subscribed data) eqn:Hs; auto.
  destruct (um_channel data) as [| ps | |] eqn:Hc; auto.
  right. now exists data, ps.
Qed.

Lemma user_feed_same_order symbol ev w :
  same_order w (websocket_user_data_updater symbol ev w).
Proof.
  unfold websocket_user_data_updater.
  pose proof (feed_step_keeps same_order same_order_refl same_order_trans
                ltac:(intros; leaf) UserMessage set_user_data_ws_connected
                (on_user_data_message symbol) ltac:(intros; leaf)
                (fun _ => True)
                (fun now m _ w0 =>
                   proj1 (on_user_data_message_same_wiring symbol now m w0))
                ev (user_task w) w (fun _ _ _ _ => I)
                (fun _ _ => ltac:(leaf))) as H.
  destruct (feed_step set_user_data_ws_connected (on_user_data_message symbol)
              ev (user_task w, w)) as [l w1].
  exact H.
Qed.

Lemma price_feed_same_order symbol ev w :
  same_order w (websocket_price_updater symbol ev w).
Proof.
  unfold websocket_price_updater.
  pose proof (feed_step_keeps same_order same_order_refl same_order_trans
                ltac:(intros; leaf) PriceMessage set_price_ws_connected
                (on_price_message symbol) ltac:(intros; leaf)
                (fun _ => True)
                (fun now m _ w0 =>
                   proj1 (on_price_message_same_wiring symbol now m w0))
                ev (price_task w) w (fun _ _ _ _ => I)
                (fun _ _ => ltac:(leaf))) as H.
  destruct (feed_step set_price_ws_connected (on_price_message symbol)
              ev (price_task w, w)) as [l w1].
  exact H.
Qed.

Lemma user_feed_enqueues_shaped symbol ev w :
  enqueues_shaped w (websocket_user_data_updater symbol ev w).
Proof.
  unfold websocket_user_data_updater.
  pose proof (feed_step_keeps enqueues_shaped enqueues_shaped_refl
                enqueues_shaped_trans ltac:(intros; quiet_leaf) UserMessage
                set_user_data_ws_connected (on_user_data_message symbol)
                ltac:(intros; quiet_leaf) (fun _ => True)
                (fun now m _ => on_user_data_message_shaped symbol now m)
                ev (user_task w) w (fun _ _ _ _ => I)
                (fun _ _ => ltac:(quiet_leaf))) as H.
  destruct (feed_step set_user_data_ws_connected (on_user_data_message symbol)
              ev (user_task w, w)) as [l w1].
  exact H.
Qed.

Lemma price_feed_quiet symbol ev w :
  enqueues_shaped w (websocket_price_updater symbol ev w).
Proof.
  unfold websocket_price_updater.
  pose proof (feed_step_keeps enqueues_shaped enqueues_shaped_refl
                enqueues_shaped_trans ltac:(intros; quiet_leaf) PriceMessage
                set_price_ws_connected (on_price_message symbol)
                ltac:(intros; quiet_leaf) (fun _ => True)
                (fun now m _ => on_price_message_quiet symbol now m)
                ev (price_task w) w (fun _ _ _ _ => I)
                (fun _ _ => ltac:(quiet_leaf))) as H.
  destruct (feed_step set_price_ws_connected (on_price_message symbol)
              ev (price_task w, w)) as [l w1].
  exact H.
Qed.

(** The feed tasks together. *)
Lemma activities_same_order symbol acts w :
  same_order w (activities symbol acts w).
Proof.
  unfold activities.
  apply (keeps_fold same_order same_order_refl same_order_trans
           (activity symbol)).
  intros [ev | ev] w0; [apply price_feed_same_order | apply user_feed_same_order].
Qed.

Lemma activities_enqueue_shaped symbol acts w :
  enqueues_shaped w (activities symbol acts w).
Proof.
  unfold activities.
  apply (keeps_fold enqueues_shaped enqueues_shaped_refl enqueues_shaped_trans
           (activity symbol)).
  intros [ev | ev] w0; [apply price_feed_quiet | apply user_feed_enqueues_shaped].
Qed.

(** C2: no step of the account feed task writes [active_order_id] (nor the
    [last_order_*] fields), and none makes a venue call: fills reach the
    controller only as events appended to the queue.  The task does write
    [mode] and [position_size], but only while handling an
    [account_positions] message. *)
Theorem account_feed_frame (symbol : string) (ev : FeedEvent UserMessage)
    (w : World) :
  let w' := websocket_user_data_updater symbol ev w in
  active_order_id (st w') = active_order_id (st w)
  /\ same_order w w'
  /\ enqueues_shaped w w'
  /\ (same_posture w w'
      \/ exists now now' data positions,
           ev = Received now now' (Object data)
           /\ um_subscribed data = false
           /\ um_channel data = AccountPositions positions).
Proof.
  cbn zeta.
  split; [apply user_feed_same_order |].
  split; [apply user_feed_same_order |].
  split; [apply user_feed_enqueues_shaped |].
  unfold websocket_user_data_updater.
  pose proof (feed_step_keeps same_posture same_posture_refl
                same_posture_trans ltac:(intros; leaf) UserMessage
                set_user_data_ws_connected (on_user_data_message symbol)
                ltac:(intros; leaf) not_positions
                (on_user_data_message_same_posture symbol)
                ev (user_task w) w) as Hposture.
  destruct (feed_step set_user_data_ws_connected (on_user_data_message symbol)
              ev (user_task w, w)) as [l w1].
  cbn in *.
  destruct ev as [| | now now' message | | | |];
    try (left; apply Hposture; [discriminate | intros; leaf]).
  destruct (not_positions_dec message) as [Hnot | (data & ps & -> & Hs & Hc)].
  - left. apply Hposture; [| intros; leaf].
    intros ? ? ? E. now inversion E; subst.
  - right. now exists now, now', data, ps.
Qed.

(** The account feed task itself moves the posture from Opening to Closing
    when the venue reports a position worth 100 USD. *)
Lemma account_feed_writes_mode :
  let w' := websocket_user_data_updater "BTC" long_position_update
              account_streaming in
  mode (st account_streaming) = bid
  /\ mode (st w') = ask
  /\ mode (st w') <> mode (st account_streaming).
Proof. vm_compute. repeat split; try reflexivity. discriminate. Qed.

(** ** An order that left the open-orders list *)

Lemma for_orders_unlisted (id : Z) (orders : list OrderEntry) (found : bool)
    (w : World) :
  active_order_id (st w) = Some id ->
  Forall (fun order => ord_i order <> Some id) orders ->
  for_orders orders found w = (Ok found, w).
Proof.
  intros Hid Hall. revert found.
  induction Hall as [| order rest Hne _ IH]; intro found; cbn; [reflexivity |].
  unfold bind at 1. cbn. rewrite Hid.
  destruct (ord_i order) as [i |]; [| apply IH].
  destruct (Z.eqb_spec i id) as [-> | _]; [now contradiction Hne | apply IH].
Qed.

(** C4: when an [account_orders] message does not list the tracked order,
    the account feed appends one synthetic event for it, with status
    ['FILLED'] and as filled quantity ['z'] the quantity of the order as it
    was placed ([last_order_quantity], or 0 when that is unset or zero), and
    reports it with one log line at level INFO. *)
Theorem unlisted_order_enqueues_fill (symbol : string) (now : float)
    (data : UserMessage) (orders : list OrderEntry) (id : Z) (w : World)
    (Hplain : um_subscribed data = false)
    (Hchannel : um_channel data = AccountOrders orders)
    (Hactive : active_order_id (st w) = Some id)
    (Htruthy : id <> 0%Z)
    (Hunlisted : Forall (fun order => ord_i order <> Some id) orders) :
  let w' := snd (on_user_data_message symbol now (Object data) w) in
  order_updates (st w')
  = (order_updates (st w) ++
     [ [ ("e", PStr "ORDER_FILLED");
         ("o", PDict
            [ ("i", PInt id);
              ("X", PStr "FILLED");
              ("z", match last_order_quantity (st w) with
                    | Some q => if Py.truthy q then PFloat q else PInt 0
                    | None => PInt 0
                    end);
              ("s", PStr symbol);
              ("d", PStr (match last_order_side (st w) with
                          | Some sd => Side_str sd | None => "bid" end)) ]) ] ])%list
  /\ logged w'
     = (logged w ++
        mkLog INFO "Active order no longer in open orders (filled or cancelled)"
        :: error_lines (um_error data))%list.
Proof.
  intro w'. subst w'.
  split.
  all: cbn; unfold try_except, user_data_body; rewrite Hplain, Hchannel;
    unfold on_account_orders; unfold bind at 1; unfold bind at 1; cbn;
    rewrite Hactive; cbn;
    destruct (Z.eqb_spec id 0) as [E | _]; [contradiction |]; cbn;
    unfold bind at 1;
    rewrite (for_orders_unlisted id orders false w Hactive Hunlisted); cbn;
    unfold fill_event_missing; rewrite ?Hactive;
    destruct (um_error data) as [[|] |]; cbn;
    rewrite <- ?app_assoc; reflexivity.
Qed.

Lemma unlisted_order_enqueues_fill_witness :
  let w' := snd (on_user_data_message "BTC" 2 empty_listing order_outstanding) in
  order_updates (st w')
  = [ [ ("e", PStr "ORDER_FILLED");
        ("o", PDict [ ("i", PInt 7); ("X", PStr "FILLED"); ("z", PFloat 2);
                      ("s", PStr "BTC"); ("d", PStr "bid") ]) ] ].
Proof.
  pose proof (unlisted_order_enqueues_fill "BTC" 2
                {| um_subscribed := false; um_channel := AccountOrders [];
                   um_error := None |} [] 7%Z order_outstanding
                eq_refl eq_refl eq_refl ltac:(discriminate)
                (Forall_nil _)) as [Hq _].
  exact Hq.
Defined.

(** The order was last reported filled for 0.5 of 2.0 (no event: it is not
    complete); then it is no longer listed.  The synthetic event carries
    2.0, the quantity placed, not the 0.5 last reported as filled, and
    nothing is logged at WARNING level. *)
Lemma unlisted_order_event_is_full_quantity_at_info :
  let w1 := snd (on_user_data_message "BTC" 1 partly_filled_listing
                   order_outstanding) in
  let w2 := snd (on_user_data_message "BTC" 2 empty_listing w1) in
  order_updates (st w1) = []
  /\ (exists o, order_updates (st w2) = [ [ ("e", PStr "ORDER_FILLED"); ("o", PDict o) ] ]
                /\ dict_get o "z" = PFloat 2
                /\ dict_get o "z" <> PFloat 0.5)
  /\ logged w2
     = [ mkLog INFO "Active order no longer in open orders (filled or cancelled)" ]
  /\ Forall (fun entry => log_level entry <> WARNING) (logged w2).
Proof.
  vm_compute. split; [reflexivity |]. split.
  - eexists. split; [reflexivity |]. split; [reflexivity | discriminate].
  - split; [reflexivity |]. repeat constructor. discriminate.
Qed.

(** ** Silence on the price socket *)







(** ** The venue rejects a reduce-only order *)

(** C8: when the body of a cycle raises an exception that the loop reads
    as a position desync (its text contains "No position found", or
    contains "422" while the mode is the closing one), the loop swallows
    it: the cycle ends normally with [position_size = 0.0], the opening
    mode, no active order and no tracked order details, everything else as
    the failed body left it, and the only further action is the 2-second
    sleep. *)
Theorem desync_resets_state (float_of_str : string -> Res float)
    (symbol : string) (symbol_filters : SymbolFilters) (flip0 : bool)
    (env : CycleEnv) (w w1 : World) (e : Exn)
    (Hraised : cycle_body float_of_str symbol symbol_filters flip0 env w
               = (Raise e, w1))
    (Hvenue : is_timeout e = false)
    (Hdesync : is_desync flip0 e (st w1) = true) :
  let r := cycle float_of_str symbol symbol_filters flip0 env w in
  fst r = Ok tt
  /\ st (snd r)
     = set_last_order None None None
         (set_active_order_id None
            (set_mode (opening_mode flip0)
               (set_position_size 0.0 (st w1))))
  /\ position_size (st (snd r)) = 0.0
  /\ mode (st (snd r)) = opening_mode flip0
  /\ active_order_id (st (snd r)) = None
  /\ trace (snd r) = (trace w1 ++ [Sleep 2])%list.
Proof.
  unfold cycle, try_except. rewrite Hraised, Hvenue.
  unfold on_error. cbn. rewrite Hdesync. cbn.
  repeat split; reflexivity.
Qed.

Lemma desync_resets_state_witness :
  let r := cycle no_str "BTC" two_decimals false rejecting_cycle closing_half in
  fst r = Ok tt
  /\ position_size (st (snd r)) = 0.0
  /\ mode (st (snd r)) = bid
  /\ active_order_id (st (snd r)) = None
  /\ trace (snd r)
     = [PlaceOrder (Py.FmtFixed false 10060 2) (Py.FmtFixed false 50 2) ask true;
        Sleep 2].
Proof.
  pose proof (desync_resets_state no_str "BTC" two_decimals false
                rejecting_cycle closing_half
                (snd (cycle_body no_str "BTC" two_decimals false
                        rejecting_cycle closing_half))
                rejection) as H.
  destruct H as (Hok & _ & Hpos & Hmode & Hid & Htrace);
    [vm_compute; reflexivity | reflexivity | vm_compute; reflexivity |].
  repeat split; assumption.
Defined.

(** ** The wait of the reuse branch *)

Lemma enqueues_shaped_queue w w' :
  enqueues_shaped w w' -> queue_shaped w -> queue_shaped w'.
Proof.
  intros (evs & Hq & Hevs) Hw. unfold queue_shaped. rewrite Hq.
  apply Forall_app. now split.
Qed.

Lemma feed_shaped_not_order_update update :
  feed_shaped update ->
  py_eq_str (dict_get update "type") "order_update" = false.
Proof. intros [_ Hno]. unfold dict_get. now rewrite Hno. Qed.

(** A pass either times out or hands over an event built by the feed. *)
Lemma next_update_shaped symbol start_time step w :
  queue_shaped w ->
  match next_update symbol start_time step w with
  | (Ok update, w1) => feed_shaped update /\ queue_shaped w1
  | (Raise e, w1) => e = mkExn TimeoutError ""
  end.
Proof.
  intro Hw. unfold next_update.
  destruct (_ <=? 0); [reflexivity |].
  unfold bind, meanwhile, get_state, modify. cbn.
  pose proof (enqueues_shaped_queue _ _
                (activities_enqueue_shaped symbol (ws_during step) w) Hw) as H.
  unfold queue_shaped in H.
  destruct (order_updates (st (activities symbol (ws_during step) w)))
    as [| update rest]; [reflexivity |].
  inversion H; subst. split; assumption.
Qed.

Lemma monitor_reused_times_out float_of_str symbol start_time steps
    filled_qty w :
  queue_shaped w ->
  monitor_reused float_of_str symbol start_time steps filled_qty w
  = (Raise (mkExn TimeoutError ""), drained symbol start_time steps w).
Proof.
  revert w. induction steps as [| step rest IH]; intros w Hw; cbn;
    [reflexivity |].
  unfold bind at 1.
  pose proof (next_update_shaped symbol start_time step w Hw) as H.
  destruct (next_update symbol start_time step w) as [[update | e] w1].
  - destruct H as [Hu Hw1].
    rewrite (feed_shaped_not_order_update update Hu). now apply IH.
  - now subst e.
Qed.

(** *** The queue through a whole run *)

Lemma shaped_stays_refl w : shaped_stays w w.
Proof. now intro. Qed.

Lemma shaped_stays_trans a b c :
  shaped_stays a b -> shaped_stays b c -> shaped_stays a c.
Proof. unfold shaped_stays. auto. Qed.

Lemma meanwhile_shaped symbol acts : keeps shaped_stays (meanwhile symbol acts).
Proof.
  intros w Hw. cbn.
  exact (enqueues_shaped_queue _ _ (activities_enqueue_shaped symbol acts w) Hw).
Qed.

Lemma next_update_stays symbol start_time step :
  keeps shaped_stays (next_update symbol start_time step).
Proof.
  intros w Hw.
  pose proof (next_update_shaped symbol start_time step w Hw) as H.
  unfold next_update in *. destruct (_ <=? 0); [exact Hw |].
  unfold bind, meanwhile, get_state, modify in *. cbn in *.
  pose proof (enqueues_shaped_queue _ _
                (activities_enqueue_shaped symbol (ws_during step) w) Hw) as H1.
  destruct (order_updates (st (activities symbol (ws_during step) w))) eqn:E;
    cbn; [exact H1 | apply H].
Qed.

(** A leaf that does not touch the queue. *)
Ltac still := intros ? ?; assumption.

Lemma wait_for_fill_stays float_of_str symbol start_time steps filled_qty :
  keeps shaped_stays
    (wait_for_fill float_of_str symbol start_time steps filled_qty).
Proof.
  revert filled_qty.
  induction steps as [| step rest IH]; intro filled_qty; cbn;
    [apply (keeps_raise _ shaped_stays_refl) |].
  apply (keeps_bind _ shaped_stays_trans);
    [apply next_update_stays | intro update].
  destruct (py_eq_str _ _); [| apply IH].
  apply (keeps_bind _ shaped_stays_trans); [still | intro].
  apply (keeps_bind _ shaped_stays_trans); [still | intro].
  destruct (py_eq_id _ _); [| apply IH].
  apply (keeps_bind _ shaped_stays_trans); [still | intro].
  destruct (py_eq_str _ _); [| apply IH].
  apply (keeps_bind _ shaped_stays_trans); [still | intro; still].
Qed.

Lemma monitor_reused_stays float_of_str symbol start_time steps filled_qty :
  keeps shaped_stays
    (monitor_reused float_of_str symbol start_time steps filled_qty).
Proof.
  revert filled_qty.
  induction steps as [| step rest IH]; intro filled_qty; cbn;
    [apply (keeps_raise _ shaped_stays_refl) |].
  apply (keeps_bind _ shaped_stays_trans);
    [apply next_update_stays | intro update].
  destruct (py_eq_str _ _); [| apply IH].
  apply (keeps_bind _ shaped_stays_trans); [still | intro].
  apply (keeps_bind _ shaped_stays_trans); [still | intro].
  destruct (py_eq_id _ _); [| apply IH].
  apply (keeps_bind _ shaped_stays_trans); [still | intro].
  apply (keeps_bind _ shaped_stays_trans);
    [repeat first [keeps_step shaped_stays_refl shaped_stays_trans | still]
    | intro partial_break].
  destruct partial_break; [still |].
  destruct (status_is_final _); [| apply IH].
  apply (keeps_bind _ shaped_stays_trans); [still | intro; still].
Qed.

(** The controller only ever takes events off the queue. *)
Lemma cycle_stays float_of_str symbol symbol_filters flip0 env :
  keeps shaped_stays (cycle float_of_str symbol symbol_filters flip0 env).
Proof.
  unfold cycle, cycle_body, emergency, supertrend, order_parameters,
    reuse_branch, replace_branch, place_and_monitor, place_tracked,
    monitor_placed, await_fill, on_error, desync_reset,
    cancel_order, cancel_all_orders, place_order, apply_fill,
    apply_fill_reused, process_fill, clear_last_order, sleep, need, formatted.
  repeat first [ apply meanwhile_shaped | apply wait_for_fill_stays
               | apply monitor_reused_stays
               | keeps_step shaped_stays_refl shaped_stays_trans | still ].
Qed.

Lemma market_making_loop_stays float_of_str symbol symbol_filters flip0
    cycles w :
  queue_shaped w ->
  queue_shaped
    (snd (market_making_loop float_of_str symbol symbol_filters flip0 cycles w)).
Proof.
  revert w. induction cycles as [| [before env] rest IH]; intros w Hw;
    [exact Hw |].
  cbn [market_making_loop].
  pose proof (keeps_bind _ shaped_stays_trans _ _
                (meanwhile_shaped symbol before)
                (fun _ => cycle_stays float_of_str symbol symbol_filters flip0 env)
                w Hw) as H.
  destruct ((meanwhile symbol before ;;;
             cycle float_of_str symbol symbol_filters flip0 env)%task w)
    as [[u | e] w1]; [apply IH |]; exact H.
Qed.

(** C9: every event the feed tasks put on the queue has ['e'] equal to
    ['ORDER_FILLED'] and no ['type'] key, and the queue holds nothing else
    through any run of the loop, so the reuse branch's test
    [update.get('type') == 'order_update'] fails on each event.  The wait
    of the reuse branch therefore always ends by TimeoutError, its fill
    handling never runs, and every event it took from the queue is gone:
    the branch leaves the world as the feeds and the dequeuing left it,
    logs the timeout and sleeps 0.01 s. *)
Theorem reuse_wait_ignores_fills (float_of_str : string -> Res float)
    (symbol : string) (symbol_filters : SymbolFilters) (flip0 : bool)
    (env : CycleEnv) (w : World)
    (Hqueue : queue_shaped w) :
  (forall acts, queue_shaped (activities symbol acts w))
  /\ (forall cycles,
        queue_shaped
          (snd (market_making_loop float_of_str symbol symbol_filters flip0
                  cycles w)))
  /\ (forall update, In update (order_updates (st w)) ->
        dict_get update "e" = PStr "ORDER_FILLED"
        /\ dict_lookup update "type" = None
        /\ py_eq_str (dict_get update "type") "order_update" = false)
  /\ (forall filled_qty,
        monitor_reused float_of_str symbol (env_reuse_start env)
          (env_reuse_wait env) filled_qty w
        = (Raise (mkExn TimeoutError ""),
           drained symbol (env_reuse_start env) (env_reuse_wait env) w))
  /\ (let w0 := snd ((log_ INFO "Reusing existing order: price change below threshold" ;;;
                      log_ DEBUG "Continuing to monitor existing order via WebSocket") w) in
      reuse_branch float_of_str symbol flip0 env w
      = (log_ INFO "Reused order not filled in time. Will evaluate for replacement in next cycle." ;;;
         sleep 0.01)
          (drained symbol (env_reuse_start env) (env_reuse_wait env) w0))
  /\ (forall start_time now update rest,
        order_updates (st w) = update :: rest ->
        (ORDER_REFRESH_INTERVAL - (now - start_time) <=? 0) = false ->
        drained symbol start_time [mkWaitStep now []] w
        = with_st (set_order_updates rest) w).
Proof.
  split; [| split; [| split; [| split; [| split]]]].
  - intro acts.
    exact (enqueues_shaped_queue _ _
             (activities_enqueue_shaped symbol acts w) Hqueue).
  - intro cycles. now apply market_making_loop_stays.
  - intros update Hin.
    pose proof (proj1 (Forall_forall _ _) Hqueue update Hin) as Hu.
    destruct Hu as [He Ht]. repeat split; try assumption.
    now apply feed_shaped_not_order_update.
  - intro filled_qty. now apply monitor_reused_times_out.
  - cbn zeta. unfold reuse_branch, except_timeout, try_except.
    unfold bind at 1. cbn [log_ snd].
    unfold bind at 1. unfold bind at 1. cbn [log_ snd].
    unfold bind at 1.
    rewrite monitor_reused_times_out by exact Hqueue.
    reflexivity.
  - intros start_time now update rest Hq Hin.
    unfold drained, next_update. cbn [ws_now ws_during]. rewrite Hin.
    cbn. rewrite Hq. reflexivity.
Qed.

Lemma reuse_wait_ignores_fills_witness :
  let r := reuse_branch no_str "BTC" false reusing_cycle fill_pending in
  List.length (order_updates (st fill_pending)) = 1%nat
  /\ fst r = Ok tt
  /\ order_updates (st (snd r)) = []
  /\ position_size (st (snd r)) = position_size (st fill_pending)
  /\ mode (st (snd r)) = mode (st fill_pending)
  /\ trace (snd r) = [Sleep 0.01].
Proof.
  assert (Hq : queue_shaped fill_pending)
    by (unfold queue_shaped; vm_compute; repeat constructor).
  pose proof (reuse_wait_ignores_fills no_str "BTC" two_decimals false
                reusing_cycle fill_pending Hq) as (_ & _ & _ & _ & H & _).
  cbn zeta in H |- *. rewrite H.
  vm_compute. repeat split; reflexivity.
Defined.

(** ** A feed is down *)

Lemma emergency_spec symbol env w :
  let r := emergency symbol env w in
  fst r = Ok tt
  /\ trace (snd r) = (trace w ++ emergency_calls w)%list
  /\ active_order_id (st (snd r))
     = match outcome (env_emergency_cancel env) with
       | Ok _ => if id_truthy (active_order_id (st w)) then None
                 else active_order_id (st w)
       | Raise _ => active_order_id (st w)
       end.
Proof.
  unfold emergency, emergency_calls, id_truthy, cancel_order, bind, try_except,
    when, get_state, log_, sleep, emit, meanwhile, lift, modify, clear_last_order.
  cbn -[activities].
  destruct (active_order_id (st w)) as [id |] eqn:Hid.
  2: { cbn. rewrite Hid. destruct (outcome _); repeat split; reflexivity. }
  destruct (id =? 0)%Z eqn:Hz.
  { cbn. rewrite Hid. destruct (outcome _); repeat split; reflexivity. }
  cbn -[activities].
  match goal with
  | |- context [activities symbol ?acts ?W] =>
      pose proof (activities_same_order symbol acts W) as Hact
  end.
  unfold same_order in Hact. destruct Hact as (Ha & _ & _ & _ & _ & Ht).
  cbn -[activities] in Ha, Ht.
  destruct (outcome (env_emergency_cancel env)); cbn -[activities];
    rewrite ?Ht, ?Ha, ?Hid, <- ?app_assoc; repeat split; reflexivity.
Qed.

Lemma cycle_when_down float_of_str symbol symbol_filters flip0 env w :
  feed_down w = true ->
  cycle float_of_str symbol symbol_filters flip0 env w
  = emergency symbol env w.
Proof.
  intro Hdown. unfold feed_down in Hdown.
  pose proof (emergency_spec symbol env w) as (Hok & _).
  unfold cycle, try_except, cycle_body, bind, get_state. rewrite Hdown.
  destruct (emergency symbol env w) as [r w']. cbn in Hok. now subst r.
Qed.

Lemma placements_emergency t w :
  placements (t ++ emergency_calls w) = placements t.
Proof.
  unfold placements, emergency_calls. rewrite filter_app, length_app.
  destruct (active_order_id (st w)) as [id |]; [destruct (id =? 0)%Z |];
    cbn; lia.
Qed.

Lemma cancels_emergency t w :
  cancels (t ++ emergency_calls w)
  = (cancels t + if id_truthy (active_order_id (st w)) then 1 else 0)%nat.
Proof.
  unfold cancels, emergency_calls, id_truthy. rewrite filter_app, length_app.
  destruct (active_order_id (st w)) as [id |]; [destruct (id =? 0)%Z |];
    cbn; lia.
Qed.

Lemma market_making_loop_cons float_of_str symbol symbol_filters flip0
    before env rest w :
  market_making_loop float_of_str symbol symbol_filters flip0
    ((before, env) :: rest) w
  = match cycle float_of_str symbol symbol_filters flip0 env
            (activities symbol before w) with
    | (Ok _, w') =>
        market_making_loop float_of_str symbol symbol_filters flip0 rest w'
    | (Raise e, w') => (Raise e, w')
    end.
Proof. reflexivity. Qed.

(** Through an outage the loop places nothing, and once no order is
    tracked it cancels nothing either. *)
Lemma outage_run float_of_str symbol symbol_filters flip0 cycles w :
  outage float_of_str symbol symbol_filters flip0 cycles w ->
  let r := market_making_loop float_of_str symbol symbol_filters flip0 cycles w in
  fst r = Ok tt
  /\ placements (trace (snd r)) = placements (trace w)
  /\ (id_truthy (active_order_id (st w)) = false ->
      cancels (trace (snd r)) = cancels (trace w))
  /\ (cancels (trace (snd r)) <= cancels (trace w) + List.length cycles)%nat.
Proof.
  revert w. induction cycles as [| [before env] rest IH]; intros w Hout.
  - cbn. repeat split. lia.
  - cbn in Hout. destruct Hout as [Hdown Hrest].
    specialize (IH _ Hrest). cbn zeta in IH |- *.
    rewrite market_making_loop_cons.
    pose proof (activities_same_order symbol before w) as Hact.
    unfold same_order in Hact. destruct Hact as (Ha & _ & _ & _ & _ & Ht).
    set (w1 := activities symbol before w) in *.
    pose proof (emergency_spec symbol env w1) as (Hok & Htrace & Hid).
    rewrite (cycle_when_down _ _ _ _ _ _ Hdown) in IH |- *.
    destruct (emergency symbol env w1) as [r w2]. cbn in Hok, Htrace, Hid, IH.
    subst r. cbn [fst snd List.length]. destruct IH as (IHok & IHp & IHc & IHb).
    split; [exact IHok |]. split; [| split].
    + rewrite IHp, Htrace, placements_emergency. now rewrite Ht.
    + intro Hnone. rewrite <- Ha in Hnone.
      rewrite IHc.
      * rewrite Htrace, cancels_emergency, Hnone, Ht. lia.
      * rewrite Hid, Hnone. now destruct (outcome _).
    + rewrite Htrace, cancels_emergency, Ht in IHb.
      destruct (id_truthy (active_order_id (st w1))); lia.
Qed.

(** C3: a cycle that starts with a feed down ends normally after exactly
    one cancel call for the tracked order (none when no order is tracked)
    and a 1-second sleep, whether the cancel succeeds or raises, and places
    nothing.  A cancel that succeeds makes the loop forget the order; one
    that raises leaves it tracked, so that the next such cycle cancels
    again.  As long as every following cycle also starts with a feed down,
    the loop still places nothing and makes at most one cancel call per
    cycle; and if the cancel succeeded, it makes no further cancel call at
    all. *)
Theorem outage_cancels_once_places_nothing
    (float_of_str : string -> Res float) (symbol : string)
    (symbol_filters : SymbolFilters) (flip0 : bool) (env : CycleEnv)
    (w : World) (Hdown : feed_down w = true) :
  let r := cycle float_of_str symbol symbol_filters flip0 env w in
  fst r = Ok tt
  /\ (forall id, active_order_id (st w) = Some id -> id <> 0%Z ->
        trace (snd r) = (trace w ++ [CancelOrder id; Sleep 1])%list)
  /\ (id_truthy (active_order_id (st w)) = false ->
        trace (snd r) = (trace w ++ [Sleep 1])%list)
  /\ cancels (trace (snd r))
     = (cancels (trace w)
        + if id_truthy (active_order_id (st w)) then 1 else 0)%nat
  /\ placements (trace (snd r)) = placements (trace w)
  /\ (outcome (env_emergency_cancel env) = Ok tt ->
      id_truthy (active_order_id (st (snd r))) = false)
  /\ (forall e, outcome (env_emergency_cancel env) = Raise e ->
        active_order_id (st (snd r)) = active_order_id (st w))
  /\ (forall cycles,
        outage float_of_str symbol symbol_filters flip0 cycles (snd r) ->
        let r' := market_making_loop float_of_str symbol symbol_filters flip0
                    cycles (snd r) in
        fst r' = Ok tt
        /\ placements (trace (snd r')) = placements (trace w)
        /\ (cancels (trace (snd r'))
            <= cancels (trace (snd r)) + List.length cycles)%nat
        /\ (outcome (env_emergency_cancel env) = Ok tt ->
            cancels (trace (snd r')) = cancels (trace (snd r)))).
Proof.
  cbn zeta. rewrite (cycle_when_down _ _ _ _ _ _ Hdown).
  pose proof (emergency_spec symbol env w) as (Hok & Htrace & Hid).
  destruct (emergency symbol env w) as [r w']. cbn in Hok, Htrace, Hid |- *.
  split; [exact Hok |].
  split; [| split; [| split; [| split; [| split; [| split]]]]].
  - intros id Hsome Hnz. rewrite Htrace. unfold emergency_calls.
    rewrite Hsome. now destruct (Z.eqb_spec id 0).
  - intro Hnone. rewrite Htrace. unfold emergency_calls.
    unfold id_truthy in Hnone.
    destruct (active_order_id (st w)) as [id |]; [| reflexivity].
    now destruct (id =? 0)%Z.
  - rewrite Htrace. apply cancels_emergency.
  - rewrite Htrace. apply placements_emergency.
  - intro Hsuccess. rewrite Hid, Hsuccess.
    destruct (id_truthy (active_order_id (st w))) eqn:E;
      [reflexivity | exact E].
  - intros e Hfailed. rewrite Hid, Hfailed. reflexivity.
  - intros cycles Hout.
    pose proof (outage_run _ _ _ _ _ _ Hout) as (Hok' & Hp & Hc & Hb).
    cbn zeta in Hok', Hp, Hc, Hb.
    split; [exact Hok' |]. split; [| split].
    + rewrite Hp, Htrace. apply placements_emergency.
    + exact Hb.
    + intro Hsuccess. apply Hc. rewrite Hid, Hsuccess.
      destruct (id_truthy (active_order_id (st w))) eqn:E;
        [reflexivity | exact E].
Qed.

Lemma outage_cancels_once_places_nothing_witness :
  let r := cycle no_str "BTC" two_decimals false rejecting_cycle blackout in
  let r' := market_making_loop no_str "BTC" two_decimals false
              [([], rejecting_cycle); ([], rejecting_cycle)] (snd r) in
  trace (snd r) = [CancelOrder 7; Sleep 1]
  /\ placements (trace (snd r')) = 0%nat
  /\ cancels (trace (snd r')) = 1%nat.
Proof.
  pose proof (outage_cancels_once_places_nothing no_str "BTC" two_decimals
                false rejecting_cycle blackout eq_refl)
    as (_ & Hone & _ & Hcancels & _ & _ & _ & Hrest).
  cbn zeta in Hone, Hcancels, Hrest |- *.
  split; [exact (Hone 7%Z eq_refl ltac:(discriminate)) |].
  destruct (Hrest [([], rejecting_cycle); ([], rejecting_cycle)])
    as (_ & Hp & _ & Hc).
  - vm_compute. repeat split.
  - split; [exact Hp |]. rewrite (Hc eq_refl), Hcancels. reflexivity.
Defined.

(** Scenario D with a venue that does not answer: order 7 is resting, both
    sockets stay down for three cycles and each emergency cancel fails.
    The loop sends three cancel calls for the one order, which it still
    tracks at the end. *)
Lemma failed_cancel_is_repeated_every_cycle :
  let cycles := [([], unanswered_cycle); ([], unanswered_cycle);
                 ([], unanswered_cycle)] in
  let r := market_making_loop no_str "BTC" two_decimals false cycles
             blackout in
  outage no_str "BTC" two_decimals false cycles blackout
  /\ fst r = Ok tt
  /\ trace (snd r) = [CancelOrder 7; Sleep 1; CancelOrder 7; Sleep 1;
                      CancelOrder 7; Sleep 1]
  /\ cancels (trace (snd r)) = 3%nat
  /\ placements (trace (snd r)) = 0%nat
  /\ active_order_id (st (snd r)) = Some 7%Z.
Proof. vm_compute. repeat split; reflexivity. Qed.

(* ================================================================== *)
(** * Further properties *)

(** ** The loop and exceptions *)

Lemma on_error_returns symbol flip0 env e w :
  fst (on_error symbol flip0 env e w) = Ok tt.
Proof.
  unfold on_error, desync_reset, cancel_order, cancel_all_orders, bind, when,
    try_except, log_, sleep, emit, modify, clear_last_order, get_state,
    meanwhile, lift.
  cbn -[activities is_desync].
  destruct (is_desync flip0 e (st w)); cbn -[activities]; [reflexivity |].
  destruct (id_truthy (active_order_id (st w))); cbn -[activities];
    [| reflexivity].
  destruct (active_order_id (st w)) as [n |]; cbn -[activities];
    [| reflexivity].
  destruct (n =? 0)%Z; cbn -[activities]; [reflexivity |].
  destruct (outcome (env_cleanup_cancel env)) as [[] |]; reflexivity.
Qed.

Lemma cycle_returns float_of_str symbol symbol_filters flip0 env w :
  fst (cycle float_of_str symbol symbol_filters flip0 env w) = Ok tt.
Proof.
  unfold cycle, try_except.
  destruct (cycle_body float_of_str symbol symbol_filters flip0 env w)
    as [[[] | e] w1]; [reflexivity |].
  destruct (is_timeout e); [reflexivity | apply on_error_returns].
Qed.

(** Every cycle ends normally and the next one starts. *)
Lemma market_making_loop_returns (float_of_str : string -> Res float)
    (symbol : string) (symbol_filters : SymbolFilters) (flip0 : bool)
    (cycles : list (list Activity * CycleEnv)) (w : World) :
  fst (market_making_loop float_of_str symbol symbol_filters flip0 cycles w)
  = Ok tt.
Proof.
  revert w. induction cycles as [| [before env] rest IH]; intro w;
    [reflexivity |].
  rewrite market_making_loop_cons.
  pose proof (cycle_returns float_of_str symbol symbol_filters flip0 env
                (activities symbol before w)) as H.
  destruct (cycle float_of_str symbol symbol_filters flip0 env
              (activities symbol before w)) as [r w1].
  cbn in H. subst r. apply IH.
Qed.

(** X1: [market_making_loop] raises only before its [while]: the call that
    fetches the trading rules is outside the [try], so an exception of that
    call leaves the function, with the same exception.  Once the rules are
    there, whatever the venue, the sockets, the spread loader and the data
    do, no exception leaves the loop.  (Exceptions are the subclasses of
    [Exception]; the cancellation of the task at shutdown is not one.) *)
Theorem market_making_loop_raises_only_at_start
    (float_of_str : string -> Res float) (symbol : string)
    (get_symbol_filters : Await SymbolFilters)
    (cycles : list (list Activity * CycleEnv)) (w : World) :
  fst (market_making_loop_from_start float_of_str symbol get_symbol_filters
         cycles w)
  = match outcome get_symbol_filters with
    | Ok _ => Ok tt
    | Raise e => Raise e
    end.
Proof.
  unfold market_making_loop_from_start, bind, log_, meanwhile, lift,
    get_state.
  cbn -[activities market_making_loop].
  destruct (outcome get_symbol_filters) as [symbol_filters | e];
    cbn -[activities market_making_loop]; [| reflexivity].
  apply market_making_loop_returns.
Qed.

(** ** Placements in a cycle *)

Lemma no_place_refl w : no_place w w.
Proof. reflexivity. Qed.

Lemma no_place_trans a b c : no_place a b -> no_place b c -> no_place a c.
Proof. unfold no_place. congruence. Qed.

Lemma no_place_one a b : no_place a b -> one_place a b.
Proof. unfold no_place, one_place. lia. Qed.

(** Sequencing when one side places nothing. *)
Lemma keeps_bind_mix {A B} (R1 R2 R3 : World -> World -> Prop)
    (c : M A) (k : A -> M B) :
  (forall a b, R1 a b -> R3 a b) ->
  (forall a b c, R1 a b -> R2 b c -> R3 a c) ->
  keeps R1 c -> (forall a, keeps R2 (k a)) -> keeps R3 (bind c k).
Proof.
  intros Hweak Hcomp Hc Hk w. unfold bind. specialize (Hc w).
  destruct (c w) as [[a | e] w1]; cbn in *.
  - eapply Hcomp; [exact Hc | apply Hk].
  - apply Hweak, Hc.
Qed.

Lemma keeps_try_mix {A} (R1 R2 R3 : World -> World -> Prop)
    (c : M A) (h : Exn -> M A) :
  (forall a b, R1 a b -> R3 a b) ->
  (forall a b c, R1 a b -> R2 b c -> R3 a c) ->
  keeps R1 c -> (forall e, keeps R2 (h e)) -> keeps R3 (try_except c h).
Proof.
  intros Hweak Hcomp Hc Hh w. unfold try_except. specialize (Hc w).
  destruct (c w) as [[a | e] w1]; cbn in *.
  - apply Hweak, Hc.
  - eapply Hcomp; [exact Hc | apply Hh].
Qed.

Lemma no_then_one a b c : no_place a b -> one_place b c -> one_place a c.
Proof. unfold no_place, one_place. lia. Qed.

Lemma one_then_no a b c : one_place a b -> no_place b c -> one_place a c.
Proof. unfold no_place, one_place. lia. Qed.

Lemma activities_no_place symbol acts w : no_place w (activities symbol acts w).
Proof.
  pose proof (activities_same_order symbol acts w) as H.
  unfold same_order in H. destruct H as (_ & _ & _ & _ & _ & Ht).
  unfold no_place. now rewrite Ht.
Qed.

Lemma meanwhile_no_place symbol acts : keeps no_place (meanwhile symbol acts).
Proof. intro w. apply activities_no_place. Qed.

Lemma emit_no_place a : is_place a = false -> keeps no_place (emit a).
Proof.
  intros Ha w. unfold no_place, placements. cbn.
  rewrite filter_app, length_app. cbn. rewrite Ha. cbn. lia.
Qed.

Lemma next_update_no_place symbol start_time step :
  keeps no_place (next_update symbol start_time step).
Proof.
  unfold next_update. destruct (_ <=? 0); [apply (keeps_raise _ no_place_refl) |].
  apply (keeps_bind _ no_place_trans); [apply meanwhile_no_place | intro].
  apply (keeps_bind _ no_place_trans); [apply (keeps_get_state _ no_place_refl) | intro s].
  destruct (order_updates s); [apply (keeps_raise _ no_place_refl) |].
  apply (keeps_bind _ no_place_trans); [intro; reflexivity | intro].
  apply (keeps_ret _ no_place_refl).
Qed.

(** A leaf that makes no call. *)
Ltac silent := intro; reflexivity.

Ltac keeps_no_place :=
  repeat first [ apply meanwhile_no_place
               | apply next_update_no_place
               | apply emit_no_place; reflexivity
               | keeps_step no_place_refl no_place_trans
               | silent ].

Lemma wait_for_fill_no_place float_of_str symbol start_time steps filled_qty :
  keeps no_place (wait_for_fill float_of_str symbol start_time steps filled_qty).
Proof.
  revert filled_qty.
  induction steps as [| step rest IH]; intro filled_qty; cbn;
    [apply (keeps_raise _ no_place_refl) |].
  apply (keeps_bind _ no_place_trans);
    [apply next_update_no_place | intro update].
  destruct (py_eq_str _ _); [| apply IH].
  apply (keeps_bind _ no_place_trans); [silent | intro].
  apply (keeps_bind _ no_place_trans); [silent | intro].
  destruct (py_eq_id _ _); [| apply IH].
  apply (keeps_bind _ no_place_trans); [silent | intro].
  destruct (py_eq_str _ _); [| apply IH].
  apply (keeps_bind _ no_place_trans); [silent | intro; silent].
Qed.

Lemma monitor_reused_no_place float_of_str symbol start_time steps filled_qty :
  keeps no_place (monitor_reused float_of_str symbol start_time steps filled_qty).
Proof.
  revert filled_qty.
  induction steps as [| step rest IH]; intro filled_qty; cbn;
    [apply (keeps_raise _ no_place_refl) |].
  apply (keeps_bind _ no_place_trans);
    [apply next_update_no_place | intro update].
  destruct (py_eq_str _ _); [| apply IH].
  apply (keeps_bind _ no_place_trans); [silent | intro].
  apply (keeps_bind _ no_place_trans); [silent | intro].
  destruct (py_eq_id _ _); [| apply IH].
  apply (keeps_bind _ no_place_trans); [silent | intro].
  apply (keeps_bind _ no_place_trans); [keeps_no_place | intro partial_break].
  destruct partial_break; [silent |].
  destruct (status_is_final _); [| apply IH].
  apply (keeps_bind _ no_place_trans); [silent | intro; silent].
Qed.

Ltac keeps_quiet_calls :=
  repeat first [ apply meanwhile_no_place
               | apply wait_for_fill_no_place
               | apply monitor_reused_no_place
               | apply emit_no_place; reflexivity
               | keeps_step no_place_refl no_place_trans
               | silent ].

Lemma on_error_no_place symbol flip0 env e :
  keeps no_place (on_error symbol flip0 env e).
Proof.
  unfold on_error, desync_reset, cancel_order, cancel_all_orders,
    clear_last_order, sleep.
  keeps_quiet_calls.
Qed.

Lemma reuse_branch_no_place float_of_str symbol flip0 env :
  keeps no_place (reuse_branch float_of_str symbol flip0 env).
Proof.
  unfold reuse_branch, apply_fill_reused, process_fill, clear_last_order, sleep.
  keeps_quiet_calls.
Qed.

Lemma place_order_one symbol price quantity side reduce_only a :
  keeps one_place (place_order symbol price quantity side reduce_only a).
Proof.
  intro w. unfold place_order, bind, emit, meanwhile, lift. cbn -[activities].
  pose proof (activities_no_place symbol (during a)
                (with_trace (fun t => (t ++ [PlaceOrder price quantity side reduce_only])%list) w)) as H.
  unfold no_place, one_place, placements in *. cbn -[activities] in *.
  rewrite filter_app, length_app in H. cbn in H.
  destruct (outcome a); cbn -[activities]; lia.
Qed.

Lemma place_and_monitor_one float_of_str symbol flip0 env fp fq side reduce_only :
  keeps one_place
    (place_and_monitor float_of_str symbol flip0 env fp fq side reduce_only).
Proof.
  unfold place_and_monitor, place_tracked, monitor_placed, await_fill.
  apply (keeps_bind_mix no_place one_place one_place _ _ no_place_one no_then_one);
    [keeps_quiet_calls | intro s].
  apply (keeps_bind_mix no_place one_place one_place _ _ no_place_one no_then_one);
    [unfold need; keeps_quiet_calls | intro mid].
  apply (keeps_bind_mix no_place one_place one_place _ _ no_place_one no_then_one);
    [keeps_quiet_calls | intro].
  apply (keeps_bind_mix no_place one_place one_place _ _ no_place_one no_then_one);
    [keeps_quiet_calls | intro].
  apply (keeps_bind_mix no_place one_place one_place _ _ no_place_one no_then_one);
    [keeps_quiet_calls | intro].
  apply (keeps_bind_mix one_place no_place one_place _ _ (fun _ _ H => H) one_then_no).
  - apply (keeps_try_mix one_place no_place one_place _ _ (fun _ _ H => H) one_then_no);
      [| intro; keeps_quiet_calls].
    apply (keeps_bind_mix one_place no_place one_place _ _ (fun _ _ H => H) one_then_no);
      [apply place_order_one | intro; keeps_quiet_calls].
  - intro. unfold apply_fill, process_fill, cancel_order, cancel_all_orders,
      clear_last_order, sleep.
    keeps_quiet_calls.
Qed.

Lemma replace_branch_one float_of_str symbol flip0 env fp fq side reduce_only :
  keeps one_place
    (replace_branch float_of_str symbol flip0 env fp fq side reduce_only).
Proof.
  unfold replace_branch.
  apply (keeps_bind_mix no_place one_place one_place _ _ no_place_one no_then_one);
    [keeps_quiet_calls | intro w0].
  apply (keeps_bind_mix no_place one_place one_place _ _ no_place_one no_then_one);
    [unfold sleep; keeps_quiet_calls | intro].
  apply (keeps_bind_mix no_place one_place one_place _ _ no_place_one no_then_one);
    [keeps_quiet_calls | intro s].
  apply (keeps_bind_mix no_place one_place one_place _ _ no_place_one no_then_one);
    [unfold cancel_order, cancel_all_orders; keeps_quiet_calls | intro].
  apply (keeps_bind_mix no_place one_place one_place _ _ no_place_one no_then_one);
    [keeps_quiet_calls | intro s'].
  destruct (_ && _).
  - intro w. apply no_place_one. revert w. unfold sleep. keeps_quiet_calls.
  - apply place_and_monitor_one.
Qed.

Lemma cycle_body_one float_of_str symbol symbol_filters flip0 env :
  keeps one_place (cycle_body float_of_str symbol symbol_filters flip0 env).
Proof.
  assert (Hquiet : forall c : M unit, keeps no_place c -> keeps one_place c)
    by (intros c Hc w; apply no_place_one, Hc).
  unfold cycle_body.
  apply (keeps_bind_mix no_place one_place one_place _ _ no_place_one no_then_one);
    [keeps_quiet_calls | intro s].
  destruct (_ || _).
  { apply Hquiet.
    unfold emergency, cancel_order, cancel_all_orders, clear_last_order, sleep.
    keeps_quiet_calls. }
  apply (keeps_bind_mix no_place one_place one_place _ _ no_place_one no_then_one);
    [unfold supertrend; keeps_quiet_calls | intro].
  apply (keeps_bind_mix no_place one_place one_place _ _ no_place_one no_then_one);
    [keeps_quiet_calls | intro w0].
  destruct (negb _); [apply Hquiet; unfold sleep; keeps_quiet_calls |].
  destruct (negb _); [apply Hquiet; unfold sleep; keeps_quiet_calls |].
  apply (keeps_bind_mix no_place one_place one_place _ _ no_place_one no_then_one);
    [keeps_quiet_calls | intros [buy_spread sell_spread]].
  apply (keeps_bind_mix no_place one_place one_place _ _ no_place_one no_then_one);
    [unfold order_parameters, need; keeps_quiet_calls | intros [[[side ro] q] lp]].
  repeat (apply (keeps_bind_mix no_place one_place one_place _ _ no_place_one no_then_one);
          [unfold formatted; keeps_quiet_calls | intro]).
  destruct (_ <=? 0); [apply Hquiet; unfold sleep; keeps_quiet_calls |].
  destruct (_ <? _); [apply Hquiet; unfold sleep; keeps_quiet_calls |].
  repeat (apply (keeps_bind_mix no_place one_place one_place _ _ no_place_one no_then_one);
          [keeps_quiet_calls | intro]).
  match goal with |- keeps _ (if ?b then _ else _) => destruct b end.
  - apply Hquiet, reuse_branch_no_place.
  - apply replace_branch_one.
Qed.

(** X2: One cycle sends at most one order to the venue, whatever the venue
    answers and whatever the feeds do meanwhile. *)
Theorem cycle_places_at_most_one (float_of_str : string -> Res float)
    (symbol : string) (symbol_filters : SymbolFilters) (flip0 : bool)
    (env : CycleEnv) (w : World) :
  let w' := snd (cycle float_of_str symbol symbol_filters flip0 env w) in
  (placements (trace w') <= placements (trace w) + 1)%nat.
Proof.
  cbn zeta. revert w.
  change (keeps one_place (cycle float_of_str symbol symbol_filters flip0 env)).
  unfold cycle.
  apply (keeps_try_mix one_place no_place one_place _ _
           (fun _ _ H => H) one_then_no).
  - apply cycle_body_one.
  - intro e. destruct (is_timeout e);
      [unfold sleep; keeps_quiet_calls | apply on_error_no_place].
Qed.

(** ** Handlers and relations in general *)

Section HandlersKeep.

Variable R : World -> World -> Prop.
Hypothesis R_refl : forall w, R w w.
Hypothesis R_trans : forall a b c, R a b -> R b c -> R a c.
Hypothesis R_log : forall l text, keeps R (log_ l text).
Hypothesis R_position : forall v, keeps R (modify (set_position_size v)).
Hypothesis R_mode : forall v, keeps R (modify (set_mode v)).
Hypothesis R_balance :
  forall v now, Py.gt v 0 = true -> keeps R (modify (set_balance v now)).
Hypothesis R_put : forall ev, feed_shaped ev -> keeps R (put_update ev).
Hypothesis R_prices :
  forall b a m now, Py.gt m 0 = true ->
    keeps R (modify (set_prices b a m) ;;; set_price_last_updated now)%task.

Ltac keeps_R :=
  repeat first [ apply R_log | apply R_position | apply R_mode
               | keeps_step R_refl R_trans ].

Lemma on_position_keeps position : keeps R (on_position position).
Proof. unfold on_position. keeps_R. Qed.

Lemma for_positions_keeps symbol positions found :
  keeps R (for_positions symbol positions found).
Proof.
  revert found. induction positions as [| position rest IH]; intro found; cbn.
  - keeps_R.
  - destruct (opt_str_eqb (pos_s position) symbol); [| apply IH].
    apply (keeps_bind _ R_trans); [apply on_position_keeps | intro; apply IH].
Qed.

Lemma for_orders_keeps orders found : keeps R (for_orders orders found).
Proof.
  revert found. induction orders as [| order rest IH]; intro found; cbn.
  - keeps_R.
  - apply (keeps_bind _ R_trans); [keeps_R | intro s].
    match goal with |- keeps _ (if ?b then _ else _) => destruct b end;
      [| apply IH].
    apply (keeps_bind _ R_trans); [keeps_R | intro].
    apply (keeps_bind _ R_trans); [keeps_R | intro].
    apply (keeps_bind _ R_trans); [| intro; apply IH].
    apply (keeps_when _ R_refl).
    apply (keeps_bind _ R_trans); [keeps_R | intro].
    apply R_put, fill_event_listed_shaped.
Qed.

Lemma user_data_body_keeps symbol now data :
  keeps R (user_data_body symbol now data).
Proof.
  unfold user_data_body, on_account_positions, on_account_orders.
  destruct (um_subscribed data); [keeps_R |].
  apply (keeps_bind _ R_trans); [| intro; keeps_R].
  destruct (um_channel data) as [field | positions_list | orders_list |].
  - apply (keeps_bind _ R_trans); [keeps_R | intro v].
    destruct (Py.gt v 0) eqn:Hpos; cbn [when]; [| keeps_R].
    apply (keeps_bind _ R_trans); [now apply R_balance | intro; keeps_R].
  - apply (keeps_bind _ R_trans);
      [apply for_positions_keeps | intro; keeps_R].
  - apply (keeps_bind _ R_trans); [keeps_R | intro].
    apply (keeps_when _ R_refl).
    apply (keeps_bind _ R_trans); [apply for_orders_keeps | intro].
    apply (keeps_when _ R_refl).
    apply (keeps_bind _ R_trans); [keeps_R | intro].
    apply (keeps_bind _ R_trans); [keeps_R | intro].
    apply R_put, fill_event_missing_shaped.
  - keeps_R.
Qed.

Lemma on_user_data_message_keeps symbol now message :
  keeps R (on_user_data_message symbol now message).
Proof.
  destruct message as [| subscribed | data]; cbn; [keeps_R | keeps_R |].
  apply (keeps_try_except _ R_trans);
    [apply user_data_body_keeps | intro; keeps_R].
Qed.

Lemma for_prices_keeps symbol now prices :
  keeps R (for_prices symbol now prices).
Proof.
  induction prices as [| price_data rest IH]; cbn; [keeps_R |].
  apply (keeps_bind _ R_trans); [| intro; apply IH].
  destruct (String.eqb _ symbol); [| keeps_R].
  apply (keeps_bind _ R_trans); [keeps_R | intro mid].
  apply (keeps_bind _ R_trans); [keeps_R | intro].
  destruct (0 <? mid) eqn:Hpos; cbn [when]; [| keeps_R].
  intro w.
  pose proof (keeps_bind _ R_trans _ (fun _ => log_ INFO "Updated prices")
                (R_prices (mid * (1 - 0.0002)) (mid * (1 + 0.0002)) mid now Hpos)
                (fun _ => R_log INFO "Updated prices") w) as H.
  cbn in H |- *. exact H.
Qed.

Lemma on_price_message_keeps symbol now message :
  keeps R (on_price_message symbol now message).
Proof.
  destruct message as [| subscribed | data]; cbn; [keeps_R | keeps_R |].
  apply (keeps_try_except _ R_trans); [| intro; keeps_R].
  apply (keeps_bind _ R_trans); [keeps_R | intro].
  destruct (pm_subscribed data); [keeps_R |].
  apply (keeps_bind _ R_trans); [| intro; keeps_R].
  destruct (pm_prices data); [apply for_prices_keeps | keeps_R].
Qed.

End HandlersKeep.

(** ** The connection flags, the phases and the back-off delays *)

Lemma same_tasks_refl w : same_tasks w w.
Proof. split; reflexivity. Qed.

Lemma same_tasks_trans a b c : same_tasks a b -> same_tasks b c -> same_tasks a c.
Proof. unfold same_tasks. intros (?&?) (?&?). split; congruence. Qed.

Lemma on_user_data_message_same_tasks symbol now message :
  keeps same_tasks (on_user_data_message symbol now message).
Proof.
  apply on_user_data_message_keeps;
    first [exact same_tasks_refl | exact same_tasks_trans | intros; leaf].
Qed.

Lemma on_price_message_same_tasks symbol now message :
  keeps same_tasks (on_price_message symbol now message).
Proof.
  apply on_price_message_keeps;
    first [exact same_tasks_refl | exact same_tasks_trans | intros; leaf].
Qed.

Lemma backoff_next d :
  In d backoff_ladder -> In (Py.min (d * 1.5) 60) backoff_ladder.
Proof.
  unfold backoff_ladder. cbn [In]. intros H.
  repeat (destruct H as [H | H]; [subst d; vm_compute; tauto |]).
  contradiction.
Qed.

Section FeedInvariant.

Variable Msg : Type.
Variable set_connected : bool -> StrategyState -> StrategyState.
Variable get_connected : StrategyState -> bool.
Variable on_message : float -> Inbound Msg -> M LoopCtl.
Hypothesis get_set : forall v s, get_connected (set_connected v s) = v.
Hypothesis handler_flag :
  forall now message w,
    get_connected (st (snd (on_message now message w))) = get_connected (st w).

Lemma feed_step_task_ok ev l w :
  task_ok (get_connected (st w)) l ->
  task_ok (get_connected (st (snd (feed_step set_connected on_message ev (l, w)))))
          (fst (feed_step set_connected on_message ev (l, w))).
Proof.
  intros [Hflag Hdelay]. unfold feed_step, leave_connection, log_connection_error.
  destruct l as [ph d]. cbn [phase reconnect_delay] in *.
  destruct ph as [| last | |], ev; cbn -[backoff_ladder Py.min];
    try (split; assumption).
  - split; [now rewrite get_set | cbn; tauto].
  - destruct (exn_kind e); cbn -[backoff_ladder];
      (split; [now rewrite get_set | assumption]).
  - pose proof (handler_flag now' message w) as Hh.
    destruct (on_message now' message w) as [[[|] | e] w1];
      cbn -[backoff_ladder] in *.
    + split; [rewrite Hh; exact Hflag | assumption].
    + split; [now rewrite get_set | assumption].
    + destruct (exn_kind e); cbn -[backoff_ladder];
        (split; [now rewrite get_set | assumption]).
  - unfold Py.gt. destruct (60 <? now - last); cbn -[backoff_ladder].
    + split; [now rewrite get_set | assumption].
    + split; assumption.
  - destruct (exn_kind e); cbn -[backoff_ladder];
      (split; [now rewrite get_set | assumption]).
  - split; [now rewrite get_set | assumption].
  - split; [now rewrite get_set | now apply backoff_next].
  - split; [assumption | now apply backoff_next].
Qed.

End FeedInvariant.

(** ** What the controller leaves to the feeds *)

Section ControllerKeeps.

Variable Inv : World -> Prop.
Variable symbol : string.
Hypothesis I_feeds : forall a w, Inv w -> Inv (activity symbol a w).
Hypothesis I_frame : forall w w', feed_owned_same w w' -> Inv w -> Inv w'.

Lemma I_stays_refl w : stays Inv w w.
Proof. now intro. Qed.

Lemma I_stays_trans a b c :
  stays Inv a b -> stays Inv b c -> stays Inv a c.
Proof. unfold stays. auto. Qed.

Lemma activities_keep_I acts w : Inv w -> Inv (activities symbol acts w).
Proof.
  revert w. unfold activities.
  induction acts as [| a rest IH]; intros w Hw; cbn; [exact Hw |].
  apply IH, I_feeds, Hw.
Qed.

Lemma meanwhile_keeps_I acts : keeps (stays Inv) (meanwhile symbol acts).
Proof. intros w Hw. now apply activities_keep_I. Qed.

(** A step of the controller itself. *)
Ltac owned :=
  let w0 := fresh "w" in let H0 := fresh "H" in
  intros w0 H0; apply (I_frame w0); [repeat split; reflexivity | exact H0].

Ltac keeps_I :=
  repeat first [ apply meanwhile_keeps_I
               | keeps_step I_stays_refl I_stays_trans
               | owned ].

Lemma next_update_keeps_I start_time step :
  keeps (stays Inv) (next_update symbol start_time step).
Proof.
  unfold next_update. destruct (_ <=? 0); [keeps_I |].
  apply (keeps_bind _ I_stays_trans); [apply meanwhile_keeps_I | intro].
  apply (keeps_bind _ I_stays_trans); [keeps_I | intro s].
  destruct (order_updates s); keeps_I.
Qed.

Lemma wait_for_fill_keeps_I float_of_str start_time steps filled_qty :
  keeps (stays Inv) (wait_for_fill float_of_str symbol start_time steps filled_qty).
Proof.
  revert filled_qty.
  induction steps as [| step rest IH]; intro filled_qty; cbn; [keeps_I |].
  apply (keeps_bind _ I_stays_trans);
    [apply next_update_keeps_I | intro update].
  destruct (py_eq_str _ _); [| apply IH].
  apply (keeps_bind _ I_stays_trans); [keeps_I | intro].
  apply (keeps_bind _ I_stays_trans); [keeps_I | intro].
  destruct (py_eq_id _ _); [| apply IH].
  apply (keeps_bind _ I_stays_trans); [keeps_I | intro].
  destruct (py_eq_str _ _); [keeps_I | apply IH].
Qed.

Lemma monitor_reused_keeps_I float_of_str start_time steps filled_qty :
  keeps (stays Inv) (monitor_reused float_of_str symbol start_time steps filled_qty).
Proof.
  revert filled_qty.
  induction steps as [| step rest IH]; intro filled_qty; cbn; [keeps_I |].
  apply (keeps_bind _ I_stays_trans);
    [apply next_update_keeps_I | intro update].
  destruct (py_eq_str _ _); [| apply IH].
  apply (keeps_bind _ I_stays_trans); [keeps_I | intro].
  apply (keeps_bind _ I_stays_trans); [keeps_I | intro].
  destruct (py_eq_id _ _); [| apply IH].
  apply (keeps_bind _ I_stays_trans); [keeps_I | intro].
  apply (keeps_bind _ I_stays_trans); [keeps_I | intro partial_break].
  destruct partial_break; [keeps_I |].
  destruct (status_is_final _); [keeps_I | apply IH].
Qed.

Lemma cycle_keeps_I float_of_str symbol_filters flip0 env :
  keeps (stays Inv) (cycle float_of_str symbol symbol_filters flip0 env).
Proof.
  unfold cycle, cycle_body, emergency, supertrend, order_parameters,
    reuse_branch, replace_branch, place_and_monitor, place_tracked,
    monitor_placed, await_fill, on_error, desync_reset,
    cancel_order, cancel_all_orders, place_order, apply_fill,
    apply_fill_reused, process_fill, clear_last_order, sleep, need, formatted.
  repeat first [ apply meanwhile_keeps_I | apply wait_for_fill_keeps_I
               | apply monitor_reused_keeps_I
               | keeps_step I_stays_refl I_stays_trans | owned ].
Qed.

Lemma market_making_loop_keeps_I float_of_str symbol_filters flip0 cycles w :
  Inv w ->
  Inv (snd (market_making_loop float_of_str symbol symbol_filters flip0 cycles w)).
Proof.
  revert w. induction cycles as [| [before env] rest IH]; intros w Hw;
    [exact Hw |].
  rewrite market_making_loop_cons.
  pose proof (cycle_keeps_I float_of_str symbol_filters flip0 env
                (activities symbol before w)
                (activities_keep_I before w Hw)) as H.
  destruct (cycle float_of_str symbol symbol_filters flip0 env
              (activities symbol before w)) as [[u | e] w1];
    [apply IH |]; exact H.
Qed.

End ControllerKeeps.

(** *** The feed tasks and a property of the shared data *)

Section ActivityKeeps.

Variable Inv : World -> Prop.
Variable symbol : string.
(** [Inv] looks at the shared state and [price_last_updated] only, and not
    at the connection flags. *)
Hypothesis I_data :
  forall w w', st w' = st w -> price_last_updated w' = price_last_updated w ->
               Inv w -> Inv w'.
Hypothesis I_price_flag :
  forall v w, Inv w -> Inv (with_st (set_price_ws_connected v) w).
Hypothesis I_user_flag :
  forall v w, Inv w -> Inv (with_st (set_user_data_ws_connected v) w).
Hypothesis I_price_message :
  forall now message w, Inv w -> Inv (snd (on_price_message symbol now message w)).
Hypothesis I_user_message :
  forall now message w,
    Inv w -> Inv (snd (on_user_data_message symbol now message w)).

Lemma activity_keeps_data a w : Inv w -> Inv (activity symbol a w).
Proof.
  assert (Hlog : forall l text, keeps (fun w w' => Inv w -> Inv w') (log_ l text))
    by (intros l text w0 H0; now apply (I_data w0)).
  destruct a as [ev | ev]; cbn.
  - unfold websocket_price_updater.
    pose proof (feed_step_keeps (fun w w' => Inv w -> Inv w')
                  (fun _ H => H) (fun a b c H1 H2 H => H2 (H1 H)) Hlog
                  PriceMessage set_price_ws_connected (on_price_message symbol)
                  (fun w0 H0 => I_price_flag false w0 H0) (fun _ => True)
                  (fun now m _ w0 H0 => I_price_message now m w0 H0)
                  ev (price_task w) w (fun _ _ _ _ => I)
                  (fun _ _ w0 H0 => I_price_flag true w0 H0)) as H.
    destruct (feed_step set_price_ws_connected (on_price_message symbol)
                ev (price_task w, w)) as [l w1].
    intro Hw. apply (I_data w1); [reflexivity | reflexivity | now apply H].
  - unfold websocket_user_data_updater.
    pose proof (feed_step_keeps (fun w w' => Inv w -> Inv w')
                  (fun _ H => H) (fun a b c H1 H2 H => H2 (H1 H)) Hlog
                  UserMessage set_user_data_ws_connected
                  (on_user_data_message symbol)
                  (fun w0 H0 => I_user_flag false w0 H0) (fun _ => True)
                  (fun now m _ w0 H0 => I_user_message now m w0 H0)
                  ev (user_task w) w (fun _ _ _ _ => I)
                  (fun _ _ w0 H0 => I_user_flag true w0 H0)) as H.
    destruct (feed_step set_user_data_ws_connected
                (on_user_data_message symbol) ev (user_task w, w)) as [l w1].
    intro Hw. apply (I_data w1); [reflexivity | reflexivity | now apply H].
Qed.

End ActivityKeeps.

(** *** Both tasks *)

Lemma price_step_user_side symbol ev l w :
  user_side_same w
    (snd (feed_step set_price_ws_connected (on_price_message symbol) ev (l, w))).
Proof.
  apply (feed_step_keeps user_side_same
           (fun _ => conj eq_refl eq_refl)
           (fun a b c H1 H2 =>
              conj (eq_trans (proj1 H2) (proj1 H1))
                   (eq_trans (proj2 H2) (proj2 H1)))
           ltac:(intros; leaf) PriceMessage set_price_ws_connected
           (on_price_message symbol) ltac:(leaf) (fun _ => True)
           (fun now m _ w0 =>
              conj (proj2 (proj2 (on_price_message_same_wiring symbol now m w0)))
                   (proj2 (on_price_message_same_tasks symbol now m w0))));
    [intros; exact I | intros; leaf].
Qed.

Lemma user_step_price_side symbol ev l w :
  price_side_same w
    (snd (feed_step set_user_data_ws_connected (on_user_data_message symbol)
            ev (l, w))).
Proof.
  apply (feed_step_keeps price_side_same
           (fun _ => conj eq_refl eq_refl)
           (fun a b c H1 H2 =>
              conj (eq_trans (proj1 H2) (proj1 H1))
                   (eq_trans (proj2 H2) (proj2 H1)))
           ltac:(intros; leaf) UserMessage set_user_data_ws_connected
           (on_user_data_message symbol) ltac:(leaf) (fun _ => True)
           (fun now m _ w0 =>
              conj (proj1 (proj2 (on_user_data_message_same_wiring symbol now m w0)))
                   (proj1 (on_user_data_message_same_tasks symbol now m w0))));
    [intros; exact I | intros; leaf].
Qed.

Lemma activity_feeds_ok symbol a w : feeds_ok w -> feeds_ok (activity symbol a w).
Proof.
  intros [Hp Hu]. destruct a as [ev | ev]; cbn.
  - unfold websocket_price_updater.
    pose proof (feed_step_task_ok PriceMessage set_price_ws_connected
                  price_ws_connected (on_price_message symbol)
                  (fun _ _ => eq_refl)
                  (fun now m w0 =>
                     proj1 (proj2 (on_price_message_same_wiring symbol now m w0)))
                  ev (price_task w) w Hp) as H1.
    pose proof (price_step_user_side symbol ev (price_task w) w) as [Hf Ht].
    destruct (feed_step set_price_ws_connected (on_price_message symbol)
                ev (price_task w, w)) as [l w1].
    cbn in *. split; [exact H1 |].
    unfold with_price_task; cbn. now rewrite Hf, Ht.
  - unfold websocket_user_data_updater.
    pose proof (feed_step_task_ok UserMessage set_user_data_ws_connected
                  user_data_ws_connected (on_user_data_message symbol)
                  (fun _ _ => eq_refl)
                  (fun now m w0 =>
                     proj2 (proj2 (on_user_data_message_same_wiring symbol now m w0)))
                  ev (user_task w) w Hu) as H1.
    pose proof (user_step_price_side symbol ev (user_task w) w) as [Hf Ht].
    destruct (feed_step set_user_data_ws_connected
                (on_user_data_message symbol) ev (user_task w, w)) as [l w1].
    cbn in *. split; [| exact H1].
    unfold with_user_task; cbn. now rewrite Hf, Ht.
Qed.

Lemma feeds_ok_frame w w' : feed_owned_same w w' -> feeds_ok w -> feeds_ok w'.
Proof.
  unfold feed_owned_same, feeds_ok.
  intros (Hp & Hu & _ & _ & _ & _ & _ & _ & _ & Hpf & Huf & _) [H1 H2].
  now rewrite Hp, Hu, Hpf, Huf.
Qed.

Lemma ladder_bounds d :
  In d backoff_ladder -> (5 <=? d) = true /\ (d <=? 60) = true.
Proof.
  unfold backoff_ladder. cbn [In]. intro H.
  repeat (destruct H as [H | H]; [subst d; vm_compute; tauto |]).
  contradiction.
Qed.

(** X3: Through any run of the loop and of the feed tasks, the connection
    flag of a feed is true whenever its task is inside its receive loop,
    and false whenever the task is opening a connection (from the line that
    lowers the flag at the head of the outer loop to the subscription). *)
Theorem flag_up_when_receiving_down_when_connecting
    (float_of_str : string -> Res float)
    (symbol : string) (symbol_filters : SymbolFilters) (flip0 : bool)
    (cycles : list (list Activity * CycleEnv)) (w : World)
    (Hstart : feeds_ok w) :
  let w' := snd (market_making_loop float_of_str symbol symbol_filters flip0
                   cycles w) in
  (is_streaming (phase (price_task w')) = true ->
   price_ws_connected (st w') = true)
  /\ (phase (price_task w') = Connecting ->
      price_ws_connected (st w') = false)
  /\ (is_streaming (phase (user_task w')) = true ->
      user_data_ws_connected (st w') = true)
  /\ (phase (user_task w') = Connecting ->
      user_data_ws_connected (st w') = false).
Proof.
  pose proof (market_making_loop_keeps_I feeds_ok symbol
                (activity_feeds_ok symbol) feeds_ok_frame
                float_of_str symbol_filters flip0 cycles w Hstart)
    as [[Hp _] [Hu _]].
  cbn zeta. rewrite Hp, Hu. repeat split.
  1, 3: intro H; exact H.
  all: intro H; rewrite H; reflexivity.
Qed.

(** X4: Through any run, the reconnect delay of each feed is one of 5, 7.5,
    11.25, ..., 56.953125, 60: never below the 5-second seed, never above
    the 60-second cap; and a successful connection puts it back to 5. *)
Theorem reconnect_delay_bounded (float_of_str : string -> Res float)
    (symbol : string) (symbol_filters : SymbolFilters) (flip0 : bool)
    (cycles : list (list Activity * CycleEnv)) (w : World)
    (Hstart : feeds_ok w) :
  let w' := snd (market_making_loop float_of_str symbol symbol_filters flip0
                   cycles w) in
  (In (reconnect_delay (price_task w')) backoff_ladder
   /\ (5 <=? reconnect_delay (price_task w')) = true
   /\ (reconnect_delay (price_task w') <=? 60) = true)
  /\ (In (reconnect_delay (user_task w')) backoff_ladder
      /\ (5 <=? reconnect_delay (user_task w')) = true
      /\ (reconnect_delay (user_task w') <=? 60) = true)
  /\ (forall now,
        phase (price_task w') = Connecting ->
        reconnect_delay
          (price_task (websocket_price_updater symbol (Connected now) w')) = 5)
  /\ (forall now,
        phase (user_task w') = Connecting ->
        reconnect_delay
          (user_task (websocket_user_data_updater symbol (Connected now) w')) = 5).
Proof.
  pose proof (market_making_loop_keeps_I feeds_ok symbol
                (activity_feeds_ok symbol) feeds_ok_frame
                float_of_str symbol_filters flip0 cycles w Hstart)
    as [[_ Hp] [_ Hu]].
  cbn zeta.
  set (w' := snd (market_making_loop float_of_str symbol symbol_filters flip0
                    cycles w)) in *.
  split; [split; [exact Hp | now apply ladder_bounds] |].
  split; [split; [exact Hu | now apply ladder_bounds] |].
  split; intros now Hphase.
  - unfold websocket_price_updater, feed_step. rewrite Hphase. reflexivity.
  - unfold websocket_user_data_updater, feed_step. rewrite Hphase. reflexivity.
Qed.

(** ** The mid price is positive *)

Lemma positive_not_zero (m : float) : (0 <? m) = true -> (m =? 0) = false.
Proof.
  rewrite ltb_spec, eqb_spec. unfold SFltb, SFeqb.
  change (Prim2SF 0) with (S754_zero false).
  destruct (Prim2SF m) as [s | s | | s mm e]; cbn; try discriminate;
    destruct s; cbn; try discriminate; reflexivity.
Qed.

Lemma activity_mid_positive symbol a w :
  mid_positive w -> mid_positive (activity symbol a w).
Proof.
  apply (activity_keeps_data mid_positive symbol).
  - intros w0 w1 Hst _. unfold mid_positive. now rewrite Hst.
  - intros v w0 H. exact H.
  - intros v w0 H. exact H.
  - intros now message.
    apply (on_price_message_keeps (fun w0 w1 => mid_positive w0 -> mid_positive w1));
      [now intros | intros a0 b c H1 H2 H; exact (H2 (H1 H))
      | intros l text w0 H; exact H
      | intros b a0 m t Hm w0 _; exact Hm].
  - intros now message.
    apply (on_user_data_message_keeps
             (fun w0 w1 => mid_positive w0 -> mid_positive w1));
      [now intros | intros a0 b c H1 H2 H; exact (H2 (H1 H))
      | intros l text w0 H; exact H
      | intros v w0 H; exact H
      | intros v w0 H; exact H
      | intros v t Hv w0 H; exact H
      | intros ev Hev w0 H; exact H].
Qed.

Lemma mid_positive_frame w w' :
  feed_owned_same w w' -> mid_positive w -> mid_positive w'.
Proof.
  unfold feed_owned_same, mid_positive.
  intros (_ & _ & _ & _ & Hm & _). now rewrite Hm.
Qed.

(** X5: The price feed only stores a mid price that is above zero and nobody
    else writes it, so through any run [state.mid_price] is unset or
    strictly positive: it is truthy, and a division by it does not raise
    ZeroDivisionError. *)
Theorem mid_price_stays_positive (float_of_str : string -> Res float)
    (symbol : string) (symbol_filters : SymbolFilters) (flip0 : bool)
    (cycles : list (list Activity * CycleEnv)) (w : World)
    (Hstart : mid_positive w) :
  let w' := snd (market_making_loop float_of_str symbol symbol_filters flip0
                   cycles w) in
  forall m, mid_price (st w') = Some m ->
    (0 <? m) = true
    /\ Py.truthy m = true
    /\ forall x, Py.fdiv x m = Ok (x / m).
Proof.
  pose proof (market_making_loop_keeps_I mid_positive symbol
                (activity_mid_positive symbol) mid_positive_frame
                float_of_str symbol_filters flip0 cycles w Hstart) as H.
  cbn zeta. intros m Hm. unfold mid_positive in H. rewrite Hm in H.
  pose proof (positive_not_zero m H) as Hz.
  split; [exact H |]. split.
  - unfold Py.truthy. now rewrite Hz.
  - intro x. unfold Py.fdiv. now rewrite Hz.
Qed.

(** ** Data that has arrived stays *)

Lemma activity_balance_known symbol a w :
  balance_known w -> balance_known (activity symbol a w).
Proof.
  apply (activity_keeps_data balance_known symbol).
  - intros w0 w1 Hst _. unfold balance_known. now rewrite Hst.
  - intros v w0 H. exact H.
  - intros v w0 H. exact H.
  - intros now message.
    apply (on_price_message_keeps
             (fun w0 w1 => balance_known w0 -> balance_known w1));
      [now intros | intros a0 b c H1 H2 H; exact (H2 (H1 H))
      | intros l text w0 H; exact H
      | intros b a0 m t Hm w0 H; exact H].
  - intros now message.
    apply (on_user_data_message_keeps
             (fun w0 w1 => balance_known w0 -> balance_known w1));
      [now intros | intros a0 b c H1 H2 H; exact (H2 (H1 H))
      | intros l text w0 H; exact H
      | intros v w0 H; exact H
      | intros v w0 H; exact H
      | intros v t Hv w0 H; reflexivity
      | intros ev Hev w0 H; exact H].
Qed.

Lemma activity_price_known symbol a w :
  price_known w -> price_known (activity symbol a w).
Proof.
  apply (activity_keeps_data price_known symbol).
  - intros w0 w1 Hst Hplu. unfold price_known. now rewrite Hst, Hplu.
  - intros v w0 H. exact H.
  - intros v w0 H. exact H.
  - intros now message.
    apply (on_price_message_keeps
             (fun w0 w1 => price_known w0 -> price_known w1));
      [now intros | intros a0 b c H1 H2 H; exact (H2 (H1 H))
      | intros l text w0 H; exact H
      | intros b a0 m t Hm w0 H; cbn; repeat split; discriminate].
  - intros now message.
    apply (on_user_data_message_keeps
             (fun w0 w1 => price_known w0 -> price_known w1));
      [now intros | intros a0 b c H1 H2 H; exact (H2 (H1 H))
      | intros l text w0 H; exact H
      | intros v w0 H; exact H
      | intros v w0 H; exact H
      | intros v t Hv w0 H; exact H
      | intros ev Hev w0 H; exact H].
Qed.

Lemma balance_known_frame w w' :
  feed_owned_same w w' -> balance_known w -> balance_known w'.
Proof.
  unfold feed_owned_same, balance_known, is_balance_data_valid.
  intros (_ & _ & _ & _ & _ & _ & Hb & Ht & _). now rewrite Hb, Ht.
Qed.

Lemma price_known_frame w w' :
  feed_owned_same w w' -> price_known w -> price_known w'.
Proof.
  unfold feed_owned_same, price_known.
  intros (_ & _ & Hb & Ha & Hm & Hp & _). now rewrite Hb, Ha, Hm, Hp.
Qed.

(** X6: Nothing ever resets the balance or the prices to [None]: once
    [is_balance_data_valid] holds it holds for the rest of the run, and once
    a price has arrived the price check can only fail because of its age. *)
Theorem data_is_never_unset (float_of_str : string -> Res float)
    (symbol : string) (symbol_filters : SymbolFilters) (flip0 : bool)
    (cycles : list (list Activity * CycleEnv)) (w : World) :
  let w' := snd (market_making_loop float_of_str symbol symbol_filters flip0
                   cycles w) in
  (is_balance_data_valid (st w) = true -> is_balance_data_valid (st w') = true)
  /\ (price_known w ->
      price_known w'
      /\ exists t, price_last_updated w' = Some t
                   /\ forall now, is_price_data_valid w' now
                                  = negb (Py.gt (now - t) 30)).
Proof.
  cbn zeta. split.
  - exact (market_making_loop_keeps_I balance_known symbol
             (activity_balance_known symbol) balance_known_frame
             float_of_str symbol_filters flip0 cycles w).
  - intro Hw.
    pose proof (market_making_loop_keeps_I price_known symbol
                  (activity_price_known symbol) price_known_frame
                  float_of_str symbol_filters flip0 cycles w Hw) as H.
    split; [exact H |].
    destruct H as (_ & _ & Hm & Hp). unfold is_price_data_valid.
    destruct (price_last_updated _) as [t |]; [| now contradiction Hp].
    exists t. split; [reflexivity |]. intro now.
    destruct (mid_price _); [| now contradiction Hm].
    now destruct (Py.gt (now - t) 30).
Qed.

(** ** What each feed task leaves alone *)

Lemma same_view_refl {V} (view : World -> V) w : same_view view w w.
Proof. reflexivity. Qed.

Lemma same_view_trans {V} (view : World -> V) a b c :
  same_view view a b -> same_view view b c -> same_view view a c.
Proof. unfold same_view. congruence. Qed.

(** X7: No step of the price feed task, whatever it receives, changes
    anything but [bid_price], [ask_price], [mid_price],
    [price_last_updated], [price_ws_connected], its own local variables and
    the log: it never touches the position, the mode, the balance, the
    tracked order or the event queue, and makes no venue call. *)
Theorem price_feed_frame (symbol : string) (ev : FeedEvent PriceMessage)
    (w : World) :
  beyond_prices (websocket_price_updater symbol ev w) = beyond_prices w.
Proof.
  unfold websocket_price_updater.
  pose proof (feed_step_keeps (same_view beyond_prices)
                (same_view_refl _) (same_view_trans _)
                ltac:(repeat intro; reflexivity)
                PriceMessage set_price_ws_connected (on_price_message symbol)
                ltac:(repeat intro; reflexivity) (fun _ => True)
                (fun now m _ =>
                   on_price_message_keeps (same_view beyond_prices)
                     (same_view_refl _) (same_view_trans _)
                     ltac:(repeat intro; reflexivity)
                     ltac:(repeat intro; reflexivity)
                     symbol now m)
                ev (price_task w) w (fun _ _ _ _ => I)
                ltac:(repeat intro; reflexivity)) as H.
  destruct (feed_step set_price_ws_connected (on_price_message symbol)
              ev (price_task w, w)) as [l w1].
  exact H.
Qed.

(** X8: No step of the account feed task changes the quote, its timestamp,
    the price flag, the strategy bias [flip_mode], the Supertrend signal,
    the tracked order or the list of venue calls. *)
Theorem account_feed_leaves_market_data (symbol : string)
    (ev : FeedEvent UserMessage) (w : World) :
  beyond_account (websocket_user_data_updater symbol ev w) = beyond_account w.
Proof.
  unfold websocket_user_data_updater.
  pose proof (feed_step_keeps (same_view beyond_account)
                (same_view_refl _) (same_view_trans _)
                ltac:(repeat intro; reflexivity)
                UserMessage set_user_data_ws_connected
                (on_user_data_message symbol)
                ltac:(repeat intro; reflexivity) (fun _ => True)
                (fun now m _ =>
                   on_user_data_message_keeps (same_view beyond_account)
                     (same_view_refl _) (same_view_trans _)
                     ltac:(repeat intro; reflexivity)
                     ltac:(repeat intro; reflexivity)
                     ltac:(repeat intro; reflexivity)
                     ltac:(repeat intro; reflexivity)
                     ltac:(repeat intro; reflexivity)
                     symbol now m)
                ev (user_task w) w (fun _ _ _ _ => I)
                ltac:(repeat intro; reflexivity)) as H.
  destruct (feed_step set_user_data_ws_connected (on_user_data_message symbol)
              ev (user_task w, w)) as [l w1].
  exact H.
Qed.

(** ** Price messages *)

Lemma for_prices_quotes symbol now prices w :
  Forall (entry_converts symbol) prices ->
  fst (for_prices symbol now prices w) = Ok tt
  /\ (Exists (entry_quotes symbol) prices \/ just_priced now w ->
      just_priced now (snd (for_prices symbol now prices w))).
Proof.
  intro Hall. revert w.
  induction Hall as [| e rest He _ IH]; intro w; cbn [for_prices].
  - split; [reflexivity |]. intros [H | H]; [inversion H | exact H].
  - unfold entry_converts in He.
    assert (Hhead : Exists (entry_quotes symbol) (e :: rest) ->
                    entry_quotes symbol e \/ Exists (entry_quotes symbol) rest).
    { intro H. inversion H; subst; [now left | now right]. }
    unfold entry_quotes in Hhead.
    change (match pe_symbol e with Some t => t | None => "" end)
      with (entry_symbol e).
    destruct (String.eqb (entry_symbol e) symbol) eqn:Hsym.
    + destruct (He eq_refl) as [Hmid Hmark].
      destruct (pe_mid e) as [| x |] eqn:Hpm; [| | now contradiction Hmid];
        (destruct (pe_mark e) as [| y |] eqn:Hpk; [| | now contradiction Hmark]);
        unfold bind, lift, when, Py.gt; cbn.
      1, 2: destruct (IH w) as [Hok Hnext]; (split; [exact Hok |]);
        intros [H | H]; apply Hnext; [| now right];
        destruct (Hhead H) as [[_ (m & Hm & _)] | Hr];
        [discriminate | now left].
      all: destruct (0 <? x) eqn:Hpos; cbn.
      all: match goal with
           | |- fst (for_prices _ _ _ ?w1) = _ /\ _ =>
               destruct (IH w1) as [Hok Hnext]; (split; [exact Hok |])
           end.
      all: intros [H | H]; apply Hnext.
      all: try (right; split; [reflexivity | cbn; discriminate]).
      all: try (now right).
      all: destruct (Hhead H) as [[_ (m & Hm & Hgt)] | Hr]; [| now left].
      all: inversion Hm; subst; unfold Py.gt in Hgt; congruence.
    + unfold bind; cbn. destruct (IH w) as [Hok Hnext].
      split; [exact Hok |].
      intros [H | H]; apply Hnext; [| now right].
      destruct (Hhead H) as [[Hs _] | Hr]; [congruence | now left].
Qed.

Lemma on_price_message_quotes symbol now data prices w :
  pm_subscribed data = false ->
  pm_prices data = Some prices ->
  Forall (entry_converts symbol) prices ->
  Exists (entry_quotes symbol) prices ->
  fst (on_price_message symbol now (Object data) w) = Ok Continue
  /\ just_priced now (snd (on_price_message symbol now (Object data) w)).
Proof.
  intros Hsub Hprices Hall Hex.
  unfold on_price_message, try_except. rewrite Hsub, Hprices.
  unfold bind, log_; cbn.
  match goal with
  | |- context [for_prices symbol now prices ?w1] =>
      destruct (for_prices_quotes symbol now prices w1 Hall) as [Hok Hq];
      specialize (Hq (or_introl Hex));
      destruct (for_prices symbol now prices w1) as [[[] | e] w2]
  end; cbn in *; [| discriminate].
  split; [reflexivity | exact Hq].
Qed.

(** X9: A quote for the symbol, received while streaming, makes the price
    data valid for the next 30 seconds of the loop clock. *)
Theorem quote_makes_price_data_valid symbol t0 now now' data prices w t
  (Hphase : phase (price_task w) = Streaming t0)
  (Hsub : pm_subscribed data = false)
  (Hprices : pm_prices data = Some prices)
  (Hall : Forall (entry_converts symbol) prices)
  (Hex : Exists (entry_quotes symbol) prices)
  (Hage : Py.gt (t - now') 30 = false) :
  is_price_data_valid
    (websocket_price_updater symbol (Received now now' (Object data)) w) t
  = true.
Proof.
  unfold websocket_price_updater, feed_step. rewrite Hphase.
  destruct (on_price_message_quotes symbol now' data prices w
              Hsub Hprices Hall Hex) as [Hok [Htime Hmid]].
  destruct (on_price_message symbol now' (Object data) w) as [[[] | e] w1];
    cbn in Hok, Htime, Hmid; try discriminate.
  unfold is_price_data_valid, with_price_task; cbn.
  rewrite Htime. destruct (mid_price (st w1)); [| now contradiction Hmid].
  unfold Py.gt in Hage. now rewrite Hage.
Qed.

(** ** Account messages *)

Lemma for_positions_other_symbols symbol positions found w :
  Forall (fun p => opt_str_eqb (pos_s p) symbol = false) positions ->
  for_positions symbol positions found w = (Ok found, w).
Proof.
  intro Hall. revert found.
  induction Hall as [| p rest Hp _ IH]; intro found; cbn; [reflexivity |].
  rewrite Hp. apply IH.
Qed.

(** X10: An [account_positions] update that lists positions, none of them for
    the traded symbol, changes nothing: the position and the mode the bot
    believes in stay as they are.  Only an empty list is read as "flat". *)
Theorem positions_of_other_symbols_change_nothing (symbol : string)
    (now : float) (data : UserMessage) (positions : list PositionEntry)
    (w : World)
    (Hplain : um_subscribed data = false)
    (Hchannel : um_channel data = AccountPositions positions)
    (Hquiet : um_error data = None)
    (Hsome : positions <> [])
    (Hother : Forall (fun p => opt_str_eqb (pos_s p) symbol = false) positions) :
  on_user_data_message symbol now (Object data) w = (Ok Continue, w).
Proof.
  unfold on_user_data_message, try_except, user_data_body.
  rewrite Hplain, Hchannel, Hquiet.
  unfold bind, on_account_positions, bind.
  rewrite (for_positions_other_symbols symbol positions false w Hother).
  destruct positions; [now contradiction Hsome | reflexivity].
Qed.

(** X11: After a position entry for the symbol has been handled, the mode is
    decided by the reported notional alone: opening below the threshold of
    15 USD, closing from there on.  An entry without an entry price
    counts as notional 0, whatever its size. *)
Theorem position_report_decides_mode (position : PositionEntry)
    (a entry_price : float) (w : World)
    (Ha : float_field (pos_a position) 0 = Ok a)
    (Hp : float_field (pos_p position) 0 = Ok entry_price) :
  let w' := snd (on_position position w) in
  fst (on_position position w) = Ok tt
  /\ flip_mode (st w') = flip_mode (st w)
  /\ mode (st w')
     = if reported_notional a entry_price (pos_d position) <? POSITION_THRESHOLD_USD
       then opening_mode_of (flip_mode (st w))
       else closing_mode_of (flip_mode (st w)).
Proof.
  assert (H : exists w',
             on_position position w = (Ok tt, w')
             /\ flip_mode (st w') = flip_mode (st w)
             /\ mode (st w')
                = if reported_notional a entry_price (pos_d position)
                     <? POSITION_THRESHOLD_USD
                  then opening_mode_of (flip_mode (st w))
                  else closing_mode_of (flip_mode (st w))).
  { unfold on_position, reported_notional, reported_size.
    unfold bind at 1. unfold lift at 1. rewrite Ha.
    unfold bind at 1. unfold lift at 1. rewrite Hp.
    remember (if String.eqb _ "ask" then _ else _) as size eqn:Hsize.
    remember (if Py.gt entry_price 0 then _ else _) as notional eqn:Hnotional.
    clear Hsize Hnotional.
    destruct w as [s plu lot pt ut lg tr].
    destruct s as [bp ap mp aid ps fm md lp ls lq ab blu ub ou pc uc ss].
    unfold bind, get_state, when, log_, modify, Py.gt, POSITION_THRESHOLD_USD; cbn.
    destruct (1e-9 <? abs (ps - size)); cbn;
      destruct (notional <? 15); cbn;
      destruct fm, md; cbn; eexists; repeat split; reflexivity. }
  destruct H as (w' & Heq & Hflip & Hmode). rewrite Heq. cbn.
  repeat split; assumption.
Qed.

(** *** Listings of the tracked order *)

Lemma for_orders_listing id orders found w :
  active_order_id (st w) = Some id ->
  Forall (amounts_convert id) orders ->
  exists w',
    for_orders orders found w = (Ok (found || existsb (lists_tracked id) orders), w')
    /\ order_updates (st w')
       = (order_updates (st w) ++ listing_events id orders)%list
    /\ same_order w w' /\ same_posture w w'.
Proof.
  intros Hid Hall. revert found w Hid.
  induction Hall as [| order rest Hconv _ IH]; intros found w Hid.
  - exists w. cbn. rewrite orb_false_r, app_nil_r.
    repeat split; reflexivity.
  - cbn [for_orders existsb listing_events flat_map].
    unfold bind at 1, get_state at 1. rewrite Hid.
    unfold amounts_convert, lists_tracked in Hconv.
    change (lists_tracked id order)
      with (match ord_i order with Some i => (i =? id)%Z | None => false end).
    destruct (ord_i order) as [i |] eqn:Hi.
    + destruct (Z.eqb i id) eqn:Hmatch.
      * destruct (Hconv eq_refl) as [Hf Ha].
        assert (Hstep : exists f a,
                  float_field (ord_f order) 0 = Ok f
                  /\ float_field (ord_a order) 0 = Ok a).
        { destruct (ord_f order) as [| f |]; [| | now contradiction Hf];
            (destruct (ord_a order) as [| a |]; [| | now contradiction Ha]);
            cbn; eauto. }
        destruct Hstep as (f & a & Hfe & Hae). rewrite Hfe, Hae.
        unfold bind, lift, when, log_, put_update, modify, Py.ge; cbn.
        destruct (a <=? f) eqn:Hge; cbn.
        -- match goal with
           | |- context [for_orders rest true ?w1] =>
               destruct (IH true w1 Hid) as (w' & Heq & Hq & Ho & Hp)
           end.
           exists w'. rewrite Heq. cbn in Hq.
           rewrite orb_true_r. split; [reflexivity |].
           split; [rewrite Hq, <- app_assoc; reflexivity |].
           split; [exact Ho | exact Hp].
        -- destruct (IH true w Hid) as (w' & Heq & Hq & Ho & Hp).
           exists w'. rewrite Heq, orb_true_r.
           split; [reflexivity |]. split; [exact Hq |]. split; assumption.
      * destruct (IH found w Hid) as (w' & Heq & Hq & Ho & Hp).
        exists w'. rewrite Heq.
        split; [reflexivity |]. split; [exact Hq |]. split; assumption.
    + destruct (IH found w Hid) as (w' & Heq & Hq & Ho & Hp).
      exists w'. rewrite Heq.
      split; [reflexivity |]. split; [exact Hq |]. split; assumption.
Qed.

(** X12: For an [account_orders] message that lists the tracked order, the
    account feed enqueues one [ORDER_FILLED] event for each listing whose
    filled amount has reached the order amount, carrying the reported
    filled amount, and nothing for a partly filled listing or for other
    orders; the order stays tracked. *)
Theorem listed_order_enqueues_complete_fills (symbol : string) (now : float)
    (data : UserMessage) (orders : list OrderEntry) (id : Z) (w : World)
    (Hplain : um_subscribed data = false)
    (Hchannel : um_channel data = AccountOrders orders)
    (Hactive : active_order_id (st w) = Some id)
    (Htruthy : id <> 0%Z)
    (Hconvert : Forall (amounts_convert id) orders)
    (Hlisted : existsb (lists_tracked id) orders = true) :
  let w' := snd (on_user_data_message symbol now (Object data) w) in
  order_updates (st w')
  = (order_updates (st w) ++ listing_events id orders)%list
  /\ active_order_id (st w') = Some id.
Proof.
  assert (H : exists w1 r,
            on_user_data_message symbol now (Object data) w = (r, w1)
            /\ order_updates (st w1)
               = (order_updates (st w) ++ listing_events id orders)%list
            /\ active_order_id (st w1) = Some id).
  { unfold on_user_data_message, try_except, user_data_body.
    rewrite Hplain, Hchannel.
    unfold bind at 1. unfold on_account_orders.
    unfold bind at 1, get_state at 1. rewrite Hactive.
    unfold id_truthy, when.
    destruct (Z.eqb_spec id 0) as [-> | _]; [now contradiction Htruthy |].
    cbn [negb].
    destruct (for_orders_listing id orders false w Hactive Hconvert)
      as (w1 & Heq & Hq & Ho & _).
    unfold bind at 1. rewrite Heq, Hlisted. cbn.
    destruct Ho as [Hsame _].
    destruct (um_error data) as [[|] |]; cbn; do 2 eexists;
      (split; [reflexivity |]); cbn; (split; [exact Hq | congruence]). }
  destruct H as (w1 & r & Heq & Hq & Hid). rewrite Heq. cbn.
  split; assumption.
Qed.

(** ** Cycles without a placement *)

Lemma supertrend_returns w :
  exists w1, supertrend w = (Ok tt, w1)
             /\ same_order w w1 /\ feed_owned_same w w1 /\ same_posture w w1.
Proof.
  destruct w as [s plu lot pt ut lg tr].
  destruct s as [bp ap mp aid ps fm md lp ls lq ab blu ub ou pc uc ss].
  unfold supertrend, bind, get_state, when, log_, modify, USE_SUPERTREND_SIGNAL.
  cbn.
  destruct ss as [signal |]; [| eexists; repeat split; reflexivity].
  match goal with
  | |- context [if ?b then _ else _] => destruct b
  end; cbn.
  - destruct (negb (Bool.eqb fm (signal =? -1)%Z)); cbn;
      eexists; repeat split; reflexivity.
  - eexists; repeat split; reflexivity.
Qed.

(** X13: With both sockets up but no valid price (none yet, or none for more
    than 30 s) or no balance, a cycle makes no call to the venue: it
    neither places nor cancels, whatever order is resting, and sleeps for
    2 seconds. *)
Theorem cycle_without_data_only_sleeps (float_of_str : string -> Res float)
    (symbol : string) (symbol_filters : SymbolFilters) (flip0 : bool)
    (env : CycleEnv) (w : World)
    (Hprice_up : price_ws_connected (st w) = true)
    (Huser_up : user_data_ws_connected (st w) = true)
    (Hdata : is_price_data_valid w (env_now env) = false
             \/ is_balance_data_valid (st w) = false) :
  let r := cycle float_of_str symbol symbol_filters flip0 env w in
  fst r = Ok tt
  /\ trace (snd r) = (trace w ++ [Sleep 2])%list
  /\ active_order_id (st (snd r)) = active_order_id (st w)
  /\ same_posture w (snd r).
Proof.
  assert (H : exists w',
            cycle float_of_str symbol symbol_filters flip0 env w = (Ok tt, w')
            /\ trace w' = (trace w ++ [Sleep 2])%list
            /\ active_order_id (st w') = active_order_id (st w)
            /\ same_posture w w').
  { unfold cycle, try_except, cycle_body.
    unfold bind at 1, get_state at 1. rewrite Hprice_up, Huser_up. cbn [negb orb].
    destruct (supertrend_returns w) as (w1 & Heq & Ho & Hf & Hp).
    unfold bind at 1. rewrite Heq.
    unfold bind at 1, get_world at 1.
    assert (Hvalid : is_price_data_valid w1 (env_now env)
                     = is_price_data_valid w (env_now env)).
    { unfold is_price_data_valid.
      destruct Hf as (_ & _ & _ & _ & Hm & Ht & _). now rewrite Hm, Ht. }
    assert (Hbalance : is_balance_data_valid (st w1)
                       = is_balance_data_valid (st w)).
    { unfold is_balance_data_valid.
      destruct Hf as (_ & _ & _ & _ & _ & _ & Hb & Hbt & _). now rewrite Hb, Hbt. }
    rewrite Hvalid, Hbalance.
    destruct Ho as (Hid & _ & _ & _ & _ & Htr).
    destruct (is_price_data_valid w (env_now env)) eqn:Hpv; cbn [negb].
    - destruct Hdata as [Hd | Hd]; [discriminate |]. rewrite Hd. cbn.
      eexists. split; [reflexivity |]. cbn. rewrite Htr.
      repeat split; solve [assumption | apply Hp].
    - cbn. eexists. split; [reflexivity |]. cbn. rewrite Htr.
      repeat split; solve [assumption | apply Hp]. }
  destruct H as (w' & Heq & Htr & Hid & Hp). rewrite Heq. cbn.
  repeat split; solve [assumption | apply Hp].
Qed.

(** ** An order that does not fill *)

Lemma next_update_same_order symbol start_time step :
  keeps same_order (next_update symbol start_time step).
Proof.
  unfold next_update.
  repeat first [ intro w; apply activities_same_order
               | keeps_step same_order_refl same_order_trans | leaf ].
Qed.

Lemma wait_for_fill_same_order float_of_str symbol start_time steps filled_qty :
  keeps same_order
    (wait_for_fill float_of_str symbol start_time steps filled_qty).
Proof.
  revert filled_qty.
  induction steps as [| step rest IH]; intro filled_qty; cbn [wait_for_fill];
    [apply (keeps_raise _ same_order_refl) |].
  apply (keeps_bind _ same_order_trans);
    [apply next_update_same_order | intro update].
  repeat first [ apply IH
               | keeps_step same_order_refl same_order_trans | leaf ].
Qed.

Lemma await_fill_same_order float_of_str symbol env :
  keeps same_order (await_fill float_of_str symbol env).
Proof.
  unfold await_fill.
  apply (keeps_bind _ same_order_trans); [leaf | intro].
  apply wait_for_fill_same_order.
Qed.

(** X14: When the fill wait of an order ends by TimeoutError, whatever the
    feeds did during the wait, one cancel call is made, for the tracked id
    when there is one and for all orders otherwise; the order is then
    forgotten whether or not that call went through, and the block ends
    normally. *)
Theorem unfilled_order_is_cancelled_and_forgotten
    (float_of_str : string -> Res float) (symbol : string) (flip0 : bool)
    (env : CycleEnv) (e : Exn) (w w1 : World)
    (Hwait : await_fill float_of_str symbol env w = (Raise e, w1))
    (Htimeout : is_timeout e = true) :
  let r := monitor_placed float_of_str symbol flip0 env w in
  fst r = Ok tt
  /\ trace (snd r)
     = (trace w ++ [cancel_call (active_order_id (st w)); Sleep 0.01])%list
  /\ active_order_id (st (snd r)) = None
  /\ last_order_price (st (snd r)) = None
  /\ last_order_side (st (snd r)) = None
  /\ last_order_quantity (st (snd r)) = None.
Proof.
  pose proof (await_fill_same_order float_of_str symbol env w) as Hsame.
  rewrite Hwait in Hsame. cbn [snd] in Hsame.
  destruct Hsame as (Hid & _ & _ & _ & _ & Htrace).
  assert (Hacts : forall acts w0, trace (activities symbol acts w0) = trace w0).
  { intros acts w0. apply (activities_same_order symbol acts w0). }
  assert (H : exists w',
            monitor_placed float_of_str symbol flip0 env w = (Ok tt, w')
            /\ trace w'
               = (trace w ++ [cancel_call (active_order_id (st w));
                              Sleep 0.01])%list
            /\ active_order_id (st w') = None
            /\ last_order_price (st w') = None
            /\ last_order_side (st w') = None
            /\ last_order_quantity (st w') = None).
  { unfold monitor_placed, except_timeout, try_except.
    unfold bind at 1. rewrite Hwait, Htimeout.
    unfold bind at 1, log_ at 1.
    unfold CANCEL_SPECIFIC_ORDER, cancel_order, cancel_all_orders,
      cancel_call, id_truthy, bind, emit, meanwhile, lift, log_, raise,
      modify, clear_last_order, get_state, sleep, emit.
    cbn -[activities]. rewrite Hid, <- Htrace.
    destruct (active_order_id (st w)) as [n |]; [destruct (n =? 0)%Z |];
      cbn -[activities];
      destruct (outcome (env_timeout_cancel env)); cbn -[activities];
      eexists; (split; [reflexivity |]); cbn -[activities];
      rewrite ?Hacts; cbn; rewrite <- ?app_assoc; cbn [app];
      repeat split; reflexivity. }
  destruct H as (w' & Heq & H). rewrite Heq. split; [reflexivity | exact H].
Qed.

(** ** A fill that is reported in time *)


(** ** From the account feed to the fill wait *)

(** X15: The events the account feed builds for the tracked order are the ones
    the fill wait accepts: with such an event at the head of the queue, the
    wait returns the event's amount at its next pass before the deadline,
    whatever the feeds add to the queue meanwhile. *)
Theorem fill_wait_accepts_feed_events (float_of_str : string -> Res float)
    (symbol : string) (start_time : float) (step : WaitStep)
    (steps : list WaitStep) (filled_qty z : float) (id : Z) (update : dict)
    (queued : list dict) (w : World)
    (Hintime : (ORDER_REFRESH_INTERVAL - (ws_now step - start_time) <=? 0) = false)
    (Hactive : active_order_id (st w) = Some id)
    (Hqueue : order_updates (st w) = update :: queued)
    (Hevent : feed_event id update z) :
  let r := wait_for_fill float_of_str symbol start_time (step :: steps)
             filled_qty w in
  fst r = Ok z
  /\ active_order_id (st (snd r)) = Some id
  /\ exists added, order_updates (st (snd r)) = (queued ++ added)%list.
Proof.
  assert (H : exists w',
            wait_for_fill float_of_str symbol start_time (step :: steps)
              filled_qty w = (Ok z, w')
            /\ active_order_id (st w') = Some id
            /\ exists added, order_updates (st w') = (queued ++ added)%list).
  { cbn [wait_for_fill]. unfold bind at 1, next_update. rewrite Hintime.
    unfold bind at 1, meanwhile at 1.
    destruct (activities_same_order symbol (ws_during step) w) as (Hid & _).
    destruct (activities_enqueue_shaped symbol (ws_during step) w)
      as (added & Hq & _).
    rewrite Hqueue in Hq. rewrite Hactive in Hid.
    set (w1 := activities symbol (ws_during step) w) in *.
    unfold bind at 1, get_state at 1. rewrite Hq. cbn [app].
    unfold bind at 1, modify at 1, ret.
    destruct Hevent as [(order & Hi & ->) | (sym & s & Hs & -> & ->)].
    - unfold fill_event_listed. rewrite Hi.
      unfold bind, lift, get_state, log_, ret; cbn. rewrite Hid. cbn.
      rewrite Z.eqb_refl. cbn.
      eexists. split; [reflexivity |]. cbn. split; [exact Hid |].
      exists added. reflexivity.
    - unfold fill_event_missing, placed_amount. rewrite Hs.
      unfold bind, lift, get_state, log_, ret; cbn. rewrite Hid. cbn.
      rewrite Z.eqb_refl. cbn.
      destruct (last_order_quantity s) as [q |]; [destruct (Py.truthy q) |];
        cbn; (eexists; split; [reflexivity |]); cbn; (split; [exact Hid |]);
        exists added; reflexivity. }
  destruct H as (w' & Heq & H). rewrite Heq. split; [reflexivity | exact H].
Qed.

(** ** Spreads *)

Section SpreadBounds.

Variable float_of_str : string -> Res float.
Variable upper : string -> string.
Variable params_path : string -> string.

Lemma _extract_spread_bounded limit_orders key mid_price file_path w o w' :
  _extract_spread float_of_str limit_orders key mid_price file_path w = (Ok o, w') ->
  override_ok o.
Proof.
  unfold _extract_spread, bind, lift.
  destruct (json_get limit_orders (key ++ "_percent")) as [percent | e];
    [| discriminate].
  destruct (_safe_float float_of_str percent) as [raw_percent | e];
    [| discriminate].
  destruct (json_get limit_orders key) as [delta | e]; [| discriminate].
  destruct (_safe_float float_of_str delta) as [raw_delta | e];
    [| discriminate].
  match goal with
  | |- match ?sp with _ => _ end _ = _ -> _ => destruct sp as [spread |]
  end.
  - destruct (SPREAD_MIN_THRESHOLD <=? spread) eqn:Hlow;
      destruct (spread <=? SPREAD_MAX_THRESHOLD) eqn:Hhigh;
      cbn [negb andb]; unfold bind, log_, ret;
      intro H; inversion H; subst; first [exact I | split; assumption].
  - intro H. inversion H. exact I.
Qed.

Lemma spreads_of_payload_bounded payload file_path w found w' :
  spreads_of_payload float_of_str payload file_path w = (Ok found, w') ->
  match found with
  | Some (b, s, _) => override_ok b /\ override_ok s
  | None => True
  end.
Proof.
  unfold spreads_of_payload.
  unfold bind at 1, lift at 1.
  destruct (json_get payload "limit_orders") as [listed | e]; [| discriminate].
  unfold bind at 1, lift at 1.
  destruct (json_get_or_empty payload "market_data") as [md | e]; [| discriminate].
  unfold bind at 1, lift at 1.
  destruct (json_get md "mid_price") as [mid | e]; [| discriminate].
  unfold bind at 1, lift at 1.
  destruct (_safe_float float_of_str mid) as [mid_price | e]; [| discriminate].
  unfold bind at 1.
  match goal with
  | |- (let (_, _) := ?c w in _) = _ -> _ =>
      destruct (c w) as [[mid_price' | e] w1]
  end; [| discriminate].
  unfold bind at 1.
  destruct (_extract_spread _ _ "delta_b" _ _ w1) as [[b | e] w2] eqn:Hb;
    [| discriminate].
  unfold bind at 1.
  destruct (_extract_spread _ _ "delta_a" _ _ w2) as [[s | e] w3] eqn:Hs;
    [| discriminate].
  apply _extract_spread_bounded in Hb. apply _extract_spread_bounded in Hs.
  destruct b as [b |], s as [s |]; unfold bind, log_, ret; cbn;
    intro H; inversion H; subst; auto.
Qed.

Lemma for_candidates_bounded files candidates w b s p w' :
  for_candidates float_of_str params_path files candidates w = (Ok (b, s, p), w') ->
  override_ok b /\ override_ok s.
Proof.
  revert w. induction candidates as [| candidate rest IH]; intro w; cbn.
  - intro H. inversion H. split; exact I.
  - destruct (files _) as [| e | payload].
    + apply IH.
    + unfold bind at 1, log_ at 1. apply IH.
    + unfold bind at 1.
      destruct (spreads_of_payload _ _ _ w) as [[found | e] w1] eqn:Hf;
        [| discriminate].
      apply spreads_of_payload_bounded in Hf.
      destruct found as [[[b' s'] p'] |]; [| apply IH].
      intro H. inversion H; subst. exact Hf.
Qed.

Lemma default_in_bounds :
  in_bounds DEFAULT_BUY_SPREAD /\ in_bounds DEFAULT_SELL_SPREAD.
Proof. repeat split; reflexivity. Qed.

Lemma cache_get_ok cache k e :
  cache_ok cache -> cache_get cache k = Some e ->
  in_bounds (ce_buy e) /\ in_bounds (ce_sell e).
Proof.
  intro Hok. induction Hok as [| [k' e'] rest Hhead _ IH]; cbn; [discriminate |].
  destruct (String.eqb k' k); [| exact IH].
  intro H. inversion H; subst. exact Hhead.
Qed.

Lemma cache_set_ok cache k e :
  cache_ok cache -> in_bounds (ce_buy e) /\ in_bounds (ce_sell e) ->
  cache_ok (cache_set cache k e).
Proof.
  intros Hok He. induction Hok as [| [k' e'] rest Hhead Hrest IH]; cbn.
  - constructor; [exact He | constructor].
  - destruct (String.eqb k' k); constructor; assumption.
Qed.

Lemma _get_spreads_for_symbol_bounded (files : string -> FileRead)
    (cache : SpreadCache) (now : float) (symbol : option string) (w : World)
    (buy sell : float) (cache' : SpreadCache)
    (Hcache : cache_ok cache)
    (Hreturns : fst (_get_spreads_for_symbol float_of_str upper params_path
                       files cache now symbol w)
                = Ok (buy, sell, cache')) :
  in_bounds buy /\ in_bounds sell /\ cache_ok cache'.
Proof.
  revert Hreturns. unfold _get_spreads_for_symbol.
  set (key := if String.eqb _ "" then DEFAULT_SYMBOL else _).
  assert (Hreload :
    forall r,
      fst ((overrides <- _load_spread_overrides float_of_str upper params_path
                           files key ;;
            let '(buy_override, sell_override, source_path) := overrides in
            let buy_spread :=
              match buy_override with Some b => b | None => DEFAULT_BUY_SPREAD end in
            let sell_spread :=
              match sell_override with Some s => s | None => DEFAULT_SELL_SPREAD end in
            let cache' :=
              cache_set cache key
                {| ce_buy := buy_spread; ce_sell := sell_spread;
                   ce_expires_at := now + SPREAD_CACHE_TTL_SECONDS;
                   ce_source_path := source_path |} in
            when (negb (r buy_spread sell_spread source_path))
              (match source_path with
               | Some _ =>
                   match buy_override, sell_override with
                   | Some _, Some _ => log_ INFO "Loaded spreads"
                   | _, _ => log_ INFO "Using spreads with defaults"
                   end
               | None => log_ INFO "No Avellaneda parameter file found; using default spreads"
               end) ;;;
            ret (buy_spread, sell_spread, cache'))%task w)
      = Ok (buy, sell, cache') ->
      in_bounds buy /\ in_bounds sell /\ cache_ok cache').
  { intro r. unfold bind at 1, _load_spread_overrides.
    destruct (for_candidates _ _ _ _ w) as [[[[b s] p] | e] w1] eqn:Hl;
      [| discriminate].
    apply for_candidates_bounded in Hl. destruct Hl as [Hb Hs].
    destruct default_in_bounds as [Hdb Hds].
    assert (Hbuy : in_bounds (match b with Some b => b | None => DEFAULT_BUY_SPREAD end))
      by (destruct b; assumption).
    assert (Hsell : in_bounds (match s with Some s => s | None => DEFAULT_SELL_SPREAD end))
      by (destruct s; assumption).
    unfold bind, when, ret.
    match goal with
    | |- context [if ?c then _ else _] => destruct c
    end.
    - match goal with
      | |- context [?l w1] => destruct (l w1) as [[[] | e] w2]
      end; cbn; intro H; inversion H; subst;
        repeat split; try apply Hbuy; try apply Hsell;
        apply cache_set_ok; [exact Hcache | split; assumption].
    - cbn. intro H; inversion H; subst.
      repeat split; try apply Hbuy; try apply Hsell;
        apply cache_set_ok; [exact Hcache | split; assumption]. }
  destruct (cache_get cache key) as [entry |] eqn:Hget.
  - destruct (Py.gt (ce_expires_at entry) now).
    + cbn. intro H. inversion H; subst.
      destruct (cache_get_ok _ _ _ Hcache Hget) as [Hb Hs].
      repeat split; solve [apply Hb | apply Hs | exact Hcache].
    + apply (Hreload (fun b s p =>
               (b =? ce_buy entry) && (s =? ce_sell entry)
               && opt_string_eqb p (ce_source_path entry))).
  - apply (Hreload (fun _ _ _ => false)).
Qed.

(** X17: Every spread [get_spreads] returns lies between 0.005 % and 2 %,
    whatever the parameter files hold and whether it comes from a file,
    from the defaults or from the cache; and so does every spread it
    leaves in the cache. *)
Theorem spreads_are_within_bounds (files : string -> FileRead)
    (cache : SpreadCache) (now : float) (global_args : option string)
    (w : World) (buy sell : float) (cache' : SpreadCache)
    (Hcache : cache_ok cache)
    (Hreturns : fst (get_spreads float_of_str upper params_path files cache
                       now global_args w)
                = Ok (buy, sell, cache')) :
  in_bounds buy /\ in_bounds sell /\ cache_ok cache'.
Proof.
  unfold get_spreads in Hreturns. cbn [USE_AVELLANEDA_SPREADS negb] in Hreturns.
  exact (_get_spreads_for_symbol_bounded files cache now _ w buy sell cache'
           Hcache Hreturns).
Qed.

End SpreadBounds.

Lemma cache_get_set cache k e : cache_get (cache_set cache k e) k = Some e.
Proof.
  induction cache as [| [k' e'] rest IH]; cbn.
  - now rewrite String.eqb_refl.
  - destruct (String.eqb k' k) eqn:Hk; cbn.
    + now rewrite String.eqb_refl.
    + now rewrite Hk.
Qed.

Section SpreadCaching.

Variable float_of_str : string -> Res float.
Variable upper : string -> string.
Variable params_path : string -> string.

Lemma reload_caches files cache now symbol w buy sell cache1 :
  cache_misses cache (symbol_key upper symbol) now ->
  fst (_get_spreads_for_symbol float_of_str upper params_path files cache now
         symbol w) = Ok (buy, sell, cache1) ->
  cache_get cache1 (symbol_key upper symbol)
  = Some {| ce_buy := buy; ce_sell := sell;
            ce_expires_at := now + SPREAD_CACHE_TTL_SECONDS;
            ce_source_path :=
              match fst (_load_spread_overrides float_of_str upper params_path
                           files (symbol_key upper symbol) w) with
              | Ok (_, _, p) => p
              | Raise _ => None
              end |}.
Proof.
  unfold cache_misses, _get_spreads_for_symbol.
  change (if String.eqb (upper match symbol with Some s => s | None => "" end) ""
          then DEFAULT_SYMBOL
          else upper match symbol with Some s => s | None => "" end)
    with (symbol_key upper symbol).
  set (key := symbol_key upper symbol).
  intro Hmiss.
  assert (Hreload :
    forall r,
      fst ((overrides <- _load_spread_overrides float_of_str upper params_path
                           files key ;;
            let '(buy_override, sell_override, source_path) := overrides in
            let buy_spread :=
              match buy_override with Some b => b | None => DEFAULT_BUY_SPREAD end in
            let sell_spread :=
              match sell_override with Some s => s | None => DEFAULT_SELL_SPREAD end in
            let cache' :=
              cache_set cache key
                {| ce_buy := buy_spread; ce_sell := sell_spread;
                   ce_expires_at := now + SPREAD_CACHE_TTL_SECONDS;
                   ce_source_path := source_path |} in
            when (negb (r buy_spread sell_spread source_path))
              (match source_path with
               | Some _ =>
                   match buy_override, sell_override with
                   | Some _, Some _ => log_ INFO "Loaded spreads"
                   | _, _ => log_ INFO "Using spreads with defaults"
                   end
               | None => log_ INFO "No Avellaneda parameter file found; using default spreads"
               end) ;;;
            ret (buy_spread, sell_spread, cache'))%task w)
      = Ok (buy, sell, cache1) ->
      cache_get cache1 key
      = Some {| ce_buy := buy; ce_sell := sell;
                ce_expires_at := now + SPREAD_CACHE_TTL_SECONDS;
                ce_source_path :=
                  match fst (_load_spread_overrides float_of_str upper
                               params_path files key w) with
                  | Ok (_, _, p) => p
                  | Raise _ => None
                  end |}).
  { intro r. unfold bind at 1.
    destruct (_load_spread_overrides _ _ _ _ _ w) as [[[[b s] p] | e] w1];
      [| discriminate].
    unfold bind, when, ret.
    match goal with
    | |- context [if ?c then _ else _] => destruct c
    end.
    - match goal with
      | |- context [?l w1] => destruct (l w1) as [[[] | e] w2]
      end; cbn; intro H; inversion H; subst; apply cache_get_set.
    - cbn. intro H; inversion H; subst. apply cache_get_set. }
  destruct (cache_get cache key) as [entry |].
  - rewrite Hmiss.
    apply (Hreload (fun b s p =>
             (b =? ce_buy entry) && (s =? ce_sell entry)
             && opt_string_eqb p (ce_source_path entry))).
  - apply (Hreload (fun _ _ _ => false)).
Qed.

(** X18: Spreads are read from the files at most once in 10 seconds per symbol:
    after a call that had to read them, any call for the same symbol
    before the entry expires returns the same pair from the cache, without
    a log line and whatever the files have become. *)
Theorem spreads_are_cached_for_ten_seconds (files files' : string -> FileRead)
    (cache : SpreadCache) (now now' : float) (global_args : option string)
    (w w2 : World) (buy sell : float) (cache1 : SpreadCache)
    (Hmiss : cache_misses cache
               (symbol_key upper
                  (Some (match global_args with
                         | Some symbol => symbol | None => DEFAULT_SYMBOL end)))
               now)
    (Hfirst : fst (get_spreads float_of_str upper params_path files cache now
                     global_args w) = Ok (buy, sell, cache1))
    (Hsoon : Py.gt (now + SPREAD_CACHE_TTL_SECONDS) now' = true) :
  get_spreads float_of_str upper params_path files' cache1 now' global_args w2
  = (Ok (buy, sell, cache1), w2).
Proof.
  unfold get_spreads in *. cbn [USE_AVELLANEDA_SPREADS negb] in *.
  set (symbol := Some _) in *.
  pose proof (reload_caches files cache now symbol w buy sell cache1 Hmiss Hfirst)
    as Hget.
  unfold _get_spreads_for_symbol.
  change (if String.eqb (upper match symbol with Some s => s | None => "" end) ""
          then DEFAULT_SYMBOL
          else upper match symbol with Some s => s | None => "" end)
    with (symbol_key upper symbol).
  rewrite Hget. cbn [ce_expires_at ce_buy ce_sell]. rewrite Hsoon. reflexivity.
Qed.

Lemma for_candidates_nothing_loads files candidates w :
  nothing_loads files ->
  fst (for_candidates float_of_str params_path files candidates w)
  = Ok (None, None, None).
Proof.
  intro Hnone. revert w.
  induction candidates as [| candidate rest IH]; intro w; cbn; [reflexivity |].
  specialize (Hnone (params_path (AVELLANEDA_FILE_PREFIX ++ candidate ++ ".json"))).
  destruct (files _) as [| e | payload]; [apply IH | | contradiction].
  unfold bind, log_. apply IH.
Qed.

(** X19: When no parameter file is there, or none can be opened and decoded,
    the loader does not raise.  A cache entry for the symbol that is still
    live is returned as it is; otherwise the default spreads of 0.6 % are
    returned, and cached for 10 seconds like any others. *)
Theorem unreadable_files_give_default_spreads (files : string -> FileRead)
    (cache : SpreadCache) (now : float) (global_args : option string)
    (w : World)
    (Hnone : nothing_loads files) :
  let key :=
    symbol_key upper
      (Some (match global_args with
             | Some symbol => symbol | None => DEFAULT_SYMBOL end)) in
  let defaults :=
    Ok (DEFAULT_BUY_SPREAD, DEFAULT_SELL_SPREAD,
        cache_set cache key
          {| ce_buy := DEFAULT_BUY_SPREAD; ce_sell := DEFAULT_SELL_SPREAD;
             ce_expires_at := now + SPREAD_CACHE_TTL_SECONDS;
             ce_source_path := None |}) in
  fst (get_spreads float_of_str upper params_path files cache now
         global_args w)
  = match cache_get cache key with
    | Some entry =>
        if Py.gt (ce_expires_at entry) now
        then Ok (ce_buy entry, ce_sell entry, cache)
        else defaults
    | None => defaults
    end.
Proof.
  cbn zeta. unfold get_spreads. cbn [USE_AVELLANEDA_SPREADS negb].
  set (symbol := Some _) in *.
  unfold _get_spreads_for_symbol.
  change (if String.eqb (upper match symbol with Some s => s | None => "" end) ""
          then DEFAULT_SYMBOL
          else upper match symbol with Some s => s | None => "" end)
    with (symbol_key upper symbol).
  set (key := symbol_key upper symbol) in *.
  assert (Hload : exists w1,
            _load_spread_overrides float_of_str upper params_path files key w
            = (Ok (None, None, None), w1)).
  { unfold _load_spread_overrides.
    pose proof (for_candidates_nothing_loads files
                  (_parameter_file_candidates upper (Some key)) w Hnone) as H.
    destruct (for_candidates _ _ _ _ w) as [r w1]. cbn in H. subst r.
    now exists w1. }
  destruct Hload as (w1 & Hload).
  destruct (cache_get cache key) as [entry |];
    [destruct (Py.gt (ce_expires_at entry) now); [reflexivity |] |];
    unfold bind at 1; rewrite Hload; unfold bind, when, ret, log_;
    match goal with
    | |- context [if ?c then _ else _] => destruct c
    end; reflexivity.
Qed.

End SpreadCaching.

(** ** Parameter file names *)

Lemma endswith_length symbol suffix :
  endswith symbol suffix = true ->
  (String.length suffix <= String.length symbol)%nat.
Proof.
  induction symbol as [| a rest IH]; cbn [endswith String.length].
  - rewrite orb_false_r. intro H. apply String.eqb_eq in H. subst. cbn. lia.
  - intro H. apply orb_true_iff in H. destruct H as [H | H].
    + apply String.eqb_eq in H. subst. cbn. lia.
    + specialize (IH H). lia.
Qed.

Lemma endswith_last_char symbol suffix :
  suffix <> "" -> endswith symbol suffix = true ->
  last_char symbol = last_char suffix.
Proof.
  intro Hne. induction symbol as [| a rest IH].
  - cbn [endswith]. rewrite orb_false_r. intro H. apply String.eqb_eq in H.
    now subst.
  - cbn [endswith]. intro H. apply orb_true_iff in H. destruct H as [H | H].
    + apply String.eqb_eq in H. now subst.
    + specialize (IH H). cbn [last_char].
      destruct rest as [| b rest']; [| exact IH].
      cbn [endswith] in H. rewrite orb_false_r in H. apply String.eqb_eq in H.
      now subst.
Qed.

Lemma endswith_split symbol suffix :
  endswith symbol suffix = true ->
  symbol
  = (substring 0 (String.length symbol - String.length suffix) symbol ++ suffix)%string.
Proof.
  induction symbol as [| a rest IH].
  - cbn [endswith]. rewrite orb_false_r. intro H. apply String.eqb_eq in H.
    now subst.
  - cbn [endswith]. intro H. apply orb_true_iff in H. destruct H as [H | H].
    + apply String.eqb_eq in H. subst suffix.
      rewrite Nat.sub_diag. reflexivity.
    + pose proof (endswith_length rest suffix H) as Hlen.
      specialize (IH H). cbn [String.length].
      replace (S (String.length rest) - String.length suffix)%nat
        with (S (String.length rest - String.length suffix)) by lia.
      cbn [substring append]. now rewrite <- IH.
Qed.

Lemma one_suffix_at_most symbol s1 s2 :
  In s1 quote_suffixes -> In s2 quote_suffixes ->
  endswith symbol s1 = true -> endswith symbol s2 = true -> s1 = s2.
Proof.
  intros H1 H2 E1 E2.
  assert (Hne : forall s, In s quote_suffixes -> s <> "").
  { intros s Hs. cbn in Hs.
    repeat (destruct Hs as [<- | Hs]; [discriminate |]). contradiction. }
  pose proof (endswith_last_char symbol s1 (Hne s1 H1) E1) as L1.
  pose proof (endswith_last_char symbol s2 (Hne s2 H2) E2) as L2.
  rewrite L1 in L2. clear - H1 H2 L2. cbn in H1, H2.
  repeat (destruct H1 as [<- | H1]);
    repeat (destruct H2 as [<- | H2]);
    try reflexivity; try contradiction; cbn in L2; discriminate.
Qed.

Lemma append_length (a b : string) :
  String.length (a ++ b) = (String.length a + String.length b)%nat.
Proof. induction a as [| c a IH]; cbn; [reflexivity | now rewrite IH]. Qed.

Lemma suffix_not_empty suffix : In suffix quote_suffixes -> suffix <> "".
Proof.
  intro Hs. cbn in Hs.
  repeat (destruct Hs as [<- | Hs]; [discriminate |]). contradiction.
Qed.

(** The name without its suffix is neither empty nor the name itself. *)
Lemma stripped_name symbol suffix :
  suffix <> "" ->
  endswith symbol suffix = true ->
  (String.length suffix < String.length symbol)%nat ->
  let stripped :=
    substring 0 (String.length symbol - String.length suffix) symbol in
  symbol = (stripped ++ suffix)%string
  /\ stripped <> "" /\ stripped <> symbol.
Proof.
  intros Hne Hends Hlen. cbn zeta.
  pose proof (endswith_split symbol suffix Hends) as Hsplit.
  set (stripped := substring _ _ _) in *.
  pose proof (f_equal String.length Hsplit) as Hl.
  rewrite append_length in Hl.
  assert (Hpos : (0 < String.length suffix)%nat).
  { destruct suffix; [contradiction | cbn; lia]. }
  split; [exact Hsplit |]. split.
  - intro E. rewrite E in Hl. cbn in Hl. lia.
  - intro E. rewrite E in Hl. lia.
Qed.

Section Candidates.

Variable upper : string -> string.

Lemma existsb_eqb_In (x : string) (l : list string) :
  existsb (String.eqb x) l = true <-> In x l.
Proof.
  rewrite existsb_exists. split.
  - intros (y & Hy & E). apply String.eqb_eq in E. now subst.
  - intro H. exists x. split; [exact H | apply String.eqb_refl].
Qed.

Lemma add_length candidates candidate :
  (List.length (add candidates candidate) <= S (List.length candidates))%nat.
Proof.
  unfold add. destruct (_ && _); [rewrite length_app; cbn; lia | lia].
Qed.

Lemma add_first symbol :
  add [] symbol = if String.eqb symbol "" then [] else [symbol].
Proof. unfold add. destruct (String.eqb symbol ""); reflexivity. Qed.

Lemma add_second symbol candidate :
  symbol <> "" -> candidate <> "" -> candidate <> symbol ->
  add (add [] symbol) candidate = [symbol; candidate].
Proof.
  intros Hs Hc Hne. rewrite add_first.
  apply String.eqb_neq in Hs. rewrite Hs. unfold add.
  apply String.eqb_neq in Hc. rewrite Hc.
  apply String.eqb_neq in Hne. cbn [existsb]. rewrite Hne. reflexivity.
Qed.

Lemma add_ok symbol candidates candidate :
  candidates_ok symbol candidates ->
  (symbol <> "" -> candidates <> []) ->
  (candidate = symbol
   \/ exists suffix, In suffix quote_suffixes
                     /\ symbol = (candidate ++ suffix)%string) ->
  candidates_ok symbol (add candidates candidate).
Proof.
  intros (Hnd & Hne & Hall & Hhd) Hfirst Hc. unfold add.
  destruct (String.eqb candidate "") eqn:He; cbn [negb andb];
    [repeat split; assumption |].
  destruct (existsb (String.eqb candidate) candidates) eqn:Hin; cbn [negb];
    [repeat split; assumption |].
  assert (Hnotin : ~ In candidate candidates).
  { intro H. apply existsb_eqb_In in H. congruence. }
  apply String.eqb_neq in He.
  repeat split.
  - apply NoDup_app; [exact Hnd | constructor; [intros [] | constructor] |].
    intros x Hx [<- | []]. contradiction.
  - intro H. apply in_app_or in H. destruct H as [H | [H | []]];
      [contradiction | congruence].
  - intros c H. apply in_app_or in H. destruct H as [H | [<- | []]];
      [now apply Hall | exact Hc].
  - intro Hs. specialize (Hhd Hs). specialize (Hfirst Hs).
    destruct candidates; [contradiction | exact Hhd].
Qed.

Lemma parameter_file_candidates_ok (symbol : option string) :
  let upper_symbol := upper (match symbol with Some s => s | None => "" end) in
  let candidates := _parameter_file_candidates upper symbol in
  candidates_ok upper_symbol candidates
  /\ (List.length candidates <= 2)%nat.
Proof.
  cbn zeta. unfold _parameter_file_candidates.
  set (u := upper _).
  assert (Hstart : candidates_ok u (add [] u)
                   /\ (u <> "" -> add [] u <> [])
                   /\ (List.length (add [] u) <= 1)%nat).
  { rewrite add_first. unfold candidates_ok.
    destruct (String.eqb u "") eqn:Hu.
    - apply String.eqb_eq in Hu.
      split; [split; [constructor | split; [intros [] | split]] | split].
      + intros c [].
      + intro H. contradiction.
      + intro H. contradiction.
      + cbn. lia.
    - apply String.eqb_neq in Hu.
      split; [split; [| split; [| split]] | split].
      + constructor; [intros [] | constructor].
      + intros [H | []]. congruence.
      + intros c [<- | []]. now left.
      + reflexivity.
      + discriminate.
      + cbn. lia. }
  destruct Hstart as (Hok & Hne & Hlen).
  assert (Hstep : forall candidates suffix,
            In suffix quote_suffixes ->
            candidates_ok u candidates -> (u <> "" -> candidates <> []) ->
            let candidates' :=
              if endswith u suffix
                 && (String.length suffix <? String.length u)%nat
              then add candidates
                     (substring 0 (String.length u - String.length suffix) u)
              else candidates in
            candidates_ok u candidates' /\ (u <> "" -> candidates' <> [])).
  { intros candidates suffix Hs Hc Hn. cbn zeta.
    destruct (endswith u suffix) eqn:E; cbn [andb]; [| now split].
    destruct (_ <? _)%nat; [| now split].
    split.
    - apply add_ok; [exact Hc | exact Hn |].
      right. exists suffix. split; [exact Hs | now apply endswith_split].
    - intros Hu. specialize (Hn Hu). unfold add.
      destruct (_ && _); [| exact Hn].
      destruct candidates; [contradiction | discriminate]. }
  split.
  - cbn [fold_left].
    repeat match goal with
    | |- candidates_ok u (if endswith u ?s && _ then add ?c _ else ?c) =>
        refine (proj1 (Hstep c s _ _ _))
    | |- (u <> "" -> (if endswith u ?s && _ then add ?c _ else ?c) <> []) =>
        refine (proj2 (Hstep c s _ _ _))
    | |- In _ quote_suffixes => cbn; tauto
    end; assumption.
  - pose proof (one_suffix_at_most u) as Hone.
    cbn [fold_left].
    assert (Hin : forall s, In s quote_suffixes -> In s quote_suffixes) by auto.
    destruct (endswith u "USDT") eqn:E1; destruct (endswith u "USDC") eqn:E2;
      destruct (endswith u "USDF") eqn:E3; destruct (endswith u "USD1") eqn:E4;
      destruct (endswith u "USD") eqn:E5;
      try (exfalso;
           match goal with
           | Ha : endswith u ?a = true, Hb : endswith u ?b = true |- _ =>
               assert (a = b) by (apply Hone; [cbn; tauto | cbn; tauto | exact Ha | exact Hb]);
               discriminate
           end);
      cbn [andb];
      repeat match goal with
             | |- context [(?a <? ?b)%nat] => destruct (a <? b)%nat
             end;
      try (etransitivity; [apply add_length |]); cbn [List.length]; lia.
Qed.

Lemma parameter_file_candidates_exact (symbol : option string) :
  let upper_symbol := upper (match symbol with Some s => s | None => "" end) in
  let candidates := _parameter_file_candidates upper symbol in
  (upper_symbol = "" -> candidates = [])
  /\ (forall suffix,
        In suffix quote_suffixes ->
        endswith upper_symbol suffix = true ->
        (String.length suffix < String.length upper_symbol)%nat ->
        let stripped :=
          substring 0 (String.length upper_symbol - String.length suffix)
            upper_symbol in
        candidates = [upper_symbol; stripped]
        /\ upper_symbol = (stripped ++ suffix)%string)
  /\ (upper_symbol <> "" ->
      (forall suffix,
         In suffix quote_suffixes ->
         endswith upper_symbol suffix = true ->
         (String.length upper_symbol <= String.length suffix)%nat) ->
      candidates = [upper_symbol]).
Proof.
  cbn zeta. unfold _parameter_file_candidates.
  set (u := upper _). clearbody u.
  split; [| split].
  - intros ->. reflexivity.
  - intros suffix Hs Hends Hlen.
    destruct (stripped_name u suffix (suffix_not_empty suffix Hs) Hends Hlen)
      as (Hsplit & Hne & Hdiff).
    split; [| exact Hsplit].
    assert (Hu : u <> "") by (intros ->; cbn in Hlen; lia).
    assert (Hother : forall s, In s quote_suffixes -> s <> suffix ->
                               endswith u s = false).
    { intros s Hin Hd. destruct (endswith u s) eqn:E; [| reflexivity].
      exfalso. apply Hd. exact (one_suffix_at_most u s suffix Hin Hs E Hends). }
    apply Nat.ltb_lt in Hlen.
    cbn [fold_left]. cbn in Hs.
    repeat (destruct Hs as [<- | Hs];
            [ rewrite Hends, Hlen;
              rewrite ?Hother by (first [cbn; tauto | discriminate]);
              cbn [andb]; apply add_second; assumption |]).
    contradiction.
  - intros Hu Hnone.
    assert (Hskip : forall s, In s quote_suffixes ->
              endswith u s && (String.length s <? String.length u)%nat = false).
    { intros s Hin. destruct (endswith u s) eqn:E; [| reflexivity].
      cbn [andb]. apply Nat.ltb_ge. now apply Hnone. }
    cbn [fold_left].
    rewrite !Hskip by (cbn; tauto).
    rewrite add_first. apply String.eqb_neq in Hu. now rewrite Hu.
Qed.


(** X20: The loader looks for the parameter file of the upper-cased symbol
    first and then, if the symbol ends in a quote currency (USDT, USDC,
    USDF, USD1 or USD) and is longer than it, for the file of the symbol
    without it.  The list is exactly: nothing for an empty symbol; the
    symbol and the symbol without its quote currency when it has one; the
    symbol alone otherwise.  So: at most two names, distinct and not
    empty, the symbol first. *)
Theorem parameter_file_candidates_spec (symbol : option string) :
  let upper_symbol := upper (match symbol with Some s => s | None => "" end) in
  let candidates := _parameter_file_candidates upper symbol in
  (upper_symbol = "" -> candidates = [])
  /\ (forall suffix,
        In suffix quote_suffixes ->
        endswith upper_symbol suffix = true ->
        (String.length suffix < String.length upper_symbol)%nat ->
        let stripped :=
          substring 0 (String.length upper_symbol - String.length suffix)
            upper_symbol in
        candidates = [upper_symbol; stripped]
        /\ upper_symbol = (stripped ++ suffix)%string)
  /\ (upper_symbol <> "" ->
      (forall suffix,
         In suffix quote_suffixes ->
         endswith upper_symbol suffix = true ->
         (String.length upper_symbol <= String.length suffix)%nat) ->
      candidates = [upper_symbol])
  /\ candidates_ok upper_symbol candidates
  /\ (List.length candidates <= 2)%nat.
Proof.
  pose proof (parameter_file_candidates_exact symbol) as (H1 & H2 & H3).
  pose proof (parameter_file_candidates_ok symbol) as (H4 & H5).
  cbn zeta in *.
  split; [exact H1 | split; [exact H2 | split; [exact H3 |]]].
  split; [exact H4 | exact H5].
Qed.

End Candidates.

(** ** The Supertrend signal *)

Lemma is_trend_value v :
  is_trend v = true ->
  (trend_value v = 1%Z /\ json_eq_int v 1 = true)
  \/ (trend_value v = (-1)%Z /\ json_eq_int v (-1) = true).
Proof.
  unfold is_trend, trend_value. destruct (json_eq_int v 1); cbn.
  - intros _. now left.
  - intro H. now right.
Qed.

Lemma supertrend_signal_updater_returns (file : SignalFile) (w : World) :
  exists w',
    supertrend_signal_updater file w = (Ok tt, w')
    /\ (supertrend_signal (st w') = Some 1%Z
        \/ (supertrend_signal (st w') = Some (-1)%Z /\ says_downtrend file))
    /\ st w' = set_supertrend_signal (supertrend_signal (st w')) (st w)
    /\ trace w' = trace w.
Proof.
  destruct w as [s plu lot pt ut lg tr].
  destruct s as [bp ap mp aid ps fm md lp ls lq ab blu ub ou pc uc ss].
  unfold supertrend_signal_updater.
  destruct file as [| | e | data].
  - unfold bind, get_state, when, signal_differs, log_, modify; cbn.
    destruct ss as [m |]; [destruct (Z.eqb_spec m 1) as [-> | Hm] |]; cbn;
      eexists; (split; [reflexivity |]); cbn;
      (split; [now left | split; reflexivity]).
  - unfold bind, log_, modify; cbn. eexists. split; [reflexivity |]. cbn.
    split; [now left | split; reflexivity].
  - unfold bind, log_, modify; cbn. eexists. split; [reflexivity |]. cbn.
    split; [now left | split; reflexivity].
  - unfold try_except, bind, lift.
    destruct (read_trend data) as [v | e] eqn:Hread.
    + destruct (is_trend v) eqn:Htrend.
      * destruct (is_trend_value v Htrend) as [[Hv H1] | [Hv H1]]; rewrite Hv;
          unfold get_state, when, signal_differs, log_, modify; cbn;
          (destruct ss as [m |];
           [match goal with
            | |- context [Z.eqb m ?n] => destruct (Z.eqb_spec m n) as [-> | Hm]
            end |]); cbn;
          eexists; (split; [reflexivity |]); cbn;
          (split; [| split; reflexivity]);
          first [ now left
                | right; split; [reflexivity |];
                  exists data, v; repeat split; assumption ].
      * unfold log_, modify; cbn. eexists. split; [reflexivity |]. cbn.
        split; [now left | split; reflexivity].
    + unfold log_, modify; cbn. eexists. split; [reflexivity |]. cbn.
      split; [now left | split; reflexivity]. 
Qed.

(** X21: After every pass of the signal reader the signal is +1 or -1, and it
    is -1 only if the file could be read and says so: a missing file, a
    file that does not decode, any other failure or an invalid value give
    +1.  The pass writes nothing else. *)
Theorem signal_reader_fails_to_uptrend (file : SignalFile) (w : World) :
  let r := supertrend_signal_updater file w in
  fst r = Ok tt
  /\ (supertrend_signal (st (snd r)) = Some 1%Z
      \/ (supertrend_signal (st (snd r)) = Some (-1)%Z /\ says_downtrend file))
  /\ st (snd r) = set_supertrend_signal (supertrend_signal (st (snd r))) (st w)
  /\ trace (snd r) = trace w.
Proof.
  destruct (supertrend_signal_updater_returns file w) as (w' & Heq & H).
  rewrite Heq. split; [reflexivity | exact H].
Qed.

(** X22: When the signal file is missing, unreadable or does not say
    "downtrend", the first cycle that finds the position flat after the
    reader's pass makes the strategy long-biased, whatever FLIP_MODE was
    configured. *)
Theorem unreadable_signal_means_long_bias (file : SignalFile) (w : World)
    (Hfile : ~ says_downtrend file)
    (Hflat : (current_notional (st w) <? POSITION_THRESHOLD_USD) = true) :
  let w1 := snd (supertrend_signal_updater file w) in
  flip_mode (st (snd (supertrend w1))) = false.
Proof.
  cbn zeta.
  destruct (supertrend_signal_updater_returns file w) as (w1 & Heq & Hsig & Hst & _).
  rewrite Heq. cbn [snd].
  destruct Hsig as [Hsig | [_ Hdown]]; [| contradiction].
  assert (Hn : current_notional (st w1) = current_notional (st w)).
  { rewrite Hst. reflexivity. }
  unfold supertrend, bind, get_state. cbn.
  rewrite Hsig. unfold when, USE_SUPERTREND_SIGNAL.
  unfold current_notional in Hn, Hflat. rewrite Hn, Hflat.
  change (1 =? -1)%Z with false.
  destruct (flip_mode (st w1)) eqn:Hflip; cbn; [reflexivity | exact Hflip].
Qed.

Lemma file_trend_reads file n :
  file_trend file = Some n ->
  (n = 1%Z \/ n = (-1)%Z)
  /\ exists data v, file = SignalLoaded data /\ read_trend data = Ok v
                    /\ json_eq_int v n = true.
Proof.
  unfold file_trend. destruct file as [| | e | data]; try discriminate.
  destruct (read_trend data) as [v | e] eqn:Hread; [| discriminate].
  destruct (is_trend v) eqn:Htrend; [| discriminate].
  intro H. inversion H; subst n. clear H.
  destruct (is_trend_value v Htrend) as [[Hv H1] | [Hv H1]]; rewrite Hv;
    (split; [tauto | exists data, v; repeat split; assumption]).
Qed.

Lemma file_trend_none file data v :
  file_trend file = None ->
  file = SignalLoaded data -> read_trend data = Ok v ->
  json_eq_int v 1 = false /\ json_eq_int v (-1) = false.
Proof.
  unfold file_trend. intros H -> Hread. rewrite Hread in H.
  unfold is_trend in H.
  destruct (json_eq_int v 1), (json_eq_int v (-1)); cbn in H;
    try discriminate; split; reflexivity.
Qed.

(** X23: Initialisation sets the signal and the bias together or not at all.
    When the file decodes and its trend is equal to 1 or to -1, the signal
    becomes that trend and [flip_mode] becomes true for -1, false for 1;
    in every other case (no file, a file that cannot be read, no trend,
    another value) the state is left as it was.  No call is made to the
    venue and nothing is raised. *)
Theorem signal_initialisation_is_all_or_nothing (file : SignalFile) (w : World) :
  let r := initialize_supertrend_signal file w in
  fst r = Ok tt
  /\ st (snd r)
     = match file_trend file with
       | Some n => set_flip_mode (n =? -1)%Z
                     (set_supertrend_signal (Some n) (st w))
       | None => st w
       end
  /\ (forall n, file_trend file = Some n ->
        (n = 1%Z \/ n = (-1)%Z)
        /\ exists data v, file = SignalLoaded data /\ read_trend data = Ok v
                          /\ json_eq_int v n = true)
  /\ (file_trend file = None ->
      forall data v, file = SignalLoaded data -> read_trend data = Ok v ->
                     json_eq_int v 1 = false /\ json_eq_int v (-1) = false)
  /\ trace (snd r) = trace w.
Proof.
  assert (H : exists w',
            initialize_supertrend_signal file w = (Ok tt, w')
            /\ st w'
               = match file_trend file with
                 | Some n => set_flip_mode (n =? -1)%Z
                               (set_supertrend_signal (Some n) (st w))
                 | None => st w
                 end
            /\ trace w' = trace w).
  { destruct w as [s plu lot pt ut lg tr].
    destruct s as [bp ap mp aid ps fm md lp ls lq ab blu ub ou pc uc ss].
    unfold initialize_supertrend_signal, file_trend.
    destruct file as [| | e | data];
      try (unfold log_; cbn; eexists; split; [reflexivity |]; cbn;
           split; reflexivity).
    unfold try_except, bind, lift.
    destruct (read_trend data) as [v | e] eqn:Hread;
      [| unfold log_; cbn; eexists; split; [reflexivity |]; cbn;
         split; reflexivity].
    destruct (is_trend v) eqn:Htrend;
      [| unfold log_; cbn; eexists; split; [reflexivity |]; cbn;
         split; reflexivity].
    destruct (is_trend_value v Htrend) as [[Hv _] | [Hv _]]; rewrite Hv;
      unfold get_state, log_, modify; cbn; destruct fm; cbn;
      eexists; (split; [reflexivity |]); cbn; split; reflexivity. }
  destruct H as (w' & Heq & Hst & Htrace). rewrite Heq. cbn [fst snd].
  split; [reflexivity |]. split; [exact Hst |].
  split; [apply file_trend_reads |].
  split; [| exact Htrace].
  intros Hnone data v. now apply file_trend_none.
Qed.

(** ** Startup *)

Lemma same_balance_refl w : same_balance w w.
Proof. split; reflexivity. Qed.

Lemma same_balance_trans a b c :
  same_balance a b -> same_balance b c -> same_balance a c.
Proof. unfold same_balance. intros [? ?] [? ?]. split; congruence. Qed.

Ltac keeps_balance :=
  repeat first [keeps_step same_balance_refl same_balance_trans | leaf].

Section StartupProperties.

Variable float_of_str : string -> Res float.
Variable symbol : string.

Lemma fetch_initial_balance_returns account_info now w :
  exists b w',
    fetch_initial_balance float_of_str account_info now w = (Ok b, w')
    /\ (if b then is_balance_data_valid (st w') = true else st w' = st w)
    /\ trace w' = trace w.
Proof.
  unfold fetch_initial_balance, try_except.
  unfold bind at 1, log_ at 1. unfold bind at 1, lift at 1.
  destruct account_info as [info | e];
    [| unfold bind, log_, ret; cbn; do 2 eexists;
       split; [reflexivity | split; reflexivity]].
  unfold bind at 1, lift at 1.
  destruct (json_get_or_empty info "data") as [data | e];
    [| unfold bind, log_, ret; cbn; do 2 eexists;
       split; [reflexivity | split; reflexivity]].
  unfold bind at 1, lift at 1.
  destruct (json_get_default data "available_to_spend" (JInt 0)) as [v | e];
    [| unfold bind, log_, ret; cbn; do 2 eexists;
       split; [reflexivity | split; reflexivity]].
  unfold bind at 1, lift at 1.
  destruct (json_float float_of_str v) as [balance | e];
    [| unfold bind, log_, ret; cbn; do 2 eexists;
       split; [reflexivity | split; reflexivity]].
  unfold bind, log_, modify, ret; cbn. do 2 eexists.
  split; [reflexivity | split; reflexivity].
Qed.

Lemma initialize_supertrend_signal_same_balance file :
  keeps same_balance (initialize_supertrend_signal file).
Proof. unfold initialize_supertrend_signal. keeps_balance. Qed.

Lemma for_risk_positions_same_balance positions :
  keeps same_balance (for_risk_positions float_of_str symbol positions).
Proof.
  induction positions as [| position rest IH]; cbn; [keeps_balance |].
  apply (keeps_bind _ same_balance_trans); [keeps_balance | intro listed].
  destruct (json_eq_str listed symbol); [keeps_balance | exact IH].
Qed.

Lemma check_existing_position_same_balance env :
  keeps same_balance (check_existing_position float_of_str symbol env).
Proof.
  unfold check_existing_position.
  repeat first [ apply for_risk_positions_same_balance
               | keeps_step same_balance_refl same_balance_trans | leaf ].
Qed.

Lemma check_existing_position_returns env w :
  fst (check_existing_position float_of_str symbol env w) = Ok tt.
Proof.
  unfold check_existing_position, try_except.
  match goal with
  | |- fst (match ?c w with _ => _ end) = _ => destruct (c w) as [[[] | e] w1]
  end; reflexivity.
Qed.

Lemma initialize_supertrend_signal_returns file w :
  fst (initialize_supertrend_signal file w) = Ok tt.
Proof.
  unfold initialize_supertrend_signal.
  destruct file as [| | e | data]; try reflexivity.
  unfold try_except.
  match goal with
  | |- fst (match ?c w with _ => _ end) = _ => destruct (c w) as [[[] | e] w1]
  end; reflexivity.
Qed.

Lemma main_startup_returns env w :
  exists b w',
    main_startup float_of_str symbol env w = (Ok b, w')
    /\ (b = true -> is_balance_data_valid (st w') = true).
Proof.
  unfold main_startup.
  unfold bind at 1.
  assert (Hcancel : exists w1,
            try_except
              (log_ INFO "Sending initial cancel all orders to ensure a clean slate." ;;;
               lift (su_initial_cancel env))
              (fun _ => log_ WARNING "Failed to send initial cancel all orders, proceeding anyway")
              w = (Ok tt, w1)).
  { unfold try_except, bind, log_, lift.
    destruct (su_initial_cancel env) as [[] | e]; eexists; reflexivity. }
  destruct Hcancel as (w1 & Hcancel). rewrite Hcancel.
  unfold bind at 1, log_ at 1.
  destruct (su_balance env) as [| account_info];
    [unfold bind, log_, ret; cbn; do 2 eexists; split;
       [reflexivity | discriminate] |].
  unfold bind at 1.
  match goal with
  | |- context [fetch_initial_balance _ _ _ ?w0] =>
      destruct (fetch_initial_balance_returns account_info (su_balance_now env) w0)
        as (b & w2 & Heq & Hb & _)
  end.
  rewrite Heq. destruct b; cbn [negb];
    [| unfold bind, log_, ret; cbn; do 2 eexists; split;
       [reflexivity | discriminate]].
  unfold USE_SUPERTREND_SIGNAL, when. unfold bind at 1.
  pose proof (initialize_supertrend_signal_same_balance (su_signal_file env) w2)
    as [Hb3 Ht3].
  pose proof (initialize_supertrend_signal_returns (su_signal_file env) w2) as Hr3.
  destruct (initialize_supertrend_signal (su_signal_file env) w2) as [r3 w3].
  cbn in Hb3, Ht3, Hr3. subst r3.
  unfold bind at 1.
  pose proof (check_existing_position_same_balance env w3) as [Hb4 Ht4].
  pose proof (check_existing_position_returns env w3) as Hr4.
  destruct (check_existing_position float_of_str symbol env w3) as [r4 w4].
  cbn in Hb4, Ht4, Hr4. subst r4. unfold ret.
  exists true, w4. split; [reflexivity |]. intros _.
  unfold is_balance_data_valid in *. now rewrite Hb4, Ht4, Hb3, Ht3.
Qed.

End StartupProperties.

Section StartupPosture.

Variable float_of_str : string -> Res float.
Variable symbol : string.

Lemma no_first_in_nil size entry_price :
  ~ first_for_symbol float_of_str symbol [] size entry_price.
Proof.
  intros (before & position & after & H & _).
  destruct before; discriminate.
Qed.

Lemma first_after_other position rest size entry_price :
  other_symbol symbol position ->
  (first_for_symbol float_of_str symbol (position :: rest) size entry_price
   <-> first_for_symbol float_of_str symbol rest size entry_price).
Proof.
  intros (listed & Hget & Hne). split.
  - intros (before & p & after & Heq & Hbefore & Hp & Hrest).
    destruct before as [| b before'].
    + cbn in Heq. inversion Heq; subst p after.
      destruct Hp as (listed' & Hget' & Heq').
      rewrite Hget in Hget'. inversion Hget'; subst. congruence.
    + cbn in Heq. inversion Heq; subst b rest.
      inversion Hbefore; subst.
      exists before', p, after.
      split; [reflexivity |]. split; [assumption |]. split; assumption.
  - intros (before & p & after & Heq & Hbefore & Hrest).
    exists (position :: before), p, after. subst rest.
    split; [reflexivity |]. split; [| exact Hrest].
    constructor; [exists listed; split; assumption | exact Hbefore].
Qed.

Lemma first_is_head position rest size entry_price listed :
  json_get position "symbol" = Ok listed ->
  json_eq_str listed symbol = true ->
  first_for_symbol float_of_str symbol (position :: rest) size entry_price ->
  (exists v, json_get_default position "size" (JFloat 0.0) = Ok v
             /\ json_float float_of_str v = Ok size)
  /\ (exists v, json_get_default position "entry_price" (JFloat 0.0) = Ok v
                /\ json_float float_of_str v = Ok entry_price).
Proof.
  intros Hget Heq (before & p & after & Hitems & Hbefore & _ & Hsize & Hentry).
  destruct before as [| b before'].
  - cbn in Hitems. inversion Hitems; subst. split; assumption.
  - cbn in Hitems. inversion Hitems; subst b rest.
    inversion Hbefore as [| ? ? (listed' & Hget' & Hne) _]; subst.
    rewrite Hget in Hget'. inversion Hget'; subst. congruence.
Qed.

Lemma head_is_first position rest size entry_price listed v1 v2 :
  json_get position "symbol" = Ok listed ->
  json_eq_str listed symbol = true ->
  json_get_default position "size" (JFloat 0.0) = Ok v1 ->
  json_float float_of_str v1 = Ok size ->
  json_get_default position "entry_price" (JFloat 0.0) = Ok v2 ->
  json_float float_of_str v2 = Ok entry_price ->
  first_for_symbol float_of_str symbol (position :: rest) size entry_price.
Proof.
  intros. exists [], position, rest.
  split; [reflexivity |]. split; [constructor |].
  split; [exists listed; split; assumption |].
  split; [exists v1 | exists v2]; split; assumption.
Qed.

Lemma unreadable_head_is_not_first position rest size entry_price e :
  json_get position "symbol" = Raise e ->
  ~ first_for_symbol float_of_str symbol (position :: rest) size entry_price.
Proof.
  intros Hget (before & p & after & Hitems & Hbefore & (l & Hp & _) & _).
  destruct before as [| b before'].
  - cbn in Hitems. inversion Hitems; subst. congruence.
  - cbn in Hitems. inversion Hitems; subst b rest.
    inversion Hbefore as [| ? ? (listed' & Hget' & Hne) _]; subst. congruence.
Qed.

Lemma for_risk_positions_scan items w :
  exists res w',
    for_risk_positions float_of_str symbol items w = (res, w')
    /\ scan_ok float_of_str symbol items w res w'.
Proof.
  assert (Hstop : forall items,
            (forall size entry_price,
               ~ first_for_symbol float_of_str symbol items size entry_price) ->
            forall (res : Res bool),
              res <> Ok true -> scan_ok float_of_str symbol items w res w).
  { intros items0 Hnone res Hres. unfold scan_ok.
    split; [reflexivity |]. split; [reflexivity |].
    split; [intros size entry_price H; destruct (Hnone _ _ H) |].
    split; [intro H; contradiction | reflexivity]. }
  induction items as [| position rest IH].
  - cbn. do 2 eexists. split; [reflexivity |].
    apply Hstop; [apply no_first_in_nil | discriminate].
  - cbn [for_risk_positions]. unfold bind at 1, lift at 1.
    destruct (json_get position "symbol") as [listed | e] eqn:Hget.
    2: { do 2 eexists. split; [reflexivity |]. apply Hstop; [| discriminate].
         intros size entry_price.
         now apply unreadable_head_is_not_first with (e := e). }
    destruct (json_eq_str listed symbol) eqn:Hsym.
    2: { assert (Hother : other_symbol symbol position)
           by (exists listed; split; assumption).
         destruct IH as (res & w' & Heq & Hf & Ht & Hfirst & Htrue & Hfalse).
         exists res, w'. split; [exact Heq |]. unfold scan_ok.
         split; [exact Hf |]. split; [exact Ht |].
         split; [| split; [| exact Hfalse]].
         - intros size entry_price H.
           apply (proj1 (first_after_other _ _ size entry_price Hother)) in H.
           now apply Hfirst.
         - intro H. destruct (Htrue H) as (size & entry_price & H1 & H2).
           exists size, entry_price. split; [| exact H2].
           apply (proj2 (first_after_other _ _ size entry_price Hother)).
           exact H1. }
    clear IH.
    unfold bind at 1, lift at 1.
    destruct (json_get_default position "size" (JFloat 0.0)) as [v1 | e] eqn:H1.
    2: { do 2 eexists. split; [reflexivity |]. apply Hstop; [| discriminate].
         intros size entry_price H.
         destruct (first_is_head _ _ _ _ _ Hget Hsym H) as [(v & Hv & _) _].
         congruence. }
    unfold bind at 1, lift at 1.
    destruct (json_float float_of_str v1) as [size0 | e] eqn:H2.
    2: { do 2 eexists. split; [reflexivity |]. apply Hstop; [| discriminate].
         intros size entry_price H.
         destruct (first_is_head _ _ _ _ _ Hget Hsym H) as [(v & Hv & Hc) _].
         rewrite H1 in Hv. inversion Hv; subst. congruence. }
    unfold bind at 1, lift at 1.
    destruct (json_get_default position "entry_price" (JFloat 0.0))
      as [v2 | e] eqn:H3.
    2: { do 2 eexists. split; [reflexivity |]. apply Hstop; [| discriminate].
         intros size entry_price H.
         destruct (first_is_head _ _ _ _ _ Hget Hsym H) as [_ (v & Hv & _)].
         congruence. }
    unfold bind at 1, lift at 1.
    destruct (json_float float_of_str v2) as [entry0 | e] eqn:H4.
    2: { do 2 eexists. split; [reflexivity |]. apply Hstop; [| discriminate].
         intros size entry_price H.
         destruct (first_is_head _ _ _ _ _ Hget Hsym H) as [_ (v & Hv & Hc)].
         rewrite H3 in Hv. inversion Hv; subst. congruence. }
    pose proof (head_is_first position rest size0 entry0 listed v1 v2
                  Hget Hsym H1 H2 H3 H4) as Hhead.
    assert (Hsame : forall size entry_price,
              first_for_symbol float_of_str symbol (position :: rest) size
                entry_price -> size = size0 /\ entry_price = entry0).
    { intros size entry_price H.
      destruct (first_is_head _ _ _ _ _ Hget Hsym H)
        as [(va & Hva & Hca) (vb & Hvb & Hcb)].
      rewrite H1 in Hva. inversion Hva; subst va.
      rewrite H3 in Hvb. inversion Hvb; subst vb.
      split; congruence. }
    unfold bind at 1, get_state at 1.
    clear Hstop. unfold scan_ok, worth_adopting, Py.gt in *.
    destruct (flip_mode (st w)) eqn:Hflip; cbn [negb andb].
    + destruct (size0 <? 0) eqn:Hside; cbn [andb].
      * destruct (15.0 <? abs (size0 * entry0)) eqn:Hworth.
        -- unfold bind, log_, modify, ret; cbn.
           do 2 eexists. split; [reflexivity |]. cbn.
           split; [exact Hflip |]. split; [reflexivity |].
           split; [| split].
           ++ intros size entry_price H.
              destruct (Hsame _ _ H) as [-> ->].
              rewrite Hside, Hworth. cbn. split; [reflexivity |].
              intros _. split; reflexivity.
           ++ intros _. exists size0, entry0. split; [exact Hhead |].
              rewrite Hside, Hworth. reflexivity.
           ++ intro H. contradiction.
        -- do 2 eexists. split; [reflexivity |].
           split; [exact Hflip |]. split; [reflexivity |].
           split; [| split].
           ++ intros size entry_price H.
              destruct (Hsame _ _ H) as [-> ->].
              rewrite Hside, Hworth. cbn. split; [reflexivity | discriminate].
           ++ discriminate.
           ++ reflexivity.
      * do 2 eexists. split; [reflexivity |].
        split; [exact Hflip |]. split; [reflexivity |].
        split; [| split].
        -- intros size entry_price H.
           destruct (Hsame _ _ H) as [-> ->].
           rewrite Hside. cbn. split; [reflexivity | discriminate].
        -- discriminate.
        -- reflexivity.
    + destruct (0 <? size0) eqn:Hside; cbn [andb].
      * destruct (15.0 <? abs (size0 * entry0)) eqn:Hworth.
        -- unfold bind, log_, modify, ret; cbn.
           do 2 eexists. split; [reflexivity |]. cbn.
           split; [exact Hflip |]. split; [reflexivity |].
           split; [| split].
           ++ intros size entry_price H.
              destruct (Hsame _ _ H) as [-> ->].
              rewrite Hside, Hworth. cbn. split; [reflexivity |].
              intros _. split; reflexivity.
           ++ intros _. exists size0, entry0. split; [exact Hhead |].
              rewrite Hside, Hworth. reflexivity.
           ++ intro H. contradiction.
        -- do 2 eexists. split; [reflexivity |].
           split; [exact Hflip |]. split; [reflexivity |].
           split; [| split].
           ++ intros size entry_price H.
              destruct (Hsame _ _ H) as [-> ->].
              rewrite Hside, Hworth. cbn. split; [reflexivity | discriminate].
           ++ discriminate.
           ++ reflexivity.
      * do 2 eexists. split; [reflexivity |].
        split; [exact Hflip |]. split; [reflexivity |].
        split; [| split].
        -- intros size entry_price H.
           destruct (Hsame _ _ H) as [-> ->].
           rewrite Hside. cbn. split; [reflexivity | discriminate].
        -- discriminate.
        -- reflexivity.
Qed.

Lemma scan_ok_logged items w w0 res w' :
  st w0 = st w -> trace w0 = trace w ->
  scan_ok float_of_str symbol items w0 res w' ->
  scan_ok float_of_str symbol items w res w'.
Proof. unfold scan_ok. intros Hs Ht. now rewrite Hs, Ht. Qed.

Lemma scan_ok_nothing w (res : Res bool) :
  res <> Ok true -> scan_ok float_of_str symbol [] w res w.
Proof.
  intro Hres. unfold scan_ok.
  split; [reflexivity |]. split; [reflexivity |].
  split; [intros size entry_price H; destruct (no_first_in_nil _ _ H) |].
  split; [intro H; contradiction | reflexivity].
Qed.

(** The [if positions and 'positions' in positions:] block. *)
Lemma position_found_scan (positions : json) w :
  exists res w',
    (if json_truthy positions then
       listed <- lift (json_contains "positions" positions) ;;
       if listed then
         entries <- lift (json_index positions "positions") ;;
         items <- lift (json_iter entries) ;;
         for_risk_positions float_of_str symbol items
       else ret false
     else ret false) w = (res, w')
    /\ scan_ok float_of_str symbol (reported_positions (Ok positions)) w res
         w'.
Proof.
  unfold reported_positions.
  destruct (json_truthy positions);
    [| do 2 eexists; split; [reflexivity |];
       apply scan_ok_nothing; discriminate].
  unfold bind at 1, lift at 1.
  destruct (json_contains "positions" positions) as [[|] | e];
    try (do 2 eexists; split; [reflexivity |];
         apply scan_ok_nothing; discriminate).
  unfold bind at 1, lift at 1.
  destruct (json_index positions "positions") as [entries | e];
    [| do 2 eexists; split; [reflexivity |];
       apply scan_ok_nothing; discriminate].
  unfold bind at 1, lift at 1.
  destruct (json_iter entries) as [items | e];
    [| do 2 eexists; split; [reflexivity |];
       apply scan_ok_nothing; discriminate].
  apply for_risk_positions_scan.
Qed.

Lemma check_existing_position_scan env w :
  exists w' res w1,
    check_existing_position float_of_str symbol env w = (Ok tt, w')
    /\ scan_ok float_of_str symbol (reported_positions (su_positions env)) w
         res w1
    /\ st w' = st w1 /\ trace w' = trace w1.
Proof.
  unfold check_existing_position, try_except.
  unfold bind at 1, log_ at 1. unfold bind at 1, lift at 1.
  destruct (su_positions env) as [positions | e].
  2: { unfold log_; cbn. eexists. exists (Raise e), w.
       split; [reflexivity |].
       split; [apply scan_ok_nothing; discriminate | split; reflexivity]. }
  unfold bind at 1, log_ at 1. unfold bind at 1.
  match goal with
  | |- context [(if json_truthy positions then _ else _) ?w0] =>
      destruct (position_found_scan positions w0)
        as (res & w1 & Heq & Hscan);
      apply (scan_ok_logged _ w) in Hscan; [| reflexivity | reflexivity]
  end.
  rewrite Heq.
  destruct res as [[|] | e].
  - unfold when, ret; cbn. eexists. exists (Ok true), w1.
    split; [reflexivity |]. split; [exact Hscan | split; reflexivity].
  - unfold when, bind, try_except, log_, lift; cbn.
    destruct (su_leverage env) as [[] | e]; cbn;
      eexists; exists (Ok false), w1;
      (split; [reflexivity |]); (split; [exact Hscan | split; reflexivity]).
  - unfold log_; cbn. eexists. exists (Raise e), w1.
    split; [reflexivity |]. split; [exact Hscan | split; reflexivity].
Qed.

(** X24: At startup the bot looks at the first entry for its symbol in the
    venue's position report and adopts it exactly when it is on the side
    of the bias (long when long-biased, short when short-biased) and
    [abs(size * entry_price)] is above 15 USD: it then takes over the
    reported size and starts in closing mode.  In every other case (an
    entry on the other side or worth 15 USD or less, no entry, an answer
    that cannot be read, a call that fails) the posture stays as it was.
    The bias is never changed, no order is sent and no exception
    escapes. *)
Theorem startup_adopts_only_aligned_position (env : StartupEnv) (w : World) :
  let r := check_existing_position float_of_str symbol env w in
  let items := reported_positions (su_positions env) in
  fst r = Ok tt
  /\ flip_mode (st (snd r)) = flip_mode (st w)
  /\ trace (snd r) = trace w
  /\ (forall size entry_price,
        first_for_symbol float_of_str symbol items size entry_price ->
        if worth_adopting (flip_mode (st w)) size entry_price
        then mode (st (snd r)) = closing_mode_of (flip_mode (st w))
             /\ position_size (st (snd r)) = size
        else same_posture w (snd r))
  /\ (same_posture w (snd r)
      \/ exists size entry_price,
           first_for_symbol float_of_str symbol items size entry_price
           /\ worth_adopting (flip_mode (st w)) size entry_price = true
           /\ mode (st (snd r)) = closing_mode_of (flip_mode (st w))
           /\ position_size (st (snd r)) = size).
Proof.
  cbn zeta.
  destruct (check_existing_position_scan env w)
    as (w' & res & w1 & Heq & (Hflip & Htrace & Hfirst & Htrue & Hfalse)
        & Hst & Ht).
  rewrite Heq. cbn [fst snd]. unfold same_posture. rewrite Hst, Ht.
  split; [reflexivity |]. split; [exact Hflip |]. split; [exact Htrace |].
  split.
  - intros size entry_price H. destruct (Hfirst _ _ H) as [Hres Hadopt].
    destruct (worth_adopting (flip_mode (st w)) size entry_price) eqn:Hworth.
    + now apply Hadopt.
    + rewrite Hfalse; [split; reflexivity |]. rewrite Hres. discriminate.
  - assert (Hdec : res = Ok true \/ res <> Ok true).
    { destruct res as [[|] | e]; [now left | right | right]; discriminate. }
    destruct Hdec as [Hyes | Hno].
    + right. destruct (Htrue Hyes) as (size & entry_price & H & Hworth).
      destruct (Hfirst _ _ H) as [_ Hadopt].
      exists size, entry_price.
      split; [exact H |]. split; [exact Hworth | now apply Hadopt].
    + left. rewrite (Hfalse Hno). split; reflexivity.
Qed.

(** X25: [main] starts the tasks only once a balance has been stored, and
    nothing unsets it afterwards: in a run started by [main], the
    controller's balance check passes after any number of cycles and
    whatever the feed tasks have done since. *)
Theorem balance_check_never_fails (symbol_filters : SymbolFilters)
    (flip0 : bool) (startup : StartupEnv) (w0 : World)
    (cycles : list (list Activity * CycleEnv)) (since : list Activity)
    (Hstarted : fst (main_startup float_of_str symbol startup w0) = Ok true) :
  let w := snd (main_startup float_of_str symbol startup w0) in
  is_balance_data_valid (st w) = true
  /\ is_balance_data_valid
       (st (activities symbol since
              (snd (market_making_loop float_of_str symbol symbol_filters flip0
                      cycles w))))
     = true.
Proof.
  cbn zeta.
  destruct (main_startup_returns float_of_str symbol startup w0)
    as (b & w & Heq & Hvalid).
  rewrite Heq in Hstarted |- *. cbn in Hstarted |- *.
  assert (Hb : b = true) by congruence.
  specialize (Hvalid Hb). split; [exact Hvalid |].
  apply (activities_keep_I balance_known symbol (activity_balance_known symbol)).
  exact (market_making_loop_keeps_I balance_known symbol
           (activity_balance_known symbol) balance_known_frame
           float_of_str symbol_filters flip0 cycles w Hvalid).
Qed.

End StartupPosture.

(** ** Canonical key order *)

Lemma ascii_compare_lt_trans (x y z : ascii) :
  Ascii.compare x y = Lt -> Ascii.compare y z = Lt -> Ascii.compare x z = Lt.
Proof.
  unfold Ascii.compare. rewrite !N.compare_lt_iff. lia.
Qed.

Lemma ascii_compare_eq_l (x y z : ascii) :
  Ascii.compare x y = Eq -> Ascii.compare x z = Ascii.compare y z.
Proof. intro H. apply Ascii.compare_eq_iff in H. now subst. Qed.

Lemma ascii_compare_eq_r (x y z : ascii) :
  Ascii.compare y z = Eq -> Ascii.compare x z = Ascii.compare x y.
Proof. intro H. apply Ascii.compare_eq_iff in H. now subst. Qed.

Lemma string_compare_lt_trans (a b c : string) :
  String.compare a b = Lt -> String.compare b c = Lt -> String.compare a c = Lt.
Proof.
  revert b c. induction a as [| x a IH]; intros [| y b] [| z c]; cbn;
    try discriminate; try reflexivity.
  destruct (Ascii.compare x y) eqn:Hxy; try discriminate;
    destruct (Ascii.compare y z) eqn:Hyz; try discriminate; intros H1 H2.
  - rewrite (ascii_compare_eq_l x y z Hxy), Hyz. now apply (IH b c).
  - now rewrite (ascii_compare_eq_l x y z Hxy), Hyz.
  - now rewrite (ascii_compare_eq_r x y z Hyz), Hxy.
  - now rewrite (ascii_compare_lt_trans x y z Hxy Hyz).
Qed.

Lemma leb_trans (a b c : string) :
  String.leb a b = true -> String.leb b c = true -> String.leb a c = true.
Proof.
  unfold String.leb.
  destruct (String.compare a b) eqn:Hab; try discriminate;
    destruct (String.compare b c) eqn:Hbc; try discriminate; intros _ _.
  - apply String.compare_eq_iff in Hab, Hbc. subst.
    destruct (String.compare c c) eqn:Hcc; try reflexivity.
    pose proof (String.compare_antisym c c) as Hanti.
    rewrite Hcc in Hanti. discriminate.
  - apply String.compare_eq_iff in Hab. subst. now rewrite Hbc.
  - apply String.compare_eq_iff in Hbc. subst. now rewrite Hab.
  - now rewrite (string_compare_lt_trans a b c Hab Hbc).
Qed.

Lemma leb_refl (a : string) : String.leb a a = true.
Proof. destruct (String.leb_total a a); assumption. Qed.

Lemma insert_member_perm member sorted :
  Permutation (insert_member member sorted) (member :: sorted).
Proof.
  induction sorted as [| member' rest IH]; cbn; [reflexivity |].
  destruct (String.leb _ _); [reflexivity |].
  rewrite IH. apply perm_swap.
Qed.

Lemma sort_members_cons member members :
  sort_members (member :: members) = insert_member member (sort_members members).
Proof. reflexivity. Qed.

Lemma sort_members_perm members : Permutation (sort_members members) members.
Proof.
  induction members as [| member rest IH]; cbn; [reflexivity |].
  rewrite insert_member_perm. now constructor.
Qed.

Lemma insert_member_sorted member sorted :
  Sorted key_le sorted -> Sorted key_le (insert_member member sorted).
Proof.
  induction 1 as [| member' rest Hrest IH Hhd]; cbn.
  - repeat constructor.
  - destruct (String.leb (fst member) (fst member')) eqn:Hle.
    + constructor; [now constructor | now constructor].
    + constructor; [exact IH |].
      assert (Hge : key_le member' member).
      { unfold key_le. destruct (String.leb_total (fst member) (fst member'));
          [congruence | assumption]. }
      destruct rest as [| member'' rest']; cbn.
      * now constructor.
      * destruct (String.leb (fst member) (fst member'')); constructor;
          [exact Hge | now inversion Hhd].
Qed.

Lemma sort_members_sorted members : Sorted key_le (sort_members members).
Proof.
  induction members as [| member rest IH]; cbn; [constructor |].
  now apply insert_member_sorted.
Qed.

Lemma insert_member_head member sorted :
  HdRel key_le member sorted -> insert_member member sorted = member :: sorted.
Proof.
  destruct 1 as [| member' rest Hle]; cbn; [reflexivity |].
  unfold key_le in Hle. now rewrite Hle.
Qed.

Lemma sort_members_of_sorted members :
  Sorted key_le members -> sort_members members = members.
Proof.
  induction 1 as [| member rest Hrest IH Hhd]; [reflexivity |].
  rewrite sort_members_cons, IH. now apply insert_member_head.
Qed.

Lemma insert_member_map (f : json -> json) member sorted :
  insert_member (on_values f member) (map (on_values f) sorted)
  = map (on_values f) (insert_member member sorted).
Proof.
  induction sorted as [| member' rest IH]; cbn; [reflexivity |].
  destruct member as [k v], member' as [k' v']. cbn.
  destruct (String.leb k k'); cbn; [reflexivity |].
  f_equal. exact IH.
Qed.

Lemma sort_members_map (f : json -> json) members :
  sort_members (map (on_values f) members)
  = map (on_values f) (sort_members members).
Proof.
  induction members as [| member rest IH]; [reflexivity |].
  cbn [map]. rewrite !sort_members_cons, IH. apply insert_member_map.
Qed.

Lemma keys_on_values (f : json -> json) members :
  map fst (map (on_values f) members) = map fst members.
Proof.
  induction members as [| [k v] rest IH]; cbn; [reflexivity | now rewrite IH].
Qed.

#[local] Instance key_le_trans : Transitive key_le.
Proof. intros a b c. unfold key_le. apply leb_trans. Qed.

(** Two lists of members sorted by key, with the same members and
    distinct keys, are the same list. *)
Lemma sorted_members_unique (l1 l2 : list (string * json)) :
  Sorted key_le l1 -> Sorted key_le l2 ->
  NoDup (map fst l1) -> Permutation l1 l2 -> l1 = l2.
Proof.
  intros H1 H2. apply Sorted_StronglySorted in H1, H2; try exact key_le_trans.
  revert l2 H2. induction H1 as [| m1 rest1 Hrest1 IH Hall1];
    intros l2 H2 Hnd Hperm.
  - apply Permutation_nil in Hperm. now subst.
  - destruct H2 as [| m2 rest2 Hrest2 Hall2].
    + apply Permutation_sym, Permutation_nil in Hperm. discriminate.
    + assert (Hm : m1 = m2).
      { assert (Hin2 : In m2 (m1 :: rest1))
          by (apply (Permutation_in _ (Permutation_sym Hperm)); now left).
        assert (Hin1 : In m1 (m2 :: rest2))
          by (apply (Permutation_in _ Hperm); now left).
        destruct Hin2 as [Heq | Hin2]; [exact Heq |].
        destruct Hin1 as [Heq | Hin1]; [now symmetry |].
        rewrite Forall_forall in Hall1, Hall2.
        pose proof (Hall1 m2 Hin2) as Hle12. pose proof (Hall2 m1 Hin1) as Hle21.
        pose proof (String.leb_antisym _ _ Hle12 Hle21) as Hkey.
        cbn in Hnd. inversion Hnd as [| k ks Hnotin _]; subst.
        exfalso. apply Hnotin. rewrite Hkey. now apply in_map. }
      subst m2. f_equal.
      apply IH; [exact Hrest2 | now inversion Hnd |].
      now apply Permutation_cons_inv in Hperm.
Qed.

Lemma json_induction (P : json -> Prop) :
  P JNull -> (forall b, P (JBool b)) -> (forall n, P (JInt n)) ->
  (forall x, P (JFloat x)) -> (forall s, P (JStr s)) ->
  (forall items, Forall P items -> P (JList items)) ->
  (forall members, Forall (fun member => P (snd member)) members ->
                   P (JObj members)) ->
  forall v, P v.
Proof.
  intros Hnull Hbool Hint Hfloat Hstr Hlist Hobj.
  fix IH 1. intros [| b | n | x | s | items | members].
  - exact Hnull.
  - apply Hbool.
  - apply Hint.
  - apply Hfloat.
  - apply Hstr.
  - apply Hlist. induction items as [| item rest IHitems]; constructor;
      [apply IH | exact IHitems].
  - apply Hobj. induction members as [| [k v] rest IHmembers]; constructor;
      [apply IH | exact IHmembers].
Qed.

Lemma sort_json_keys_object members :
  sort_json_keys (JObj members)
  = JObj (sort_members (map (on_values sort_json_keys) members)).
Proof. reflexivity. Qed.

Lemma members_lookup_In members k v :
  NoDup (map fst members) ->
  (members_lookup members k = Some v <-> In (k, v) members).
Proof.
  induction members as [| [k' v'] rest IH]; cbn; intro Hnd.
  - split; [discriminate | contradiction].
  - inversion Hnd as [| ? ? Hnotin Hrest]; subst.
    destruct (String.eqb_spec k' k) as [-> | Hne].
    + split.
      * intro H. inversion H. now left.
      * intros [H | H]; [now inversion H |].
        exfalso. apply Hnotin. change k with (fst (k, v)). now apply in_map.
    + rewrite (IH Hrest). split; [now right |].
      intros [H | H]; [inversion H; congruence | exact H].
Qed.

Lemma members_lookup_perm l l' k :
  NoDup (map fst l) -> Permutation l l' ->
  members_lookup l k = members_lookup l' k.
Proof.
  intros Hnd Hperm.
  assert (Hnd' : NoDup (map fst l'))
    by (apply (Permutation_NoDup (Permutation_map fst Hperm) Hnd)).
  destruct (members_lookup l k) as [v |] eqn:Hl.
  - symmetry. apply (members_lookup_In l' k v Hnd').
    apply (Permutation_in _ Hperm). now apply (members_lookup_In l k v Hnd).
  - destruct (members_lookup l' k) as [v' |] eqn:Hl'; [| reflexivity].
    apply (members_lookup_In l' k v' Hnd') in Hl'.
    apply (Permutation_in _ (Permutation_sym Hperm)) in Hl'.
    apply (members_lookup_In l k v' Hnd) in Hl'. congruence.
Qed.

Lemma members_lookup_map (f : json -> json) members k :
  members_lookup (map (on_values f) members) k
  = option_map f (members_lookup members k).
Proof.
  induction members as [| [k' v'] rest IH]; cbn; [reflexivity |].
  destruct (String.eqb k' k); [reflexivity | exact IH].
Qed.

Lemma same_content_keys members members' :
  Forall2 (fun member member' : string * json =>
             fst member = fst member'
             /\ same_content (snd member) (snd member'))
          members members' ->
  map fst members = map fst members'.
Proof.
  induction 1 as [| m m' rest rest' [Hk _] _ IH]; cbn; [reflexivity |].
  now rewrite Hk, IH.
Qed.

(** X26: The order in which the dicts of a message were filled does not show
    in what is signed: two values that differ only in the order of the
    members of their dicts, at any depth (the header, the payload under
    ["data"], a dict inside a list), come out of [sort_json_keys] as the
    same value. *)
Theorem key_order_does_not_matter (value value' : json)
    (Hsame : same_content value value') :
  sort_json_keys value = sort_json_keys value'.
Proof.
  revert value' Hsame.
  induction value as [| c | n | x | s | items IH | members IH]
    using json_induction;
    intros b Hsame; inversion Hsame; subst; try reflexivity.
  - (* lists *)
    cbn [sort_json_keys]. f_equal.
    match goal with H : Forall2 same_content _ _ |- _ => rename H into Hitems end.
    clear Hsame. induction Hitems as [| item item' rest rest' Hitem _ IHrest];
      [reflexivity |].
    inversion IH as [| ? ? Hhead Htail]; subst. cbn [map].
    rewrite (Hhead _ Hitem), (IHrest Htail). reflexivity.
  - (* dicts *)
    match goal with
    | Hnd : NoDup (map fst members), Hm : Forall2 _ members ?ms',
      Hp : Permutation ?ms' ?r |- _ =>
        rename Hnd into Hdict; rename Hm into Hmembers; rename Hp into Hperm;
        rename ms' into members'
    end.
    clear Hsame.
    assert (Hvalues : map (on_values sort_json_keys) members
                      = map (on_values sort_json_keys) members').
    { clear Hdict Hperm.
      induction Hmembers as [| [k v] [k' v'] rest rest' [Hk Hv] _ IHrest];
        [reflexivity |].
      inversion IH as [| ? ? Hhead Htail]; subst. cbn in Hk, Hv, Hhead.
      cbn [map on_values]. subst k'.
      rewrite (Hhead _ Hv), (IHrest Htail). reflexivity. }
    rewrite !sort_json_keys_object, Hvalues. f_equal.
    apply sorted_members_unique.
    + apply sort_members_sorted.
    + apply sort_members_sorted.
    + rewrite (Permutation_map fst (sort_members_perm _)), keys_on_values.
      rewrite <- (same_content_keys _ _ Hmembers). exact Hdict.
    + rewrite !sort_members_perm. now apply Permutation_map.
Qed.

(** X27: [sort_json_keys] loses nothing and is idempotent: under every key of
    a dict the result holds the sorted value that was there, its members
    are in key order, and sorting again changes nothing. *)
Theorem sort_json_keys_keeps_members (members : list (string * json))
    (k : string)
    (Hdict : NoDup (map fst members)) :
  exists sorted,
    sort_json_keys (JObj members) = JObj sorted
    /\ members_lookup sorted k
       = option_map sort_json_keys (members_lookup members k)
    /\ Sorted key_le sorted
    /\ sort_json_keys (JObj sorted) = JObj sorted.
Proof.
  exists (sort_members (map (on_values sort_json_keys) members)).
  split; [apply sort_json_keys_object |]. split; [| split].
  - rewrite <- members_lookup_map. symmetry. apply members_lookup_perm.
    + now rewrite keys_on_values.
    + symmetry. apply sort_members_perm.
  - apply sort_members_sorted.
  - assert (Hidem : forall v, sort_json_keys (sort_json_keys v) = sort_json_keys v).
    { induction v as [| b | n | x | s | items IH | ms IH] using json_induction;
        try reflexivity.
      - cbn [sort_json_keys]. f_equal. rewrite map_map.
        induction IH as [| item rest Hitem _ IHrest]; cbn; [reflexivity |].
        now rewrite Hitem, IHrest.
      - rewrite !sort_json_keys_object. f_equal.
        rewrite <- sort_members_map.
        rewrite sort_members_of_sorted by apply sort_members_sorted.
        f_equal. rewrite map_map.
        induction IH as [| [k' v'] rest Hv _ IHrest]; cbn; [reflexivity |].
        cbn in Hv. now rewrite Hv, IHrest. }
    exact (Hidem (JObj members)).
Qed.

(** ** The properties on the scenarios *)

Lemma flag_up_when_receiving_down_when_connecting_witness :
  let w' := snd (market_making_loop no_str "BTC" two_decimals false short_run
                   (World_init false)) in
  phase (price_task w') = Connecting
  /\ price_ws_connected (st w') = false
  /\ is_streaming (phase (user_task w')) = true
  /\ user_data_ws_connected (st w') = true.
Proof.
  pose proof (flag_up_when_receiving_down_when_connecting no_str "BTC"
                two_decimals false short_run (World_init false)
                ltac:(repeat split; left; reflexivity))
    as (_ & Hdown & Hup & _).
  cbn zeta in Hdown, Hup |- *.
  assert (Hprice : phase (price_task
                            (snd (market_making_loop no_str "BTC"
                                    two_decimals false short_run
                                    (World_init false)))) = Connecting)
    by (vm_compute; reflexivity).
  assert (Huser : is_streaming
                    (phase (user_task
                              (snd (market_making_loop no_str "BTC"
                                      two_decimals false short_run
                                      (World_init false))))) = true)
    by (vm_compute; reflexivity).
  split; [exact Hprice |]. split; [exact (Hdown Hprice) |].
  split; [exact Huser | exact (Hup Huser)].
Defined.

Lemma reconnect_delay_bounded_witness :
  let w' := snd (market_making_loop no_str "BTC" two_decimals false short_run
                   (World_init false)) in
  (5 <=? reconnect_delay (price_task w')) = true
  /\ (reconnect_delay (price_task w') <=? 60) = true.
Proof.
  pose proof (reconnect_delay_bounded no_str "BTC" two_decimals false short_run
                (World_init false)
                ltac:(repeat split; left; reflexivity))
    as [(_ & Hlow & Hhigh) _].
  split; assumption.
Defined.

Lemma mid_price_stays_positive_witness :
  mid_price (st (snd (market_making_loop no_str "BTC" two_decimals false
                        short_run opening_flat))) = Some 100
  /\ Py.truthy 100 = true
  /\ Py.fdiv 15 100 = Ok (15 / 100).
Proof.
  assert (Hmid : mid_price (st (snd (market_making_loop no_str "BTC" two_decimals
                                       false short_run opening_flat)))
                 = Some 100) by (vm_compute; reflexivity).
  split; [exact Hmid |].
  destruct (mid_price_stays_positive no_str "BTC" two_decimals false short_run
              opening_flat eq_refl 100 Hmid) as (_ & Htruthy & Hdiv).
  split; [exact Htruthy | exact (Hdiv 15)].
Defined.

Lemma quote_makes_price_data_valid_witness :
  is_price_data_valid
    (websocket_price_updater "BTC" (Received 5 5 (Object btc_quote))
       price_streaming) 35
  = true.
Proof.
  apply (quote_makes_price_data_valid "BTC" 0 5 5 btc_quote
           (match pm_prices btc_quote with Some l => l | None => [] end)
           price_streaming 35 eq_refl eq_refl eq_refl).
  - repeat (apply Forall_cons; [intros _; split; discriminate |]).
    apply Forall_nil.
  - apply Exists_cons_tl, Exists_cons_hd. split; [reflexivity |].
    exists 101. split; reflexivity.
  - reflexivity.
Defined.

Lemma positions_of_other_symbols_change_nothing_witness :
  on_user_data_message "BTC" 3 (Object eth_position_update) closing_half
  = (Ok Continue, closing_half).
Proof.
  apply (positions_of_other_symbols_change_nothing "BTC" 3 eth_position_update
           (match um_channel eth_position_update with
            | AccountPositions l => l | _ => [] end)
           closing_half eq_refl eq_refl eq_refl).
  - discriminate.
  - repeat (apply Forall_cons; [reflexivity |]). apply Forall_nil.
Defined.

Lemma position_report_decides_mode_witness :
  mode (st (snd (on_position unpriced_short closing_half))) = bid.
Proof.
  pose proof (position_report_decides_mode unpriced_short 0.5 0 closing_half
                eq_refl eq_refl) as (_ & _ & Hmode).
  exact Hmode.
Defined.

Lemma listed_order_enqueues_complete_fills_witness :
  let w' := snd (on_user_data_message "BTC" 2 (Object filled_listing)
                   order_outstanding) in
  order_updates (st w')
  = [ [ ("e", PStr "ORDER_FILLED");
        ("o", PDict [ ("i", PInt 7); ("X", PStr "FILLED"); ("z", PFloat 2);
                      ("s", PStr "BTC"); ("d", PStr "bid") ]) ] ]
  /\ active_order_id (st w') = Some 7%Z.
Proof.
  apply (listed_order_enqueues_complete_fills "BTC" 2 filled_listing
           (match um_channel filled_listing with
            | AccountOrders l => l | _ => [] end)
           7%Z order_outstanding eq_refl eq_refl eq_refl).
  - discriminate.
  - repeat (apply Forall_cons; [intros _; split; discriminate |]).
    apply Forall_nil.
  - reflexivity.
Defined.

Lemma cycle_without_data_only_sleeps_witness :
  let r := cycle no_str "BTC" two_decimals false rejecting_cycle
             connected_no_data in
  fst r = Ok tt
  /\ trace (snd r) = [Sleep 2]
  /\ active_order_id (st (snd r)) = Some 7%Z.
Proof.
  pose proof (cycle_without_data_only_sleeps no_str "BTC" two_decimals false
                rejecting_cycle connected_no_data eq_refl eq_refl
                (or_introl eq_refl)) as (Hok & Htrace & Hid & _).
  repeat split; assumption.
Defined.

Lemma fill_wait_accepts_feed_events_witness :
  let r := wait_for_fill no_str "BTC" 10 [mkWaitStep 11 []] 0 fill_pending in
  fst r = Ok 2 /\ active_order_id (st (snd r)) = Some 7%Z.
Proof.
  pose proof (fill_wait_accepts_feed_events no_str "BTC" 10 (mkWaitStep 11 [])
                [] 0 2 7%Z
                (fill_event_missing "BTC" (st order_outstanding)) []
                fill_pending eq_refl eq_refl eq_refl
                (or_intror (ex_intro _ "BTC"
                   (ex_intro _ (st order_outstanding)
                      (conj eq_refl (conj eq_refl eq_refl))))))
    as (Hok & Hid & _).
  split; assumption.
Defined.

Lemma spreads_are_within_bounds_witness :
  fst (get_spreads no_str upper_ascii params_dir btc_parameters [] 0
         (Some "btc") (World_init false))
  = Ok (0.001, 0.005,
        [("BTC", {| ce_buy := 0.001; ce_sell := 0.005; ce_expires_at := 10;
                    ce_source_path :=
                      Some "params/avellaneda_parameters_BTC.json" |})])
  /\ in_bounds 0.001 /\ in_bounds 0.005.
Proof.
  split; [vm_compute; reflexivity |].
  pose proof (spreads_are_within_bounds no_str upper_ascii params_dir
                btc_parameters [] 0 (Some "btc") (World_init false)
                0.001 0.005 _ (Forall_nil _) eq_refl) as (Hb & Hs & _).
  split; assumption.
Defined.

Lemma spreads_are_cached_for_ten_seconds_witness :
  get_spreads no_str upper_ascii params_dir no_files
    [("BTC", {| ce_buy := 0.001; ce_sell := 0.005; ce_expires_at := 10;
                ce_source_path :=
                  Some "params/avellaneda_parameters_BTC.json" |})]
    9.5 (Some "btc") (World_init false)
  = (Ok (0.001, 0.005,
         [("BTC", {| ce_buy := 0.001; ce_sell := 0.005; ce_expires_at := 10;
                     ce_source_path :=
                       Some "params/avellaneda_parameters_BTC.json" |})]),
     World_init false).
Proof.
  apply (spreads_are_cached_for_ten_seconds no_str upper_ascii params_dir
           btc_parameters no_files [] 0 9.5 (Some "btc") (World_init false)
           (World_init false) 0.001 0.005 _ I eq_refl eq_refl).
Defined.

Lemma unreadable_files_give_default_spreads_witness :
  fst (get_spreads no_str upper_ascii params_dir no_files [] 0 (Some "btc")
         (World_init false))
  = Ok (0.006, 0.006,
        [("BTC", {| ce_buy := 0.006; ce_sell := 0.006; ce_expires_at := 10;
                    ce_source_path := None |})]).
Proof.
  rewrite (unreadable_files_give_default_spreads no_str upper_ascii params_dir
             no_files [] 0 (Some "btc") (World_init false) (fun _ => I)).
  vm_compute. reflexivity.
Defined.

Lemma unreadable_signal_means_long_bias_witness :
  flip_mode
    (st (snd (supertrend
                (snd (supertrend_signal_updater SignalMissing (World_init true))))))
  = false.
Proof.
  apply (unreadable_signal_means_long_bias SignalMissing (World_init true)).
  - intros (data & v & Hfile & _). discriminate.
  - reflexivity.
Defined.

Lemma balance_check_never_fails_witness :
  let w := snd (main_startup known_numbers "BTC" long_startup
                  (World_init FLIP_MODE)) in
  is_balance_data_valid (st w) = true
  /\ is_balance_data_valid
       (st (activities "BTC" []
              (snd (market_making_loop known_numbers "BTC" two_decimals false
                      short_run w))))
     = true.
Proof.
  apply (balance_check_never_fails known_numbers "BTC" two_decimals false
           long_startup (World_init FLIP_MODE) short_run []).
  vm_compute. reflexivity.
Defined.

Lemma unfilled_order_is_cancelled_and_forgotten_witness :
  let w := snd (place_tracked "BTC" unfilled_cycle (Py.FmtFixed false 9940 2)
                  (Py.FmtFixed false 200 2) bid false opening_flat_streaming) in
  let r := monitor_placed no_str "BTC" false unfilled_cycle w in
  fst r = Ok tt
  /\ trace (snd r)
     = [ PlaceOrder (Py.FmtFixed false 9940 2) (Py.FmtFixed false 200 2) bid false;
         CancelOrder 9; Sleep 0.01 ]
  /\ active_order_id (st (snd r)) = None.
Proof.
  pose proof (unfilled_order_is_cancelled_and_forgotten no_str "BTC" false
                unfilled_cycle (mkExn TimeoutError "")
                (snd (place_tracked "BTC" unfilled_cycle
                        (Py.FmtFixed false 9940 2) (Py.FmtFixed false 200 2)
                        bid false opening_flat_streaming))
                _ ltac:(vm_compute; reflexivity) eq_refl)
    as (Hok & Htrace & Hid & _).
  repeat split; assumption.
Defined.


Lemma parameter_file_candidates_spec_witness :
  _parameter_file_candidates upper_ascii (Some "btcusdt") = ["BTCUSDT"; "BTC"].
Proof.
  pose proof (parameter_file_candidates_spec upper_ascii (Some "btcusdt"))
    as (_ & Hstrip & _).
  cbn zeta in Hstrip.
  destruct (Hstrip "USDT") as [Hlist _].
  - cbn. tauto.
  - vm_compute. reflexivity.
  - vm_compute. lia.
  - rewrite Hlist. vm_compute. reflexivity.
Defined.

Lemma signal_initialisation_is_all_or_nothing_witness :
  let w' := snd (initialize_supertrend_signal downtrend_file (World_init false)) in
  file_trend downtrend_file = Some (-1)%Z
  /\ supertrend_signal (st w') = Some (-1)%Z
  /\ flip_mode (st w') = true.
Proof.
  pose proof (signal_initialisation_is_all_or_nothing downtrend_file
                (World_init false)) as (_ & Hst & _).
  cbn zeta in Hst |- *. rewrite Hst.
  split; [reflexivity | split; reflexivity].
Defined.

Lemma startup_adopts_only_aligned_position_witness :
  let r := check_existing_position known_numbers "BTC" long_startup
             (World_init false) in
  worth_adopting false 0.5 100 = true
  /\ mode (st (snd r)) = ask
  /\ position_size (st (snd r)) = 0.5.
Proof.
  pose proof (startup_adopts_only_aligned_position known_numbers "BTC"
                long_startup (World_init false)) as (_ & _ & _ & Hfirst & _).
  cbn zeta in Hfirst |- *.
  assert (Hworth : worth_adopting false 0.5 100 = true)
    by (vm_compute; reflexivity).
  specialize (Hfirst 0.5 100).
  change (flip_mode (st (World_init false))) with false in Hfirst.
  rewrite Hworth in Hfirst.
  split; [exact Hworth |]. apply Hfirst.
  exists [JObj [("symbol", JStr "ETH"); ("size", JStr "-2");
                ("entry_price", JStr "2500")]],
         (JObj [("symbol", JStr "BTC"); ("size", JStr "0.5");
                ("entry_price", JStr "100")]),
         [].
  split; [reflexivity |].
  split; [constructor; [exists (JStr "ETH"); split; reflexivity | constructor] |].
  split; [exists (JStr "BTC"); split; reflexivity |].
  split; [exists (JStr "0.5") | exists (JStr "100")]; split; reflexivity.
Defined.

Lemma key_order_does_not_matter_witness :
  sort_json_keys signed_message = sort_json_keys signed_message_reordered.
Proof.
  apply key_order_does_not_matter.
  unfold signed_message, signed_message_reordered.
  apply same_dict
    with (members' :=
            [ ("timestamp", JInt 1700000000000); ("expiry_window", JInt 5000);
              ("type", JStr "create_order");
              ("data", JObj [ ("amount", JStr "2.00"); ("symbol", JStr "BTC");
                              ("price", JStr "99.40") ]) ]).
  - repeat constructor; cbn; intuition discriminate.
  - repeat (apply Forall2_cons; [split; [reflexivity | apply same_value] |]).
    apply Forall2_cons; [| apply Forall2_nil].
    split; [reflexivity |]. cbn [snd].
    apply same_dict
      with (members' := [ ("symbol", JStr "BTC"); ("price", JStr "99.40");
                          ("amount", JStr "2.00") ]).
    + repeat constructor; cbn; intuition discriminate.
    + repeat (apply Forall2_cons; [split; [reflexivity | apply same_value] |]).
      apply Forall2_nil.
    + apply Permutation_sym, Permutation_cons_append.
  - apply (Permutation_trans (Permutation_cons_append _ _)). cbn [app].
    exact (Permutation_middle [_; _] [_] _).
Defined.

Lemma sort_json_keys_keeps_members_witness :
  exists sorted,
    sort_json_keys (JObj signing_header) = JObj sorted
    /\ members_lookup sorted "type" = Some (JStr "create_order").
Proof.
  destruct (sort_json_keys_keeps_members signing_header "type")
    as (sorted & Heq & Hlookup & _).
  - repeat constructor; cbn; intuition discriminate.
  - exists sorted. split; [exact Heq | exact Hlookup].
Defined.
